(** * SEP scraper: a shallow embedding of the scraper, the embedding
    generator and the persistence gateway, with the properties of the
    specification proved (or refuted) against it.

    Python [str] values are modelled as [string]; a character stands for a
    code point below 256.  Python's [None] is [None], exceptions are an
    explicit outcome, and every call that leaves the process (HTTP, the
    embeddings provider, the datastore) is recorded in a trace. *)

From Stdlib Require Import ZArith Ascii String.
From stdpp Require Import gmap strings list.

Local Open Scope Z_scope.
Set Warnings "-register-all".

(** ** Python strings *)

Module pystr.

(** [str.isspace] on one character, as used by [str.strip] and by the
    [\s] class of [re] on [str] patterns (code points below 256). *)
Definition is_space (c : ascii) : bool :=
  let n := N_of_ascii c in
  ((9 <=? n) && (n <=? 13) || (28 <=? n) && (n <=? 32)
   || (n =? 133) || (n =? 160))%N.

Fixpoint lstrip (s : string) : string :=
  match s with
  | String c s' => if is_space c then lstrip s' else s
  | EmptyString => EmptyString
  end.

Definition rstrip (s : string) : string :=
  String.rev (lstrip (String.rev s)).

(** [s.strip()] *)
Definition strip (s : string) : string := rstrip (lstrip s).

(** truth value of a [str]: the empty string is false *)
Definition truthy (s : string) : bool :=
  match s with EmptyString => false | _ => true end.

(** [s.startswith(p)] *)
Fixpoint startswith (p s : string) : bool :=
  match p, s with
  | EmptyString, _ => true
  | String a p', String b s' => if decide (a = b) then startswith p' s' else false
  | String _ _, EmptyString => false
  end.

(** [s[:n]] for [n >= 0] *)
Fixpoint take (n : nat) (s : string) : string :=
  match n, s with
  | S n', String c s' => String c (take n' s')
  | _, _ => EmptyString
  end.

Fixpoint all_space (s : string) : bool :=
  match s with
  | EmptyString => true
  | String c s' => is_space c && all_space s'
  end.

End pystr.

(** ** The fragment of [re] the scraper uses *)

Module re.

(** one-character classes: a literal character, or [\s] *)
Inductive cls := Chr (c : ascii) | Space.

Definition cls_ok (k : cls) (a : ascii) : bool :=
  match k with
  | Chr c => bool_decide (a = c)
  | Space => pystr.is_space a
  end.

(** patterns: concatenation, ordered alternation [|] and the greedy
    star of a one-character class *)
Inductive regex :=
| Eps
| One (k : cls)
| Star (k : cls)
| Cat (r1 r2 : regex)
| Alt (r1 r2 : regex).

Fixpoint lit (s : string) : regex :=
  match s with
  | EmptyString => Eps
  | String c s' => Cat (One (Chr c)) (lit s')
  end.

(** [\s+] *)
Definition plus (k : cls) : regex := Cat (One k) (Star k).

(** greedy star with backtracking: take as many characters as
    possible, then give them back one by one until the rest of the
    pattern (the continuation [k]) matches *)
Fixpoint star (c : cls) (k : string -> option string) (s : string) : option string :=
  match s with
  | String a s' =>
      if cls_ok c a
      then match star c k s' with
           | Some r => Some r
           | None => k s
           end
      else k s
  | EmptyString => k s
  end.

(** the backtracking matcher: [exec r k s] matches [r] at the start of
    [s], then [k] on what is left; the result is the text after the
    whole match *)
Fixpoint exec (r : regex) (k : string -> option string) (s : string) : option string :=
  match r with
  | Eps => k s
  | One c =>
      match s with
      | String a s' => if cls_ok c a then k s' else None
      | EmptyString => None
      end
  | Star c => star c k s
  | Cat r1 r2 => exec r1 (exec r2 k) s
  | Alt r1 r2 =>
      match exec r1 k s with
      | Some t => Some t
      | None => exec r2 k s
      end
  end.

(** [pattern.match(s)]: the text after the match at position 0 *)
Definition match_at (r : regex) (s : string) : option string := exec r Some s.

(** [re.sub("^" + r, "", s)] for a pattern [r] that cannot match the
    empty string: [^] only matches at position 0, so at most one match
    is replaced *)
Definition sub_anchored (r : regex) (s : string) : string :=
  match match_at r s with
  | Some rest => rest
  | None => s
  end.

(** [re.split(r, s)] for a pattern that cannot match the empty string.
    [skip] counts the characters of the current separator still to be
    dropped, [cur] is the current piece, reversed. *)
Fixpoint split_go (r : regex) (skip : nat) (cur : string) (s : string) : list string :=
  match s with
  | EmptyString => [String.rev cur]
  | String c s' =>
      match skip with
      | S n => split_go r n cur s'
      | O =>
          match match_at r s with
          | Some rest =>
              if decide (String.length rest < String.length s)%nat
              then String.rev cur
                     :: split_go r (String.length s' - String.length rest) EmptyString s'
              else split_go r O (String c cur) s'
          | None => split_go r O (String c cur) s'
          end
      end
  end.

Definition split (r : regex) (s : string) : list string :=
  split_go r O EmptyString s.

End re.

(** ** Python outcomes *)

Module py.

(** a raised exception, with its class name *)
Inductive exn := Exception (cls : string).

(** what a call does: return a value or raise *)
Inductive result (A : Type) :=
| Ok (a : A)
| Raise (e : exn).
Arguments Ok {A} a.
Arguments Raise {A} e.

Definition raised {A} (r : result A) : bool :=
  match r with Ok _ => false | Raise _ => true end.

(** [int(c)] on a one-character string *)
Definition int_of_digit (c : ascii) : result Z :=
  let n := Z.of_N (N_of_ascii c) in
  if (48 <=? n) && (n <=? 57) then Ok (n - 48) else Raise (Exception "ValueError").

End py.

(** ** The parse tree of BeautifulSoup (html.parser) *)

Module bs4.

(** an attribute value: a string, or a list of strings for the
    multi-valued attributes ([class], ...) *)
Inductive attr := AStr (s : string) | AList (l : list string).

Global Instance attr_eq_dec : EqDecision attr.
Proof. solve_decision. Defined.

(** the tree: text nodes and tags (tag names as the parser produces
    them, in lower case) *)
Inductive node :=
| NavigableString (s : string)
| Tag (name : string) (attrs : gmap string attr) (contents : list node).

(** the [BeautifulSoup] object itself is a tag named [[document]] *)
Definition BeautifulSoup (contents : list node) : node :=
  Tag "[document]" ∅ contents.

Definition attr_truthy (a : option attr) : bool :=
  match a with
  | None => false
  | Some (AStr s) => pystr.truthy s
  | Some (AList l) => match l with [] => false | _ => true end
  end.

(** [tag.get(key)] *)
Definition get (key : string) (n : node) : option attr :=
  match n with
  | NavigableString _ => None
  | Tag _ attrs _ => attrs !! key
  end.

Definition name (n : node) : option string :=
  match n with
  | NavigableString _ => None
  | Tag nm _ _ => Some nm
  end.

(** [tag.descendants]: every node below the tag, in document order *)
Fixpoint descendants (n : node) : list node :=
  match n with
  | NavigableString _ => []
  | Tag _ _ cs => flat_map (fun c => c :: descendants c) cs
  end.

(** [tag.text]: the text nodes below the tag, concatenated *)
Fixpoint text (n : node) : string :=
  match n with
  | NavigableString s => s
  | Tag _ _ cs => foldr (fun c rest => text c +:+ rest) EmptyString cs
  end.

(** *** CSS selectors (the fragment the scraper uses) *)

Inductive simple :=
| ById (i : string)        (* #i *)
| ByClass (c : string)     (* .c *)
| ByType (n : string).     (* a tag name *)

(** a compound selector [h1.title] is a list of simple selectors, a
    selector list [a, b] is a list of compounds *)
Definition compound := list simple.
Definition selector := list compound.

Definition match_simple (s : simple) (n : node) : bool :=
  match n with
  | NavigableString _ => false
  | Tag nm attrs _ =>
      match s with
      | ById i => bool_decide (attrs !! "id" = Some (AStr i))
      | ByClass c =>
          match attrs !! "class" with
          | Some (AList l) => bool_decide (c ∈ l)
          | _ => false
          end
      | ByType t => bool_decide (nm = t)
      end
  end.

Definition matches (sel : selector) (n : node) : bool :=
  existsb (fun c : compound => forallb (fun s => match_simple s n) c) sel.

(** [tag.select(sel)] and [tag.select_one(sel)] *)
Definition select (sel : selector) (n : node) : list node :=
  List.filter (matches sel) (descendants n).

Definition select_one (sel : selector) (n : node) : option node :=
  head (select sel n).

Definition is_body (n : node) : bool := bool_decide (name n = Some "body").

(** [soup.body]: the first tag named [body] *)
Definition body (soup : node) : option node :=
  head (List.filter is_body (descendants soup)).

(** the children that are left when every child satisfying [hit] is
    detached and [rec] has been run on the others *)
Fixpoint prune (hit : node -> bool) (rec : node -> node) (l : list node) : list node :=
  match l with
  | [] => []
  | c :: l' => if hit c then prune hit rec l' else rec c :: prune hit rec l'
  end.

(** [for elem in tag.select(sel): elem.decompose()]: every match below
    [n] is detached together with its subtree *)
Fixpoint decompose_all (sel : selector) (n : node) : node :=
  match n with
  | NavigableString _ => n
  | Tag nm attrs cs => Tag nm attrs (prune (matches sel) (decompose_all sel) cs)
  end.

(** the children after the first node among them and below them (in
    document order) that satisfies [p] was changed by [f]; [rec]
    looks below a child *)
Fixpoint first_in (p : node -> bool) (f : node -> node) (rec : node -> option node)
    (l : list node) : option (list node) :=
  match l with
  | [] => None
  | c :: l' =>
      if p c then Some (f c :: l')
      else match rec c with
           | Some c' => Some (c' :: l')
           | None => cons c <$> first_in p f rec l'
           end
  end.

(** the tree after the first node below [n] that satisfies [p] was
    changed in place by [f]; [None] when there is no such node *)
Fixpoint update_first (p : node -> bool) (f : node -> node) (n : node) : option node :=
  match n with
  | NavigableString _ => None
  | Tag nm attrs cs => Tag nm attrs <$> first_in p f (update_first p f) cs
  end.

End bs4.

(** ** The world outside the process

    The HTTP session, the embeddings provider and the datastore are
    external.  A call to one of them is appended to the trace of the
    world; what it answers is read from an environment that may depend
    on the request and on everything that happened before (the length
    of the trace).  Logging is not modelled. *)

Module world.
Export py.

(** a Python [float], by its IEEE bit pattern; the code never computes
    with one *)
Record float := Float { float_bits : Z }.

(** one entry of the table of contents: the dictionary
    [{"id": ..., "text": ..., "level": ...}] *)
Record toc_entry := TocEntry {
  toc_id : bs4.attr;
  toc_text : string;
  toc_level : Z;
}.

(** a column value of a stored record *)
Inductive value :=
| VNull
| VStr (s : string)
| VStrs (l : list string)
| VVec (v : list float)
| VToc (t : list toc_entry).

Global Instance float_eq_dec : EqDecision float.
Proof. solve_decision. Defined.
Global Instance toc_entry_eq_dec : EqDecision toc_entry.
Proof. solve_decision. Defined.
Global Instance value_eq_dec : EqDecision value.
Proof. solve_decision. Defined.

(** truth value of a column value read into Python *)
Definition value_truthy (v : value) : bool :=
  match v with
  | VNull => false
  | VStr s => pystr.truthy s
  | VStrs l => match l with [] => false | _ => true end
  | VVec l => match l with [] => false | _ => true end
  | VToc l => match l with [] => false | _ => true end
  end.

(** a record of a table (and a Python dictionary sent to one); a
    column that is not in the map is NULL *)
Abbreviation row := (gmap string value).

Definition of_opt (o : option string) : value :=
  match o with Some s => VStr s | None => VNull end.

(** a text column read back: a string, or [None] for NULL *)
Definition as_text (v : option value) : option string :=
  match v with Some (VStr s) => Some s | _ => None end.

(** the requests the client library sends with [execute()] *)
Inductive query :=
| SelectEq (table : string) (columns : option (list string)) (col : string) (v : value)
| SelectIlike (table : string) (columns : option (list string))
              (col pattern : string) (limit : Z)
| SelectRange (table : string) (columns : option (list string))
              (order_desc : string) (first last : Z)
| UpdateEq (table : string) (patch : row) (col : string) (v : value)
| Insert (table : string) (r : row)
| Rpc (fn : string) (query_embedding : list float) (similarity_threshold : float)
      (match_count : Z) (search_type : string).

Inductive event :=
| HttpHead (url : string)
| EmbeddingsCreate (model input : string)
| Sleep (seconds : Z)
| DbExecute (q : query).

Record env := Env {
  (** [session.head(url)]: the status code, or the exception raised *)
  http_head : nat -> string -> result Z;
  (** [openai.api_key] *)
  api_key : option string;
  (** [openai.embeddings.create(model, input).data[0].embedding] *)
  embeddings_create : nat -> string -> string -> result (list float);
  (** whether the n-th request to the datastore raises *)
  db_fault : nat -> query -> option exn;
  (** the answer of the stored procedure [match_entries] *)
  match_entries : nat -> list float -> float -> Z -> string -> list row;
  (** [datetime.now().isoformat()] *)
  now : nat -> string;
}.

Record state := State {
  trace : list event;
  tables : gmap string (list row);
}.

(** computations: read the environment, change the world, return or
    raise *)
Definition M (A : Type) : Type := env -> state -> result A * state.

Definition ret {A} (a : A) : M A := fun _ w => (Ok a, w).

Definition bind {A B} (m : M A) (k : A -> M B) : M B :=
  fun e w =>
    match m e w with
    | (Ok a, w') => k a e w'
    | (Raise x, w') => (Raise x, w')
    end.

(** [try: a = m; k a  except Exception as e: h e], where [k] handles
    its own exceptions *)
Definition try_with {A B} (m : M A) (k : A -> M B) (h : exn -> M B) : M B :=
  fun e w =>
    match m e w with
    | (Ok a, w') => k a e w'
    | (Raise x, w') => h x e w'
    end.

(** [try: m  except Exception as e: h e] *)
Definition try_except {A} (m : M A) (h : exn -> M A) : M A :=
  fun e w =>
    match m e w with
    | (Ok a, w') => (Ok a, w')
    | (Raise x, w') => h x e w'
    end.

Definition ask : M env := fun e w => (Ok e, w).

Definition emit (ev : event) : M unit :=
  fun _ w => (Ok tt, State (trace w ++ [ev]) (tables w)).

(** the number of requests sent so far *)
Definition clock : M nat := fun _ w => (Ok (length (trace w)), w).

Definition lift {A} (r : result A) : M A := fun _ w => (r, w).

End world.

Notation "'let!' x := c1 'in' c2" := (world.bind c1 (fun x => c2))
  (at level 10, x name, c1 at level 100, c2 at level 200, only parsing).

(** ** simple_scraper.py: the pure part of [SimpleSEPScraper] *)

Module simple_scraper.
Import bs4 world.


Definition sel_headings : selector :=
  [[ByType "h2"]; [ByType "h3"]; [ByType "h4"]; [ByType "h5"]; [ByType "h6"]].

(** [int(heading.name[1])] *)
Definition name_digit (heading : node) : py.result Z :=
  match name heading with
  | Some nm =>
      match String.get 1 nm with
      | Some c => py.int_of_digit c
      | None => py.Raise (py.Exception "IndexError")
      end
  | None => py.Raise (py.Exception "TypeError")
  end.

(** the body of the loop of [_extract_toc] *)
Definition toc_step (toc : list toc_entry) (heading : node) : py.result (list toc_entry) :=
  match get "id" heading with
  | Some i =>
      if attr_truthy (Some i)
      then match name_digit heading with
           | py.Ok r =>
               let level := r - 1 in
               py.Ok (toc ++ [TocEntry i (pystr.strip (text heading)) level])
           | py.Raise e => py.Raise e
           end
      else py.Ok toc
  | None => py.Ok toc
  end.

Fixpoint toc_loop (toc : list toc_entry) (headings : list node) : py.result (list toc_entry) :=
  match headings with
  | [] => py.Ok toc
  | heading :: rest =>
      match toc_step toc heading with
      | py.Ok toc' => toc_loop toc' rest
      | py.Raise e => py.Raise e
      end
  end.

Definition _extract_toc (content_elem : option node) : py.result (list toc_entry) :=
  match content_elem with
  | None => py.Ok []
  | Some el => toc_loop [] (select sel_headings el)
  end.

Definition sel_main_content : selector := [[ById "main-content"]].
Definition sel_aueditable : selector := [[ByClass "aueditable"]].
Definition sel_chrome : selector :=
  [[ById "header"]; [ById "footer"]; [ByType "script"]; [ByType "style"]].

(** [str(content_elem)]; [decode] is the serializer of a tag, which
    the scraper does not look into *)
Definition py_str (decode : node -> string) (content_elem : option node) : string :=
  match content_elem with
  | Some el => decode el
  | None => "None"
  end.

(** [_process_content]: the result, and the document as the call
    leaves it ([decompose] works in place) *)
Definition _process_content (decode : node -> string) (soup : node)
  : py.result (string * list toc_entry) * node :=
  let content_elem := select_one sel_main_content soup in
  let content_elem :=
    match content_elem with
    | None => select_one sel_aueditable soup
    | Some _ => content_elem
    end in
  let '(content_elem, soup) :=
    match content_elem with
    | None =>
        match body soup with
        | Some b =>
            (Some (decompose_all sel_chrome b),
             default soup (update_first is_body (decompose_all sel_chrome) soup))
        | None => (None, soup)
        end
    | Some _ => (content_elem, soup)
    end in
  match _extract_toc content_elem with
  | py.Ok toc => (py.Ok (py_str decode content_elem, toc), soup)
  | py.Raise e => (py.Raise e, soup)
  end.

(** the patterns of [_extract_metadata] *)
Definition re_entry_by : re.regex :=              (* Entry by\s*:\s*  (after ^) *)
  re.Cat (re.lit "Entry by")
    (re.Cat (re.Star re.Space) (re.Cat (re.One (re.Chr ":")) (re.Star re.Space))).

Definition re_author_sep : re.regex :=            (* ,\s*|\s+and\s+|\s*&\s* *)
  re.Alt (re.Cat (re.One (re.Chr ",")) (re.Star re.Space))
    (re.Alt (re.Cat (re.plus re.Space) (re.Cat (re.lit "and") (re.plus re.Space)))
       (re.Cat (re.Star re.Space) (re.Cat (re.One (re.Chr "&")) (re.Star re.Space)))).

(** lines 113-118 of [_extract_metadata], from the text of the author
    element on *)
Definition authors_of_text (elem_text : string) : list string :=
  let authors_text := pystr.strip elem_text in
  let authors_text := re.sub_anchored re_entry_by authors_text in
  let author_parts := re.split re_author_sep authors_text in
  pystr.strip <$> List.filter (fun author => pystr.truthy (pystr.strip author)) author_parts.

(** the [authors] entry of the dictionary [_extract_metadata] returns *)
Definition _extract_metadata_authors (soup : node) : list string :=
  match select_one [[ById "aueditor"]] soup with
  | Some author_elem => authors_of_text (text author_elem)
  | None => []
  end.

(** [self.session.head(url).status_code] *)
Definition session_head (url : string) : M Z :=
  let! n := clock in
  let! _ := emit (HttpHead url) in
  let! e := ask in
  lift (http_head e n url).

Definition entry_exists (url : string) : M bool :=
  try_except
    (if negb (pystr.startswith "https://plato.stanford.edu/entries/" url)
     then ret false
     else let! status_code := session_head url in
          ret (bool_decide (status_code = 200)))
    (fun _ => ret false).

End simple_scraper.


(** ** embeddings.py *)

Module embeddings.
Import world.

Definition EMBEDDINGS_MODEL : string := "text-embedding-3-small".

(** [openai.embeddings.create(model=model, input=text).data[0].embedding] *)
Definition create (model text : string) : M (list float) :=
  let! n := clock in
  let! _ := emit (EmbeddingsCreate model text) in
  let! e := ask in
  lift (embeddings_create e n model text).

Definition sleep (seconds : Z) : M unit := emit (Sleep seconds).

(** the loop [for attempt in range(max_retries)], over the attempts
    still to come; falling off its end returns [None] *)
Fixpoint attempt_loop (attempts : list Z) (max_retries : Z) (model text : string)
  : M (option (list float)) :=
  match attempts with
  | [] => ret None
  | attempt :: rest =>
      try_except
        (let! embedding := create model text in
         ret (Some embedding))
        (fun _ =>
           if bool_decide (attempt < max_retries - 1)
           then let! _ := sleep (2 ^ attempt) in
                attempt_loop rest max_retries model text
           else ret None)
  end.

(** [range(n)] *)
Definition range (n : Z) : list Z := seqZ 0 n.

(** [text] is a [str], or [None] where a caller passes a NULL column *)
Definition generate_embedding (text : option string) (model : string) (max_retries : Z)
  : M (option (list float)) :=
  match text with
  | None => ret None
  | Some text =>
      if negb (pystr.truthy text) || negb (pystr.truthy (pystr.strip text))
      then ret None
      else
        let! e := ask in
        if negb (from_option pystr.truthy false (api_key e))
        then ret None
        else
          let text := pystr.take (Z.to_nat 20000) text in
          attempt_loop (range max_retries) max_retries model text
  end.

(** truth value of a list *)
Definition nonempty {A} (l : option (list A)) : bool :=
  match l with Some (_ :: _) => true | _ => false end.

(** the dictionary with the keys [title_embedding] and
    [content_embedding], each present when its call gave a vector *)
Definition generate_article_embeddings (title content : option string)
  : M (gmap string (list float)) :=
  let result : gmap string (list float) := ∅ in
  let! title_embedding := generate_embedding title EMBEDDINGS_MODEL 3 in
  let result :=
    match title_embedding with
    | Some v => if nonempty title_embedding then <["title_embedding" := v]> result else result
    | None => result
    end in
  let! content_embedding := generate_embedding content EMBEDDINGS_MODEL 3 in
  let result :=
    match content_embedding with
    | Some v => if nonempty content_embedding then <["content_embedding" := v]> result else result
    | None => result
    end in
  ret result.

End embeddings.

(** ** The datastore behind the client library

    Tables are lists of records in storage order.  [ILIKE] is the
    pattern match of the database: [%] stands for any text, [_] for any
    one character, a backslash quotes the next character, and letters
    match without regard to case. *)

Module postgrest.
Import world.

Definition lower_char (c : ascii) : ascii :=
  let n := N_of_ascii c in
  if ((65 <=? n) && (n <=? 90))%N then ascii_of_N (n + 32) else c.

Fixpoint like (p : string) (s : string) : bool :=
  match p with
  | EmptyString => match s with EmptyString => true | _ => false end
  | String "%" p' =>
      (fix any (t : string) : bool :=
         like p' t || match t with
                      | EmptyString => false
                      | String _ t' => any t'
                      end) s
  | String "_" p' =>
      match s with
      | String _ s' => like p' s'
      | EmptyString => false
      end
  | String "\" (String c p') =>
      match s with
      | String a s' => bool_decide (lower_char a = lower_char c) && like p' s'
      | EmptyString => false
      end
  | String c p' =>
      match s with
      | String a s' => bool_decide (lower_char a = lower_char c) && like p' s'
      | EmptyString => false
      end
  end.

Definition ilike (pattern : string) (v : option value) : bool :=
  match v with
  | Some (VStr s) => like pattern s
  | _ => false
  end.

(** [col = v] in a filter: never true on NULL *)
Definition col_eq (v : value) (x : option value) : bool :=
  match v with
  | VNull => false
  | _ => bool_decide (x = Some v)
  end.

(** the columns of a [select]; [None] is [*] *)
Definition project (columns : option (list string)) (r : row) : row :=
  match columns with
  | None => r
  | Some cs => list_to_map ((fun c => (c, default VNull (r !! c))) <$> cs)
  end.

(** [ORDER BY col DESC] on text columns, NULL first *)
Definition col_gt (col : string) (r1 r2 : row) : bool :=
  match r1 !! col, r2 !! col with
  | Some (VStr a), Some (VStr b) => negb (String.leb a b)
  | Some (VStr _), _ => false
  | _, Some (VStr _) => true
  | _, _ => false
  end.

Fixpoint insert_desc (col : string) (r : row) (l : list row) : list row :=
  match l with
  | [] => [r]
  | x :: l' => if col_gt col x r then x :: insert_desc col r l' else r :: l
  end.

Definition sort_desc (col : string) (l : list row) : list row :=
  foldr (insert_desc col) [] l.

Definition rows_of (t : string) (db : gmap string (list row)) : list row :=
  default [] (db !! t).

(** the answer to a request and the tables after it *)
Definition run (e : env) (n : nat) (q : query) (db : gmap string (list row))
  : list row * gmap string (list row) :=
  match q with
  | SelectEq t cols col v =>
      (project cols <$> List.filter (fun r : row => col_eq v (r !! col)) (rows_of t db), db)
  | SelectIlike t cols col pattern limit =>
      (project cols <$>
         take (Z.to_nat limit)
           (List.filter (fun r : row => ilike pattern (r !! col)) (rows_of t db)), db)
  | SelectRange t cols order_col first last =>
      (project cols <$>
         take (Z.to_nat (last - first + 1))
           (drop (Z.to_nat first) (sort_desc order_col (rows_of t db))), db)
  | UpdateEq t patch col v =>
      let hit (r : row) := col_eq v (r !! col) in
      ((fun r : row => patch ∪ r) <$> List.filter hit (rows_of t db),
       <[t := (fun r : row => if hit r then patch ∪ r else r) <$> rows_of t db]> db)
  | Insert t r => ([r], <[t := rows_of t db ++ [r]]> db)
  | Rpc _ query_embedding similarity_threshold match_count search_type =>
      (match_entries e n query_embedding similarity_threshold match_count search_type, db)
  end.

(** [....execute().data] *)
Definition execute (q : query) : M (list row) :=
  fun e w =>
    let n := length (trace w) in
    let sent := trace w ++ [DbExecute q] in
    match db_fault e n q with
    | Some x => (Raise x, State sent (tables w))
    | None =>
        let '(data, db) := run e n q (tables w) in
        (Ok data, State sent db)
    end.

End postgrest.

(** ** supabase_client.py: [SupabaseManager] *)

Module supabase_client.
Import world postgrest embeddings.

Record SupabaseManager := { enable_embeddings : bool }.

(** [datetime.now().isoformat()] *)
Definition datetime_now : M string :=
  let! n := clock in
  let! e := ask in
  ret (now e n).

(** [item[key]] on a record read from the store *)
Definition item (r : row) (key : string) : value := default VNull (r !! key).

Definition opt_truthy (o : option string) : bool := from_option pystr.truthy false o.

Definition add_embedding (key : string) (embeddings : gmap string (list float))
    (d : row) : row :=
  match embeddings !! key with
  | Some v => <[key := VVec v]> d
  | None => d
  end.

(** lines 112-124 of [save_entry]: the embeddings are added to the
    metadata when they are enabled and could be generated *)
Definition attach_embeddings (self : SupabaseManager) (title : string)
    (markdown : option string) (metadata : row) : M row :=
  if enable_embeddings self && opt_truthy markdown && pystr.truthy title
  then try_except
         (let! embeddings := generate_article_embeddings (Some title) markdown in
          ret (add_embedding "content_embedding" embeddings
                 (add_embedding "title_embedding" embeddings metadata)))
         (fun _ => ret metadata)
  else ret metadata.

Definition save_entry (self : SupabaseManager) (entry_id title url : string)
    (date_issued date_modified preamble content_hash html markdown : option string)
    (toc : option (list toc_entry)) (authors : option (list string)) : M bool :=
  try_except
    (let! response :=
       execute (SelectEq "entry_metadata" None "entry_id" (VStr entry_id)) in
     let! updated_at := datetime_now in
     let metadata : row :=
       {[ "entry_id" := VStr entry_id;
          "title" := VStr title;
          "last_updated" := of_opt date_modified;
          "published" := of_opt date_issued;
          "preamble" := of_opt preamble;
          "content_hash" := of_opt content_hash;
          "authors" := VStrs (default [] authors);
          "updated_at" := VStr updated_at ]} in
     let! metadata := attach_embeddings self title markdown metadata in
     let! updated_at := datetime_now in
     let content : row :=
       {[ "entry_id" := VStr entry_id;
          "content" := of_opt html;
          "markdown" := of_opt markdown;
          "toc" := from_option VToc VNull toc;
          "updated_at" := VStr updated_at ]} in
     if bool_decide (0 < length response)%nat
     then
       let! _ := execute (UpdateEq "entry_metadata" metadata "entry_id" (VStr entry_id)) in
       let! _ := execute (UpdateEq "entry_content" content "entry_id" (VStr entry_id)) in
       ret true
     else
       let! _ := execute (Insert "entry_metadata" metadata) in
       let! _ := execute (Insert "entry_content" content) in
       ret true)
    (fun _ => ret false).

Definition summary_columns : option (list string) :=
  Some ["entry_id"; "title"; "url"; "date_modified"; "last_scraped"].

(** the loop over [new_ids] of [search_by_text] *)
Fixpoint fetch_additional (new_ids : list value) (additional_entries : list row)
  : M (list row) :=
  match new_ids with
  | [] => ret additional_entries
  | entry_id :: rest =>
      let! meta_response :=
        execute (SelectEq "entry_metadata" summary_columns "entry_id" entry_id) in
      fetch_additional rest (additional_entries ++ meta_response)
  end.

Definition search_by_text (query : string) (limit : Z) : M (list row) :=
  try_except
    (let pattern := "%" +:+ query +:+ "%" in
     let! results :=
       execute (SelectIlike "entry_metadata" summary_columns "title" pattern limit) in
     if bool_decide (Z.of_nat (length results) < limit)
     then
       let remaining := limit - Z.of_nat (length results) in
       let! content_response :=
         execute (SelectIlike "entry_content" (Some ["entry_id"]) "markdown"
                    pattern remaining) in
       let content_entry_ids := (fun r : row => item r "entry_id") <$> content_response in
       let existing_ids := (fun r : row => item r "entry_id") <$> results in
       let new_ids :=
         List.filter (fun i => negb (bool_decide (i ∈ existing_ids))) content_entry_ids in
       match new_ids with
       | _ :: _ =>
           let! additional_entries := fetch_additional new_ids [] in
           ret (results ++ additional_entries)
       | [] => ret results
       end
     else ret results)
    (fun _ => ret []).

Definition vector_search (query : string) (limit : Z) (search_type : string)
    (similarity_threshold : float) : M (list row) :=
  try_except
    (let! query_embedding := generate_embedding (Some query) EMBEDDINGS_MODEL 3 in
     match query_embedding with
     | Some (x :: v) =>
         let! data :=
           execute (Rpc "match_entries" (x :: v) similarity_threshold limit search_type) in
         match data with
         | _ :: _ => ret data
         | [] => ret []
         end
     | _ => ret []
     end)
    (fun _ => ret []).

(** the dictionary [regenerate_embeddings] returns: the counters with
    [total_processed], or with [error] *)
Inductive summary :=
| Processed (success_count failure_count total_processed : Z)
| Failed (success_count failure_count : Z) (error : exn).

(** one turn of the loop of [regenerate_embeddings]: the counters
    after it; a counter is only changed as the last step of a turn *)
Definition process_entry (entry : row) (success_count failure_count : Z) : M (Z * Z) :=
  let entry_id := item entry "entry_id" in
  let title := item entry "title" in
  let! content_response :=
    execute (SelectEq "entry_content" (Some ["markdown"]) "entry_id" entry_id) in
  match content_response with
  | [] => ret (success_count, failure_count + 1)
  | first :: _ =>
      let markdown := item first "markdown" in
      if negb (value_truthy markdown)
      then ret (success_count, failure_count + 1)
      else
        try_except
          (let! embeddings :=
             generate_article_embeddings (as_text (Some title)) (as_text (Some markdown)) in
           if bool_decide (embeddings = ∅)
           then ret (success_count, failure_count + 1)
           else
             let update_data : row :=
               add_embedding "content_embedding" embeddings
                 (add_embedding "title_embedding" embeddings ∅) in
             if bool_decide (update_data = ∅)
             then ret (success_count, failure_count)
             else
               let! update_response :=
                 execute (UpdateEq "entry_metadata" update_data "entry_id" entry_id) in
               match update_response with
               | _ :: _ => ret (success_count + 1, failure_count)
               | [] => ret (success_count, failure_count + 1)
               end)
          (fun _ => ret (success_count, failure_count + 1))
  end.

Fixpoint regenerate_loop (entries : list row) (success_count failure_count : Z)
    (total : Z) : M summary :=
  match entries with
  | [] => ret (Processed success_count failure_count total)
  | entry :: rest =>
      try_with (process_entry entry success_count failure_count)
        (fun counts => regenerate_loop rest counts.1 counts.2 total)
        (fun x => ret (Failed success_count failure_count x))
  end.

Definition regenerate_embeddings (limit offset : Z) : M summary :=
  try_with
    (execute (SelectRange "entry_metadata" (Some ["entry_id"; "title"]) "updated_at"
                offset (offset + limit - 1)))
    (fun entries => regenerate_loop entries 0 0 (Z.of_nat (length entries)))
    (fun x => ret (Failed 0 0 x)).

End supabase_client.

(** ** What is observed of a run *)

Module observe.
Import world.

Definition is_create (ev : event) : bool :=
  match ev with EmbeddingsCreate _ _ => true | _ => false end.

Definition is_db (ev : event) : bool :=
  match ev with DbExecute _ => true | _ => false end.

Definition is_http (ev : event) : bool :=
  match ev with HttpHead _ => true | _ => false end.

(** the number of calls to the embeddings provider *)
Definition attempts_made (evs : list event) : nat :=
  length (List.filter is_create evs).

(** the delays slept, in order *)
Definition sleeps (evs : list event) : list Z :=
  omap (fun ev => match ev with Sleep s => Some s | _ => None end) evs.

Definition total_sleep (evs : list event) : Z := foldr Z.add 0 (sleeps evs).

(** the trace of a call that fails [n] times: an attempt and a sleep
    of [2^attempt] seconds for every attempt but the last, then the
    last attempt *)
Definition round (model text : string) (attempt : Z) : list event :=
  [EmbeddingsCreate model text; Sleep (2 ^ attempt)].

Definition rounds (model text : string) (attempts : list Z) : list event :=
  attempts ≫= round model text.

Definition exhausted (model text : string) (n : Z) : list event :=
  rounds model text (seqZ 0 (n - 1)) ++ [EmbeddingsCreate model text].

(** how a run of the retry loop looks: some attempts that failed and
    were each followed by a sleep, then at most one more attempt *)
Inductive loop_run (attempts : list Z) (n : Z) (model text : string)
    (r : option (list float)) (evs : list event) : Prop :=
| LoopRun (slept : list Z) (last : list event) :
    evs = rounds model text slept ++ last ->
    slept `prefix_of` attempts ->
    Forall (fun i => i < n - 1) slept ->
    last = [] \/ last = [EmbeddingsCreate model text] ->
    (length slept + length last <= length attempts)%nat ->
    (last = [] -> r = None) ->
    loop_run attempts n model text r evs.

(** the requests sent to the datastore, in order *)
Definition db_requests (evs : list event) : list query :=
  omap (fun ev => match ev with DbExecute q => Some q | _ => None end) evs.

(** the entry ids whose content record was asked for, in order *)
Definition content_lookup (ev : event) : option value :=
  match ev with
  | DbExecute (SelectEq t _ col v) =>
      if bool_decide (t = "entry_content" /\ col = "entry_id") then Some v else None
  | _ => None
  end.

Definition content_lookups (evs : list event) : list value :=
  omap content_lookup evs.

(** the rank of a heading element: 2 for [h2], ..., 6 for [h6] *)
Definition rank (n : bs4.node) : option Z :=
  match bs4.name n with
  | Some nm =>
      if decide (nm = "h2") then Some 2
      else if decide (nm = "h3") then Some 3
      else if decide (nm = "h4") then Some 4
      else if decide (nm = "h5") then Some 5
      else if decide (nm = "h6") then Some 6
      else None
  | None => None
  end.

(** the entry of a heading that has an id attribute, as the
    specification words it: only a missing attribute is skipped *)
Definition toc_entry_as_claimed (h : bs4.node) : option toc_entry :=
  match rank h, bs4.get "id" h with
  | Some r, Some i => Some (TocEntry i (pystr.strip (bs4.text h)) (r - 1))
  | _, _ => None
  end.

Definition toc_as_claimed (fragment : bs4.node) : list toc_entry :=
  omap toc_entry_as_claimed (bs4.descendants fragment).

(** the entry of a heading whose id is present and not empty *)
Definition toc_entry_of (h : bs4.node) : option toc_entry :=
  match rank h, bs4.get "id" h with
  | Some r, Some i =>
      if bs4.attr_truthy (Some i)
      then Some (TocEntry i (pystr.strip (bs4.text h)) (r - 1))
      else None
  | _, _ => None
  end.

Definition toc_of (fragment : bs4.node) : list toc_entry :=
  omap toc_entry_of (bs4.descendants fragment).

(** what the last resort of the content root removes: the elements
    with id [header] or [footer] and the [script] and [style]
    elements *)
Definition chrome (n : bs4.node) : Prop :=
  bs4.get "id" n = Some (bs4.AStr "header")
  \/ bs4.get "id" n = Some (bs4.AStr "footer")
  \/ bs4.name n = Some "script"
  \/ bs4.name n = Some "style".

(** how often [b] occurs among the outcomes of a batch *)
Definition count_of (b : bool) (outcomes : list bool) : Z :=
  Z.of_nat (length (List.filter (Bool.eqb b) outcomes)).

(** the records of a table with a given entry id *)
Definition records_for (entry_id : string) (rows : list row) : list row :=
  List.filter (fun r : row => postgrest.col_eq (VStr entry_id) (r !! "entry_id")) rows.

(** at most one metadata record per entry id *)
Definition at_most_one (db : gmap string (list row)) : Prop :=
  forall entry_id : string,
    (length (records_for entry_id (postgrest.rows_of "entry_metadata" db)) <= 1)%nat.

End observe.

(** ** Sample worlds *)

Module sample.
Import world.

(** the provider is down, the datastore answers *)
Definition provider_down : env :=
  Env (fun _ _ => Ok 200) (Some "sk-test")
      (fun _ _ _ => Raise (Exception "APIConnectionError"))
      (fun _ _ => None) (fun _ _ _ _ _ => []) (fun _ => "2024-01-01T00:00:00").

Definition empty_world : state := State [] ∅.

(** the provider answers every call with a vector *)
Definition provider_up : env :=
  Env (fun _ _ => Ok 200) (Some "sk-test")
      (fun _ _ _ => Ok [Float 4607182418800017408; Float 0])
      (fun _ _ => None) (fun _ _ _ _ _ => []) (fun _ => "2024-01-01T00:00:00").

Definition meta (entry_id title : string) : row :=
  {[ "entry_id" := VStr entry_id; "title" := VStr title;
     "updated_at" := VStr "2023-06-01T00:00:00" ]}.

Definition body (entry_id markdown : string) : row :=
  {[ "entry_id" := VStr entry_id; "markdown" := VStr markdown ]}.

Definition manager : supabase_client.SupabaseManager :=
  {| supabase_client.enable_embeddings := true |}.

(** an entry saved into the empty store, and saved again under a
    changed title *)
Definition saved_once : state :=
  (supabase_client.save_entry manager "kant" "Kant"
     "https://plato.stanford.edu/entries/kant" None None None None None
     (Some "Kant was born in 1724.") None None provider_down empty_world).2.

Definition saved_twice : state :=
  (supabase_client.save_entry manager "kant" "Immanuel Kant"
     "https://plato.stanford.edu/entries/kant" None None None None None
     (Some "Kant was born in 1724.") None None provider_down saved_once).2.

(** five stored entries: "kant" occurs in two titles and in all five
    bodies *)
Definition library : state :=
  State []
    {[ "entry_metadata" :=
         [meta "kant" "Immanuel Kant"; meta "kant-moral" "Kant's Moral Philosophy";
          meta "hume" "David Hume"; meta "hegel" "Georg Wilhelm Friedrich Hegel";
          meta "fichte" "Johann Gottlieb Fichte"];
       "entry_content" :=
         [body "kant" "Immanuel Kant is the central figure in modern philosophy.";
          body "kant-moral" "Kant argued that the supreme principle of morality is ...";
          body "hume" "Hume's writings woke Kant from his dogmatic slumbers.";
          body "hegel" "Hegel's idealism is a response to Kant.";
          body "fichte" "Fichte began as a follower of KANT."] ]}.

(** two stored entries, the second without a content record *)
Definition two_entries : state :=
  State []
    {[ "entry_metadata" := [meta "kant" "Immanuel Kant"; meta "hume" "David Hume"];
       "entry_content" := [body "kant" "Kant was born in 1724."] ]}.

(** the fragment of the example:
    [<h2 id="a">Intro</h2><h3>NoId</h3><h3 id="b">Sub</h3>] *)
Definition toc_example : bs4.node :=
  bs4.Tag "div" ∅
    [bs4.Tag "h2" {[ "id" := bs4.AStr "a" ]} [bs4.NavigableString "Intro"];
     bs4.Tag "h3" ∅ [bs4.NavigableString "NoId"];
     bs4.Tag "h3" {[ "id" := bs4.AStr "b" ]} [bs4.NavigableString "Sub"]].

(** a heading whose id attribute is there but empty:
    [<h2 id="">Intro</h2>] *)
Definition empty_id_example : bs4.node :=
  bs4.Tag "div" ∅
    [bs4.Tag "h2" {[ "id" := bs4.AStr "" ]} [bs4.NavigableString "Intro"]].

(** a document of the oldest layout, with nothing to remove from its
    body: [<html><body><h2 id="intro">Intro</h2><p>Text</p></body></html>] *)
Definition older_body : bs4.node :=
  bs4.Tag "body" ∅
    [bs4.Tag "h2" {[ "id" := bs4.AStr "intro" ]} [bs4.NavigableString "Intro"];
     bs4.Tag "p" ∅ [bs4.NavigableString "Text"]].

Definition older_layout : bs4.node :=
  bs4.BeautifulSoup [bs4.Tag "html" ∅ [older_body]].

(** a document without a body:
    [<html><head><title>Kant</title></head></html>] *)
Definition no_body : bs4.node :=
  bs4.BeautifulSoup
    [bs4.Tag "html" ∅
       [bs4.Tag "head" ∅ [bs4.Tag "title" ∅ [bs4.NavigableString "Kant"]]]].

End sample.

(** ** Article urls

    [url.rstrip("/").split("/")[-1]], the entry id of an article url
    ([scrape_article], and the routes of simple_api.py). *)

Module url_parts.

(** [s.rstrip(c)] for a one-character [c] *)
Fixpoint rstrip_char (c : ascii) (s : string) : string :=
  match s with
  | EmptyString => EmptyString
  | String a s' =>
      match rstrip_char c s' with
      | EmptyString => if decide (a = c) then EmptyString else String a EmptyString
      | t => String a t
      end
  end.

(** [s.split(c)] for a one-character [c]: never the empty list *)
Fixpoint split_char (c : ascii) (s : string) : list string :=
  match s with
  | EmptyString => [EmptyString]
  | String a s' =>
      if decide (a = c) then EmptyString :: split_char c s'
      else match split_char c s' with
           | part :: parts => String a part :: parts
           | [] => [String a EmptyString]
           end
  end.

(** [parts[-1]] *)
Definition last_part (parts : list string) : string := List.last parts EmptyString.

Definition entry_id_of (url : string) : string :=
  let url := rstrip_char "/" url in
  let parts := split_char "/" url in
  last_part parts.

(** whether [c] occurs in [s] *)
Fixpoint occurs (c : ascii) (s : string) : bool :=
  match s with
  | EmptyString => false
  | String a s' => bool_decide (a = c) || occurs c s'
  end.

End url_parts.

(** ** supabase_client.py: the read operations of [SupabaseManager] *)

Module supabase_reads.
Import world postgrest.

(** the dictionary [get_entry] returns: the columns of the metadata
    record, and under the key [content] the content record *)
Inductive entry := Entry (columns : row) (content : row).

Definition get_entry (entry_id : string) : M (option entry) :=
  try_except
    (let! metadata :=
       execute (SelectEq "entry_metadata" None "entry_id" (VStr entry_id)) in
     let! content :=
       execute (SelectEq "entry_content" None "entry_id" (VStr entry_id)) in
     match metadata, content with
     | m :: _, c :: _ => ret (Some (Entry (delete "content" m) c))
     | _, _ => ret None
     end)
    (fun _ => ret None).

Definition list_entries (limit offset : Z) : M (list row) :=
  try_except
    (execute (SelectRange "entry_metadata" None "last_scraped"
                offset (offset + limit - 1)))
    (fun _ => ret []).

End supabase_reads.

(** ** simple_api.py: the routes

    A route returns its reply, raises [HTTPException] with a status
    code, or raises something else. *)

Module simple_api.
Import world.

Inductive outcome (A : Type) :=
| Reply (a : A)
| HTTPException (status_code : Z).
Arguments Reply {A} a.
Arguments HTTPException {A} status_code.

(** [try: m  except HTTPException: raise
            except Exception: raise HTTPException(500)] *)
Definition reraise_http {A} (m : M (outcome A)) : M (outcome A) :=
  try_except m (fun _ => ret (HTTPException 500)).

(** [try: m  except Exception: raise HTTPException(500)]: an
    [HTTPException] raised in [m] is an [Exception] as well *)
Definition wrap_all {A} (m : M (outcome A)) : M (outcome A) :=
  fun e w =>
    match m e w with
    | (Ok (Reply a), w') => (Ok (Reply a), w')
    | (Ok (HTTPException _), w') => (Ok (HTTPException 500), w')
    | (Raise _, w') => (Ok (HTTPException 500), w')
    end.

Definition SEP_PREFIX : string := "https://plato.stanford.edu/entries/".

(** [d.get(key, default)] *)
Definition dict_get (d : row) (key : string) (default : value) : value :=
  match d !! key with Some v => v | None => default end.

(** the reply of [GET /entry] *)
Record entry_reply := EntryReply {
  reply_url : value;
  reply_title : value;
  reply_entry_id : value;
  reply_date_issued : value;
  reply_date_modified : value;
  reply_preamble : value;
  reply_last_scraped : value;
  reply_markdown : value;
  reply_toc : value;
}.

Definition get_entry (url : string) : M (outcome entry_reply) :=
  reraise_http
    (if negb (pystr.startswith SEP_PREFIX url)
     then ret (HTTPException 400)
     else
       let entry_id := url_parts.entry_id_of url in
       let! entry := supabase_reads.get_entry entry_id in
       match entry with
       | None => ret (HTTPException 404)
       | Some (supabase_reads.Entry columns content) =>
           if bool_decide (content <> ∅)
           then ret (Reply
                  {| reply_url := dict_get columns "url" (VStr url);
                     reply_title := dict_get columns "title" (VStr "");
                     reply_entry_id := dict_get columns "entry_id" (VStr entry_id);
                     reply_date_issued := dict_get columns "date_issued" VNull;
                     reply_date_modified := dict_get columns "date_modified" VNull;
                     reply_preamble := dict_get columns "preamble" VNull;
                     reply_last_scraped := dict_get columns "last_scraped" VNull;
                     reply_markdown := dict_get content "markdown" (VStr "");
                     reply_toc := dict_get content "toc" (VToc []) |})
           else ret (HTTPException 404)
       end).

(** the reply of [GET /search] *)
Record search_reply := SearchReply {
  search_query : string;
  search_results : list row;
  search_count : Z;
}.

Definition search_entries (query : string) (limit : Z) : M (outcome search_reply) :=
  wrap_all
    (let! results := supabase_client.search_by_text query limit in
     ret (Reply (SearchReply query results (Z.of_nat (length results))))).

(** [x < 0] and [x > 1] on a float, read off its bit pattern: the
    negative numbers are the patterns above that of [-0.0] up to that
    of [-inf], the numbers above one the patterns above that of [1.0]
    up to that of [+inf]; a NaN compares false *)
Definition lt_zero (x : float) : bool :=
  (9223372036854775808 <? float_bits x) && (float_bits x <=? 18442240474082181120).

Definition gt_one (x : float) : bool :=
  (4607182418800017408 <? float_bits x) && (float_bits x <=? 9218868437227405312).

(** the reply of [GET /vector-search] *)
Record vector_reply := VectorReply {
  vector_query : string;
  vector_search_type : string;
  vector_threshold : float;
  vector_results : list row;
  vector_count : Z;
}.

Definition vector_search (query : string) (limit : Z) (search_type : string)
    (similarity_threshold : float) : M (outcome vector_reply) :=
  wrap_all
    (if negb (bool_decide (search_type ∈ ["content"; "title"]))
     then ret (HTTPException 400)
     else if lt_zero similarity_threshold || gt_one similarity_threshold
     then ret (HTTPException 400)
     else
       let! results :=
         supabase_client.vector_search query limit search_type similarity_threshold in
       ret (Reply (VectorReply query search_type similarity_threshold results
                     (Z.of_nat (length results))))).

(** the reply of [POST /regenerate-embeddings]; [regenerate_processed]
    is the number in its message, [results.get("total_processed", 0)] *)
Record regenerate_reply := RegenerateReply {
  regenerate_status : string;
  regenerate_processed : Z;
  regenerate_results : supabase_client.summary;
}.

(** [results.get("total_processed", default)] *)
Definition total_processed_or (default : Z) (results : supabase_client.summary) : Z :=
  match results with
  | supabase_client.Processed _ _ total_processed => total_processed
  | supabase_client.Failed _ _ _ => default
  end.

Definition regenerate_embeddings (limit offset : Z) : M (outcome regenerate_reply) :=
  wrap_all
    (let! results := supabase_client.regenerate_embeddings limit offset in
     ret (Reply (RegenerateReply "success" (total_processed_or 0 results) results))).

End simple_api.

(** ** What a run leaves of the store *)

Module store_facts.
Import world.

(** two records that differ in their embeddings at most *)
Definition agree_but_embeddings (r r' : row) : Prop :=
  forall k : string,
    k <> "title_embedding" -> k <> "content_embedding" -> r' !! k = r !! k.

(** two stores with the same records in the same order, up to the
    embeddings *)
Definition same_but_embeddings (db db' : gmap string (list row)) : Prop :=
  forall t : string,
    Forall2 agree_but_embeddings (postgrest.rows_of t db) (postgrest.rows_of t db').

(** the request for the markdown of an entry of the page, line 339 of
    [regenerate_embeddings] *)
Definition content_query (entry : row) : query :=
  SelectEq "entry_content" (Some ["markdown"]) "entry_id"
    (supabase_client.item entry "entry_id").

End store_facts.

(** ** More sample worlds *)

Module sample_more.
Import world.

(** no key for the embeddings provider *)
Definition no_key : env :=
  Env (fun _ _ => Ok 200) None
      (fun _ _ _ => Ok [Float 4607182418800017408])
      (fun _ _ => None) (fun _ _ _ _ _ => []) (fun _ => "2024-01-01T00:00:00").

(** the datastore is unreachable *)
Definition store_down : env :=
  Env (fun _ _ => Ok 200) (Some "sk-test")
      (fun _ _ _ => Ok [Float 4607182418800017408])
      (fun _ _ => Some (Exception "ConnectError"))
      (fun _ _ _ _ _ => []) (fun _ => "2024-01-01T00:00:00").

(** the datastore answers the first request and fails the second *)
Definition second_request_fails : env :=
  Env (fun _ _ => Ok 200) (Some "sk-test")
      (fun _ _ _ => Ok [Float 4607182418800017408])
      (fun n _ => if decide (n = 1%nat) then Some (Exception "ConnectError") else None)
      (fun _ _ _ _ _ => []) (fun _ => "2024-01-01T00:00:00").

(** a manager that generates no embeddings *)
Definition manager_off : supabase_client.SupabaseManager :=
  {| supabase_client.enable_embeddings := false |}.

(** a metadata record without a content record *)
Definition half_entry : state :=
  State [] {[ "entry_metadata" := [sample.meta "kant" "Immanuel Kant"] ]}.

End sample_more.

(** * Properties *)

Import world observe.

(** ** Strings *)

Lemma rev_app_all_space (s t : string) :
  pystr.all_space (String.rev_app s t) = pystr.all_space s && pystr.all_space t.
Proof.
  revert t. induction s as [|c s IH]; intros t; simpl; [done|].
  rewrite IH. simpl. destruct (pystr.is_space c), (pystr.all_space s); done.
Qed.

Lemma rev_all_space (s : string) :
  pystr.all_space (String.rev s) = pystr.all_space s.
Proof.
  unfold String.rev. rewrite rev_app_all_space. simpl. by rewrite andb_true_r.
Qed.

Lemma rev_app_empty (s t : string) :
  String.rev_app s t = EmptyString -> s = EmptyString /\ t = EmptyString.
Proof.
  revert t. induction s as [|c s IH]; intros t; simpl; [done|].
  intros H. apply IH in H as [_ H]. done.
Qed.

Lemma lstrip_empty (s : string) :
  pystr.lstrip s = EmptyString <-> pystr.all_space s = true.
Proof.
  induction s as [|c s IH]; simpl; [done|].
  destruct (pystr.is_space c); simpl; [done|]. split; done.
Qed.

Lemma lstrip_all_space (s : string) :
  pystr.all_space (pystr.lstrip s) = pystr.all_space s.
Proof.
  induction s as [|c s IH]; simpl; [done|].
  destruct (pystr.is_space c) eqn:E; simpl; [done|]. by rewrite E.
Qed.

(** a string is blank exactly when stripping it leaves nothing *)
Lemma strip_blank (s : string) :
  pystr.truthy (pystr.strip s) = false <-> pystr.all_space s = true.
Proof.
  unfold pystr.strip, pystr.rstrip.
  assert (forall t, pystr.truthy t = false <-> t = EmptyString) as Ht.
  { intros [|??]; simpl; split; done. }
  rewrite Ht. split.
  - intros H. apply rev_app_empty in H as [H _]. apply lstrip_empty in H.
    by rewrite rev_all_space, lstrip_all_space in H.
  - intros H.
    assert (pystr.lstrip (String.rev (pystr.lstrip s)) = EmptyString) as ->; [|done].
    apply lstrip_empty. by rewrite rev_all_space, lstrip_all_space.
Qed.

Lemma startswith_prefix (p s : string) :
  pystr.startswith p s = true <-> exists t, s = p +:+ t.
Proof.
  revert s. induction p as [|a p IH]; intros s; simpl.
  - split; eauto.
  - destruct s as [|b s]; simpl.
    + split; [done|]. intros [t Ht]. done.
    + destruct (decide (a = b)) as [->|Hne].
      * rewrite IH. split; intros [t Ht]; exists t; [by rewrite Ht|].
        by injection Ht.
      * split; [done|]. intros [t Ht]. injection Ht. congruence.
Qed.

(** ** The embedding generator *)

Lemma state_eta (w : state) : State (trace w ++ []) (tables w) = w.
Proof. destruct w. simpl. by rewrite app_nil_r. Qed.

Lemma create_run (model text : string) (e : env) (w : state) :
  embeddings.create model text e w
  = (embeddings_create e (length (trace w)) model text,
     State (trace w ++ [EmbeddingsCreate model text]) (tables w)).
Proof. reflexivity. Qed.

Lemma attempt_loop_run (attempts : list Z) (n : Z) (model text : string)
    (e : env) (w : state) :
  exists r evs,
    embeddings.attempt_loop attempts n model text e w
    = (Ok r, State (trace w ++ evs) (tables w))
    /\ loop_run attempts n model text r evs.
Proof.
  revert w. induction attempts as [|a rest IH]; intros w.
  - exists None, []. split; [by rewrite state_eta|].
    by eapply (LoopRun _ _ _ _ _ _ [] []); auto using prefix_nil.
  - simpl. unfold try_except, bind at 1. rewrite create_run.
    destruct (embeddings_create e (length (trace w)) model text) as [v|x].
    + exists (Some v), [EmbeddingsCreate model text]. split; [done|].
      eapply (LoopRun _ _ _ _ _ _ [] [EmbeddingsCreate model text]);
        simpl; auto using prefix_nil with lia; done.
    + case_bool_decide as Ha.
      * unfold bind, embeddings.sleep, emit. simpl.
        destruct (IH (State ((trace w ++ [EmbeddingsCreate model text])
                               ++ [Sleep (2 ^ a)]) (tables w)))
          as (r & evs & Hrun & [sl la Hev Hpre Hearly Hla Hlen Hnone]).
        exists r, (round model text a ++ evs). split.
        { rewrite Hrun. simpl. unfold round. by rewrite <- !app_assoc. }
        eapply (LoopRun _ _ _ _ _ _ (a :: sl) la); simpl; auto with lia.
        -- by rewrite Hev.
        -- by apply prefix_cons.
      * exists None, [EmbeddingsCreate model text]. split; [done|].
        eapply (LoopRun _ _ _ _ _ _ [] [EmbeddingsCreate model text]);
          simpl; auto using prefix_nil with lia; done.
Qed.

Lemma generate_embedding_run (text : option string) (model : string) (n : Z)
    (e : env) (w : state) :
  exists r evs input,
    embeddings.generate_embedding text model n e w
    = (Ok r, State (trace w ++ evs) (tables w))
    /\ loop_run (seqZ 0 n) n model input r evs.
Proof.
  assert (loop_run (seqZ 0 n) n model EmptyString None []) as Hidle.
  { eapply (LoopRun _ _ _ _ _ _ [] []); simpl; auto using prefix_nil with lia. }
  unfold embeddings.generate_embedding.
  destruct text as [text|]; [|by exists None, [], EmptyString; rewrite state_eta].
  destruct (negb (pystr.truthy text) || negb (pystr.truthy (pystr.strip text)));
    [by exists None, [], EmptyString; rewrite state_eta|].
  unfold bind, ask.
  destruct (negb (from_option pystr.truthy false (api_key e)));
    [by exists None, [], EmptyString; rewrite state_eta|].
  destruct (attempt_loop_run (embeddings.range n) n model
              (pystr.take (Z.to_nat 20000) text) e w) as (r & evs & Hrun & Hl).
  by exists r, evs, (pystr.take (Z.to_nat 20000) text).
Qed.

Lemma prefix_seqZ (l : list Z) (a n : Z) :
  l `prefix_of` seqZ a n -> l = seqZ a (Z.of_nat (length l)).
Proof.
  revert a n. induction l as [|x l IH]; intros a n Hp; [done|].
  destruct (decide (0 < n)) as [Hn|Hn].
  - rewrite (seqZ_cons a n) in Hp by done.
    pose proof (prefix_cons_inv_1 _ _ _ _ Hp) as ->.
    apply prefix_cons_inv_2, IH in Hp.
    rewrite (seqZ_cons a) by (simpl; lia).
    replace (Z.pred (Z.of_nat (length (a :: l)))) with (Z.of_nat (length l))
      by (simpl; lia).
    by rewrite <- Hp.
  - rewrite seqZ_nil in Hp by lia. by apply prefix_nil_inv in Hp.
Qed.

Lemma rounds_cons (model text : string) (a : Z) (l : list Z) (rest : list event) :
  rounds model text (a :: l) ++ rest
  = EmbeddingsCreate model text :: Sleep (2 ^ a) :: (rounds model text l ++ rest).
Proof. reflexivity. Qed.

Lemma sleeps_rounds (model text : string) (slept : list Z) (last : list event) :
  last = [] \/ last = [EmbeddingsCreate model text] ->
  sleeps (rounds model text slept ++ last) = (fun a => 2 ^ a) <$> slept.
Proof.
  intros Hl. induction slept as [|a l IH].
  - by destruct Hl as [-> | ->].
  - rewrite rounds_cons, fmap_cons, <- IH. reflexivity.
Qed.

Lemma attempts_rounds (model text : string) (slept : list Z) (last : list event) :
  last = [] \/ last = [EmbeddingsCreate model text] ->
  attempts_made (rounds model text slept ++ last) = (length slept + length last)%nat.
Proof.
  intros Hl. unfold attempts_made. induction slept as [|a l IH].
  - by destruct Hl as [-> | ->].
  - rewrite rounds_cons. cbn [List.filter is_create length]. rewrite IH. simpl. lia.
Qed.

Lemma sum_pow2 (j : nat) (a : Z) :
  0 <= a ->
  foldr Z.add 0 ((fun i => 2 ^ i) <$> seqZ a (Z.of_nat j)) = 2 ^ a * (2 ^ Z.of_nat j - 1).
Proof.
  revert a. induction j as [|j IH]; intros a Ha.
  - simpl. lia.
  - rewrite seqZ_cons by lia. simpl foldr.
    replace (Z.pred (Z.of_nat (S j))) with (Z.of_nat j) by lia.
    rewrite IH by lia.
    replace (Z.of_nat (S j)) with (Z.succ (Z.of_nat j)) by lia.
    rewrite !Z.pow_succ_r by lia. lia.
Qed.

(** the shape of every run of the loop over [range(n)] *)
Lemma loop_run_range (n : Z) (model text : string) (r : option (list float))
    (evs : list event) :
  loop_run (seqZ 0 n) n model text r evs ->
  exists (j : Z) (last : list event),
    evs = rounds model text (seqZ 0 j) ++ last
    /\ (last = [] \/ last = [EmbeddingsCreate model text])
    /\ 0 <= j <= Z.max 0 (n - 1)
    /\ Z.of_nat (attempts_made evs) <= Z.max 0 n
    /\ sleeps evs = (fun a => 2 ^ a) <$> seqZ 0 j
    /\ total_sleep evs = 2 ^ j - 1.
Proof.
  intros [sl la Hev Hpre Hearly Hla Hlen Hnone].
  pose proof (prefix_seqZ _ _ _ Hpre) as Hsl.
  exists (Z.of_nat (length sl)), la. rewrite <- Hsl.
  split; [done|]. split; [done|].
  rewrite length_seqZ in Hlen.
  assert (0 <= Z.of_nat (length sl) <= Z.max 0 (n - 1)) as Hj.
  { split; [lia|]. destruct sl as [|x sl' _] using rev_ind; [simpl; lia|].
    rewrite Forall_forall in Hearly.
    assert (x < n - 1) as Hx
      by (apply Hearly, elem_of_app; right; by apply list_elem_of_singleton).
    rewrite length_app in Hsl. simpl in Hsl.
    replace (length sl' + 1)%nat with (S (length sl')) in Hsl by lia.
    rewrite seqZ_S in Hsl. apply app_inj_tail in Hsl as [_ ->].
    rewrite length_app. simpl. lia. }
  split; [done|].
  split; [rewrite Hev, attempts_rounds by done; lia|].
  split; [by rewrite Hev, sleeps_rounds|].
  unfold total_sleep. rewrite Hev, sleeps_rounds by done.
  rewrite Hsl at 1. rewrite sum_pow2 by lia. lia.
Qed.

Lemma attempt_loop_failing (attempts : list Z) (n : Z) (model text : string)
    (e : env) (w : state) :
  (forall k, raised (embeddings_create e k model text) = true) ->
  exists w', embeddings.attempt_loop attempts n model text e w = (Ok None, w').
Proof.
  intros Hfail. revert w. induction attempts as [|a rest IH]; intros w; simpl.
  - by eexists.
  - unfold try_except, bind at 1. rewrite create_run.
    specialize (Hfail (length (trace w))).
    destruct (embeddings_create e (length (trace w)) model text); [done|].
    case_bool_decide; [|by eexists].
    unfold bind, embeddings.sleep, emit. simpl. apply IH.
Qed.

Lemma attempt_loop_exhausted (k : nat) (a n : Z) (model text : string)
    (e : env) (w : state) :
  (forall i, raised (embeddings_create e i model text) = true) ->
  a + Z.of_nat (S k) = n ->
  embeddings.attempt_loop (seqZ a (Z.of_nat (S k))) n model text e w
  = (Ok None,
     State (trace w ++ rounds model text (seqZ a (Z.of_nat k))
              ++ [EmbeddingsCreate model text]) (tables w)).
Proof.
  intros Hfail. revert a w. induction k as [|k IH]; intros a w Hn.
  - simpl. unfold try_except, bind at 1. rewrite create_run.
    specialize (Hfail (length (trace w))).
    destruct (embeddings_create e (length (trace w)) model text); [done|].
    rewrite bool_decide_false by lia. done.
  - rewrite (seqZ_cons a (Z.of_nat (S (S k)))) by lia.
    replace (Z.pred (Z.of_nat (S (S k)))) with (Z.of_nat (S k)) by lia.
    cbn [embeddings.attempt_loop]. unfold try_except, bind at 1. rewrite create_run.
    pose proof (Hfail (length (trace w))) as Hf.
    destruct (embeddings_create e (length (trace w)) model text); [done|].
    rewrite bool_decide_true by lia.
    unfold bind at 1, embeddings.sleep, emit. cbn [trace tables].
    rewrite IH by lia. cbn [trace tables].
    rewrite (seqZ_cons a (Z.of_nat (S k))) by lia.
    replace (Z.pred (Z.of_nat (S k))) with (Z.of_nat k) by lia.
    simpl. by rewrite <- !app_assoc.
Qed.

Lemma rounds_no_db (model text : string) (slept : list Z) (last : list event) :
  last = [] \/ last = [EmbeddingsCreate model text] ->
  Forall (fun ev => is_db ev = false) (rounds model text slept ++ last).
Proof.
  intros Hl. induction slept as [|a l IH].
  - destruct Hl as [-> | ->]; repeat constructor.
  - rewrite rounds_cons. by repeat constructor.
Qed.

Lemma nonblank_passes (s : string) :
  pystr.all_space s = false ->
  negb (pystr.truthy s) || negb (pystr.truthy (pystr.strip s)) = false.
Proof.
  intros Hs. destruct (pystr.truthy (pystr.strip s)) eqn:Hstrip.
  - destruct s; [done|]. reflexivity.
  - apply strip_blank in Hstrip. congruence.
Qed.

(** C4: the embedding operation never raises; on blank or
    whitespace-only text it returns [None] and leaves the world as it
    was (no call to the provider); when every call to the provider
    fails it returns [None]. *)
Theorem generate_embedding_never_raises (text : option string) (model : string)
    (max_retries : Z) (e : env) (w : state) :
  (exists r w', embeddings.generate_embedding text model max_retries e w = (Ok r, w'))
  /\ (forall s, text = Some s -> pystr.all_space s = true ->
        embeddings.generate_embedding text model max_retries e w = (Ok None, w))
  /\ ((forall k m t, raised (embeddings_create e k m t) = true) ->
        exists w', embeddings.generate_embedding text model max_retries e w = (Ok None, w')).
Proof.
  split; [|split].
  - destruct (generate_embedding_run text model max_retries e w)
      as (r & evs & _ & Hrun & _). eauto.
  - intros s -> Hs. unfold embeddings.generate_embedding.
    apply strip_blank in Hs. rewrite Hs. by rewrite orb_true_r.
  - intros Hfail. unfold embeddings.generate_embedding.
    destruct text as [s|]; [|by eexists].
    destruct (negb (pystr.truthy s) || negb (pystr.truthy (pystr.strip s)));
      [by eexists|].
    unfold bind, ask.
    destruct (negb (from_option pystr.truthy false (api_key e))); [by eexists|].
    apply attempt_loop_failing. intros k. apply Hfail.
Qed.

Lemma generate_embedding_never_raises_witness :
  embeddings.generate_embedding (Some "   ") embeddings.EMBEDDINGS_MODEL 3
    sample.provider_down sample.empty_world = (Ok None, sample.empty_world)
  /\ exists w', embeddings.generate_embedding (Some "Kant") embeddings.EMBEDDINGS_MODEL 3
                  sample.provider_down sample.empty_world = (Ok None, w').
Proof.
  split.
  - apply (proj1 (proj2 (generate_embedding_never_raises (Some "   ")
             embeddings.EMBEDDINGS_MODEL 3 sample.provider_down sample.empty_world))
             "   "); reflexivity.
  - apply (proj2 (proj2 (generate_embedding_never_raises (Some "Kant")
             embeddings.EMBEDDINGS_MODEL 3 sample.provider_down sample.empty_world))).
    intros k m t. reflexivity.
Defined.

(** C7: the retry loop makes at most [max_retries] attempts, sleeps
    [2^attempt] seconds after every failed attempt but the last, and
    so sleeps less than [2^(max_retries-1)] seconds in all; with the
    default of 3 that is at most 3 attempts and at most 4 seconds.  For
    non-blank text and a provider that fails every call the run is
    exactly [max_retries] attempts with those sleeps between them.
    [generate_embedding] is a total function: the loop terminates. *)
Theorem generate_embedding_bounded_backoff (text : option string) (model : string)
    (max_retries : Z) (e : env) (w : state) :
  (exists r evs input j last,
      embeddings.generate_embedding text model max_retries e w
      = (Ok r, State (trace w ++ evs) (tables w))
      /\ evs = rounds model input (seqZ 0 j) ++ last
      /\ (last = [] \/ last = [EmbeddingsCreate model input])
      /\ 0 <= j <= Z.max 0 (max_retries - 1)
      /\ Z.of_nat (attempts_made evs) <= Z.max 0 max_retries
      /\ sleeps evs = (fun a => 2 ^ a) <$> seqZ 0 j
      /\ total_sleep evs < 2 ^ Z.max 0 (max_retries - 1))
  /\ (exists r evs,
        embeddings.generate_embedding text model 3 e w
        = (Ok r, State (trace w ++ evs) (tables w))
        /\ (attempts_made evs <= 3)%nat
        /\ total_sleep evs <= 4)
  /\ (forall s, text = Some s -> pystr.all_space s = false ->
        from_option pystr.truthy false (api_key e) = true ->
        (forall k m t, raised (embeddings_create e k m t) = true) ->
        1 <= max_retries ->
        embeddings.generate_embedding text model max_retries e w
        = (Ok None,
           State (trace w ++ exhausted model (pystr.take (Z.to_nat 20000) s) max_retries)
                 (tables w))).
Proof.
  split; [|split].
  - destruct (generate_embedding_run text model max_retries e w)
      as (r & evs & input & Hrun & Hl).
    destruct (loop_run_range _ _ _ _ _ Hl) as (j & la & Hev & Hla & Hj & Hat & Hsl & Htot).
    exists r, evs, input, j, la. repeat (split; [done|]).
    rewrite Htot.
    assert (2 ^ j <= 2 ^ Z.max 0 (max_retries - 1)) by (apply Z.pow_le_mono_r; lia).
    lia.
  - destruct (generate_embedding_run text model 3 e w) as (r & evs & input & Hrun & Hl).
    destruct (loop_run_range _ _ _ _ _ Hl) as (j & la & Hev & Hla & Hj & Hat & Hsl & Htot).
    exists r, evs. split; [done|]. split; [lia|].
    rewrite Htot.
    assert (2 ^ j <= 2 ^ 2) by (apply Z.pow_le_mono_r; lia).
    lia.
  - intros s -> Hs Hkey Hfail Hn. unfold embeddings.generate_embedding.
    rewrite (nonblank_passes s Hs). unfold bind, ask. rewrite Hkey. simpl negb.
    cbv iota. unfold embeddings.range, exhausted.
    set (k := Z.to_nat (max_retries - 1)).
    assert (seqZ 0 max_retries = seqZ 0 (Z.of_nat (S k))) as -> by (f_equal; lia).
    assert (seqZ 0 (max_retries - 1) = seqZ 0 (Z.of_nat k)) as -> by (f_equal; lia).
    apply attempt_loop_exhausted; [intros i; apply Hfail | lia].
Qed.

Lemma generate_embedding_bounded_backoff_witness :
  embeddings.generate_embedding (Some "Kant") embeddings.EMBEDDINGS_MODEL 3
    sample.provider_down sample.empty_world
  = (Ok None,
     State [EmbeddingsCreate embeddings.EMBEDDINGS_MODEL "Kant"; Sleep 1;
            EmbeddingsCreate embeddings.EMBEDDINGS_MODEL "Kant"; Sleep 2;
            EmbeddingsCreate embeddings.EMBEDDINGS_MODEL "Kant"] ∅).
Proof.
  apply (proj2 (proj2 (generate_embedding_bounded_backoff (Some "Kant")
           embeddings.EMBEDDINGS_MODEL 3 sample.provider_down sample.empty_world))
           "Kant"); try reflexivity.
  lia.
Defined.

(** ** Semantic search *)

(** C8: when embedding the query gives [None], [vector_search] returns
    the empty list, not an exception, and the world is the one the
    embedding attempt left: nothing was sent to the datastore. *)
Theorem vector_search_embedding_failure (query : string) (limit : Z)
    (search_type : string) (similarity_threshold : float) (e : env) (w w' : state) :
  embeddings.generate_embedding (Some query) embeddings.EMBEDDINGS_MODEL 3 e w
    = (Ok None, w') ->
  supabase_client.vector_search query limit search_type similarity_threshold e w
    = (Ok [], w')
  /\ tables w' = tables w
  /\ exists evs, trace w' = trace w ++ evs /\ Forall (fun ev => is_db ev = false) evs.
Proof.
  intros Hgen. split; [|split].
  - unfold supabase_client.vector_search, try_except, bind. by rewrite Hgen.
  - destruct (generate_embedding_run (Some query) embeddings.EMBEDDINGS_MODEL 3 e w)
      as (r & evs & input & Hrun & Hl).
    rewrite Hrun in Hgen. by injection Hgen as _ <-.
  - destruct (generate_embedding_run (Some query) embeddings.EMBEDDINGS_MODEL 3 e w)
      as (r & evs & input & Hrun & Hl).
    rewrite Hrun in Hgen. injection Hgen as _ <-. exists evs. split; [done|].
    destruct (loop_run_range _ _ _ _ _ Hl) as (j & la & -> & Hla & _).
    by apply rounds_no_db.
Qed.

Lemma vector_search_embedding_failure_witness :
  supabase_client.vector_search "   " 10 "content" (Float 0)
    sample.provider_down sample.empty_world = (Ok [], sample.empty_world)
  /\ tables sample.empty_world = tables sample.empty_world
  /\ exists evs, trace sample.empty_world = trace sample.empty_world ++ evs
                 /\ Forall (fun ev => is_db ev = false) evs.
Proof.
  apply (vector_search_embedding_failure "   " 10 "content" (Float 0)
           sample.provider_down sample.empty_world sample.empty_world).
  reflexivity.
Defined.

(** ** The existence probe *)

(** a url of the encyclopedia is probed with one HEAD request *)
Lemma entry_exists_probes :
  simple_scraper.entry_exists "https://plato.stanford.edu/entries/kant/"
    sample.provider_down sample.empty_world
  = (Ok true, State [HttpHead "https://plato.stanford.edu/entries/kant/"] ∅).
Proof. reflexivity. Qed.

(** C9: for a url that does not start with
    [https://plato.stanford.edu/entries/], [entry_exists] returns
    [False] and leaves the world as it was: no HTTP request is sent. *)
Theorem entry_exists_foreign_url (url : string) (e : env) (w : state) :
  pystr.startswith "https://plato.stanford.edu/entries/" url = false ->
  simple_scraper.entry_exists url e w = (Ok false, w)
  /\ List.filter is_http (trace (simple_scraper.entry_exists url e w).2)
     = List.filter is_http (trace w).
Proof.
  intros Hurl. unfold simple_scraper.entry_exists, try_except. by rewrite Hurl.
Qed.

Lemma entry_exists_foreign_url_witness :
  simple_scraper.entry_exists "https://other.example/entries/kant/"
    sample.provider_down sample.empty_world = (Ok false, sample.empty_world)
  /\ List.filter is_http
       (trace (simple_scraper.entry_exists "https://other.example/entries/kant/"
                 sample.provider_down sample.empty_world).2)
     = List.filter is_http (trace sample.empty_world).
Proof.
  apply (entry_exists_foreign_url "https://other.example/entries/kant/"
           sample.provider_down sample.empty_world).
  reflexivity.
Defined.

(** ** Requests to the datastore *)

Lemma execute_run (q : query) (e : env) (w : state) :
  postgrest.execute q e w
  = match db_fault e (length (trace w)) q with
    | Some x => (Raise x, State (trace w ++ [DbExecute q]) (tables w))
    | None =>
        (Ok (postgrest.run e (length (trace w)) q (tables w)).1,
         State (trace w ++ [DbExecute q])
               (postgrest.run e (length (trace w)) q (tables w)).2)
    end.
Proof.
  unfold postgrest.execute. destruct (db_fault e (length (trace w)) q); [done|].
  by destruct (postgrest.run e (length (trace w)) q (tables w)).
Qed.

Lemma content_lookups_no_db (evs : list event) :
  Forall (fun ev => is_db ev = false) evs -> content_lookups evs = [].
Proof.
  induction 1 as [|ev evs Hev _ IH]; [done|].
  unfold content_lookups in *. cbn [omap list_omap]. rewrite IH. by destruct ev.
Qed.

Lemma content_lookups_app (l1 l2 : list event) :
  content_lookups (l1 ++ l2) = content_lookups l1 ++ content_lookups l2.
Proof. apply omap_app. Qed.

(** the two embedding calls of an article: they never raise, send
    nothing to the datastore, and fill no other key than the two *)
Lemma generate_article_embeddings_run (title content : option string)
    (e : env) (w : state) :
  exists m evs,
    embeddings.generate_article_embeddings title content e w
    = (Ok m, State (trace w ++ evs) (tables w))
    /\ Forall (fun ev => is_db ev = false) evs
    /\ forall k, k <> "title_embedding" -> k <> "content_embedding" -> m !! k = None.
Proof.
  unfold embeddings.generate_article_embeddings, bind at 1.
  destruct (generate_embedding_run title embeddings.EMBEDDINGS_MODEL 3 e w)
    as (r1 & evs1 & i1 & -> & Hl1).
  unfold bind at 1.
  destruct (generate_embedding_run content embeddings.EMBEDDINGS_MODEL 3 e
              (State (trace w ++ evs1) (tables w))) as (r2 & evs2 & i2 & -> & Hl2).
  cbn [trace tables]. unfold ret.
  eexists _, (evs1 ++ evs2). split; [by rewrite app_assoc|]. split.
  - destruct (loop_run_range _ _ _ _ _ Hl1) as (j1 & la1 & -> & Hla1 & _).
    destruct (loop_run_range _ _ _ _ _ Hl2) as (j2 & la2 & -> & Hla2 & _).
    apply Forall_app; split; by apply rounds_no_db.
  - intros k Hk1 Hk2.
    destruct r1 as [[|??]|], r2 as [[|??]|]; simpl;
      rewrite ?lookup_insert_ne by done; by rewrite ?lookup_empty.
Qed.

Lemma update_data_nonempty (m : gmap string (list float)) :
  (forall k, k <> "title_embedding" -> k <> "content_embedding" -> m !! k = None) ->
  m <> ∅ ->
  supabase_client.add_embedding "content_embedding" m
    (supabase_client.add_embedding "title_embedding" m ∅) <> ∅.
Proof.
  intros Hkeys Hm Hempty. apply Hm. apply map_eq. intros k. rewrite lookup_empty.
  unfold supabase_client.add_embedding in Hempty.
  destruct (m !! "content_embedding") eqn:Hc.
  { by apply insert_non_empty in Hempty. }
  destruct (m !! "title_embedding") eqn:Ht.
  { by apply insert_non_empty in Hempty. }
  destruct (decide (k = "title_embedding")) as [->|]; [done|].
  destruct (decide (k = "content_embedding")) as [->|]; [done|].
  by apply Hkeys.
Qed.

(** ** Regenerating embeddings *)

(** one turn of the batch: it asks for the content record of its entry
    (and for no other), and when it ends without raising it has added
    one to exactly one of the two counters *)
Lemma process_entry_run (entry : row) (s f : Z) (e : env) (w : state) :
  exists r w' evs,
    supabase_client.process_entry entry s f e w = (r, w')
    /\ trace w' = trace w ++ evs
    /\ content_lookups evs = [supabase_client.item entry "entry_id"]
    /\ forall c, r = Ok c -> exists b : bool, c = if b then (s + 1, f) else (s, f + 1).
Proof.
  unfold supabase_client.process_entry, bind at 1. rewrite execute_run.
  set (q := SelectEq "entry_content" (Some ["markdown"]) "entry_id"
              (supabase_client.item entry "entry_id")).
  assert (content_lookups [DbExecute q] = [supabase_client.item entry "entry_id"])
    as Hq by reflexivity.
  destruct (db_fault e (length (trace w)) q) as [x|].
  { eexists _, _, _. split; [done|]. split; [done|]. split; [done|]. done. }
  destruct ((postgrest.run e (length (trace w)) q (tables w)).1) as [|first rest].
  { eexists _, _, _. split; [done|]. split; [done|]. split; [done|].
    intros c [= <-]. by exists false. }
  destruct (negb (value_truthy (supabase_client.item first "markdown"))).
  { eexists _, _, _. split; [done|]. split; [done|]. split; [done|].
    intros c [= <-]. by exists false. }
  unfold try_except, bind at 1.
  match goal with
  | |- context [embeddings.generate_article_embeddings ?t ?c e ?w1] =>
      destruct (generate_article_embeddings_run t c e w1)
        as (m & evs1 & -> & Hnodb & Hkeys)
  end.
  cbn [trace tables].
  assert (content_lookups ([DbExecute q] ++ evs1)
          = [supabase_client.item entry "entry_id"]) as Hq1.
  { by rewrite content_lookups_app, Hq, content_lookups_no_db. }
  case_bool_decide as Hm.
  { eexists _, _, _. split; [done|]. cbn [trace].
    split; [by rewrite <- app_assoc|]. split; [done|].
    intros c [= <-]. by exists false. }
  case_bool_decide as Hu; [by apply update_data_nonempty in Hu|].
  unfold bind. rewrite execute_run. cbn [trace tables].
  match goal with
  | |- context [db_fault e ?n ?u] => destruct (db_fault e n u) as [x|]
  end.
  { eexists _, _, (([DbExecute q] ++ evs1) ++ [_]). split; [done|]. cbn [trace].
    split; [by rewrite <- !app_assoc|].
    split; [by rewrite content_lookups_app, Hq1|].
    intros c [= <-]. by exists false. }
  match goal with
  | |- context [(postgrest.run ?a ?b ?c ?d).1] =>
      destruct ((postgrest.run a b c d).1) as [|upd rest']
  end.
  - eexists _, _, (([DbExecute q] ++ evs1) ++ [_]). split; [done|]. cbn [trace].
    split; [by rewrite <- !app_assoc|].
    split; [by rewrite content_lookups_app, Hq1|].
    intros c [= <-]. by exists false.
  - eexists _, _, (([DbExecute q] ++ evs1) ++ [_]). split; [done|]. cbn [trace].
    split; [by rewrite <- !app_assoc|].
    split; [by rewrite content_lookups_app, Hq1|].
    intros c [= <-]. by exists true.
Qed.

Lemma count_of_total (outcomes : list bool) :
  count_of true outcomes + count_of false outcomes = Z.of_nat (length outcomes).
Proof.
  unfold count_of. induction outcomes as [|[] l IH]; simpl in *; lia.
Qed.

Lemma count_of_cons (b b' : bool) (l : list bool) :
  count_of b (b' :: l) = (if Bool.eqb b b' then 1 else 0) + count_of b l.
Proof. unfold count_of. simpl. destruct (Bool.eqb b b'); simpl; lia. Qed.

Lemma regenerate_loop_run (entries : list row) (s f t : Z) (e : env) (w : state) :
  exists r w' evs,
    supabase_client.regenerate_loop entries s f t e w = (Ok r, w')
    /\ trace w' = trace w ++ evs
    /\ forall s' f' t', r = supabase_client.Processed s' f' t' ->
         t' = t
         /\ content_lookups evs = (fun r : row => supabase_client.item r "entry_id") <$> entries
         /\ exists outcomes : list bool,
              length outcomes = length entries
              /\ s' = s + count_of true outcomes
              /\ f' = f + count_of false outcomes.
Proof.
  revert s f w. induction entries as [|entry rest IH]; intros s f w.
  - exists (supabase_client.Processed s f t), w, []. split; [done|].
    split; [by rewrite app_nil_r|]. intros s' f' t' [= <- <- <-].
    split; [done|]. split; [done|]. exists []. unfold count_of. simpl. lia.
  - cbn [supabase_client.regenerate_loop]. unfold try_with.
    destruct (process_entry_run entry s f e w) as (r0 & w0 & evs0 & -> & Htr0 & Hlk0 & Hc).
    destruct r0 as [c|x].
    + destruct (Hc c eq_refl) as [b ->].
      destruct (IH (if b then (s + 1, f) else (s, f + 1)).1
                   (if b then (s + 1, f) else (s, f + 1)).2 w0)
        as (r & w' & evs & -> & Htr & Hp).
      exists r, w', (evs0 ++ evs). split; [done|].
      split; [by rewrite Htr, Htr0, app_assoc|].
      intros s' f' t' Hr. destruct (Hp s' f' t' Hr) as (-> & Hlk & outs & Hlen & -> & ->).
      split; [done|]. split; [by rewrite content_lookups_app, Hlk0, Hlk|].
      exists (b :: outs). split; [by simpl; rewrite Hlen|].
      rewrite !count_of_cons. destruct b; simpl; lia.
    + eexists _, w0, evs0. split; [done|]. split; [done|]. intros s' f' t' [=].
Qed.

(** C10: when [regenerate_embeddings] returns its summary without the
    [error] key, every entry of the fetched page was processed (its
    content record was asked for, in page order) and counted in exactly
    one of the two counters, which therefore add up to
    [total_processed], the length of the page. *)
Theorem regenerate_embeddings_counts (limit offset : Z) (e : env) (w w' : state)
    (success_count failure_count total_processed : Z) :
  supabase_client.regenerate_embeddings limit offset e w
    = (Ok (supabase_client.Processed success_count failure_count total_processed), w') ->
  let page :=
    SelectRange "entry_metadata" (Some ["entry_id"; "title"]) "updated_at"
      offset (offset + limit - 1) in
  let entries := (postgrest.run e (length (trace w)) page (tables w)).1 in
  success_count + failure_count = total_processed
  /\ total_processed = Z.of_nat (length entries)
  /\ (exists outcomes : list bool,
        length outcomes = length entries
        /\ success_count = count_of true outcomes
        /\ failure_count = count_of false outcomes)
  /\ exists evs,
       trace w' = trace w ++ DbExecute page :: evs
       /\ content_lookups evs
          = (fun r : row => supabase_client.item r "entry_id") <$> entries.
Proof.
  intros Hrun page entries.
  unfold supabase_client.regenerate_embeddings, try_with in Hrun.
  rewrite execute_run in Hrun. fold page in Hrun.
  destruct (db_fault e (length (trace w)) page); [done|].
  fold entries in Hrun.
  match type of Hrun with
  | supabase_client.regenerate_loop _ _ _ ?t _ ?w1 = _ =>
      destruct (regenerate_loop_run entries 0 0 t e w1) as (r & w2 & evs & Hl & Htr & Hp)
  end.
  rewrite Hl in Hrun. injection Hrun as -> <-.
  destruct (Hp _ _ _ eq_refl) as (-> & Hlk & outs & Hlen & -> & ->).
  pose proof (count_of_total outs). rewrite Hlen in *.
  split; [lia|]. split; [done|].
  split; [exists outs; split; [done|]; lia|].
  exists evs. split; [|done]. rewrite Htr. cbn [trace]. by rewrite <- app_assoc.
Qed.

Lemma regenerate_embeddings_counts_witness :
  1 + 1 = 2
  /\ 2 = Z.of_nat (length (postgrest.run sample.provider_up 0
                     (SelectRange "entry_metadata" (Some ["entry_id"; "title"])
                        "updated_at" 0 (0 + 10 - 1))
                     (tables sample.two_entries)).1)
  /\ (exists outcomes : list bool,
        length outcomes
        = length (postgrest.run sample.provider_up 0
                    (SelectRange "entry_metadata" (Some ["entry_id"; "title"])
                       "updated_at" 0 (0 + 10 - 1))
                    (tables sample.two_entries)).1
        /\ 1 = count_of true outcomes /\ 1 = count_of false outcomes)
  /\ exists evs,
       trace (supabase_client.regenerate_embeddings 10 0
                sample.provider_up sample.two_entries).2
       = trace sample.two_entries
           ++ DbExecute (SelectRange "entry_metadata" (Some ["entry_id"; "title"])
                           "updated_at" 0 (0 + 10 - 1)) :: evs
       /\ content_lookups evs
          = (fun r : row => supabase_client.item r "entry_id")
              <$> (postgrest.run sample.provider_up 0
                     (SelectRange "entry_metadata" (Some ["entry_id"; "title"])
                        "updated_at" 0 (0 + 10 - 1))
                     (tables sample.two_entries)).1.
Proof.
  apply (regenerate_embeddings_counts 10 0 sample.provider_up sample.two_entries
           (supabase_client.regenerate_embeddings 10 0
              sample.provider_up sample.two_entries).2 1 1 2).
  vm_compute. reflexivity.
Defined.

(** ** Saving an entry *)

Lemma datetime_now_run (e : env) (w : state) :
  supabase_client.datetime_now e w = (Ok (now e (length (trace w))), w).
Proof. reflexivity. Qed.

Lemma select_eq_run (e : env) (n : nat) (t col : string) (v : value)
    (db : gmap string (list row)) :
  postgrest.run e n (SelectEq t None col v) db
  = (List.filter (fun r : row => postgrest.col_eq v (r !! col)) (postgrest.rows_of t db), db).
Proof. unfold postgrest.run, postgrest.project. by rewrite list_fmap_id. Qed.

Lemma rows_of_insert (t : string) (l : list row) (db : gmap string (list row)) :
  postgrest.rows_of t (<[t := l]> db) = l.
Proof. unfold postgrest.rows_of. by rewrite lookup_insert_eq. Qed.

Lemma rows_of_insert_ne (t t' : string) (l : list row) (db : gmap string (list row)) :
  t' <> t -> postgrest.rows_of t (<[t' := l]> db) = postgrest.rows_of t db.
Proof. intros Hne. unfold postgrest.rows_of. by rewrite lookup_insert_ne. Qed.

(** the embeddings never touch the columns that identify a record *)
Lemma attach_embeddings_run (self : supabase_client.SupabaseManager) (title : string)
    (markdown : option string) (metadata : row) (e : env) (w : state) :
  exists md evs,
    supabase_client.attach_embeddings self title markdown metadata e w
    = (Ok md, State (trace w ++ evs) (tables w))
    /\ Forall (fun ev => is_db ev = false) evs
    /\ forall k, k <> "title_embedding" -> k <> "content_embedding" ->
                 md !! k = metadata !! k.
Proof.
  unfold supabase_client.attach_embeddings.
  destruct (supabase_client.enable_embeddings self && supabase_client.opt_truthy markdown
            && pystr.truthy title).
  - unfold try_except, bind.
    destruct (generate_article_embeddings_run (Some title) markdown e w)
      as (m & evs & -> & Hnodb & _).
    eexists _, evs. split; [done|]. split; [done|].
    intros k Hk1 Hk2. unfold supabase_client.add_embedding.
    destruct (m !! "content_embedding"), (m !! "title_embedding");
      by rewrite ?lookup_insert_ne by done.
  - exists metadata, []. rewrite state_eta. by split; [|split].
Qed.

(** an update that keeps the entry id keeps the records of every id in
    place *)
Lemma records_for_update (entry_id entry_id' : string) (patch : row) (rows : list row) :
  patch !! "entry_id" = Some (VStr entry_id) ->
  let upd (r : row) :=
    if postgrest.col_eq (VStr entry_id) (r !! "entry_id") then patch ∪ r else r in
  records_for entry_id' (upd <$> rows) = upd <$> records_for entry_id' rows.
Proof.
  intros Hp upd. unfold records_for.
  induction rows as [|r rows IH]; [done|].
  rewrite fmap_cons. cbn [List.filter]. rewrite IH.
  assert (postgrest.col_eq (VStr entry_id') (upd r !! "entry_id")
          = postgrest.col_eq (VStr entry_id') (r !! "entry_id")) as ->.
  { unfold upd. destruct (postgrest.col_eq (VStr entry_id) (r !! "entry_id")) eqn:Hhit;
      [|done].
    unfold postgrest.col_eq in Hhit. apply bool_decide_eq_true in Hhit.
    by rewrite Hhit, (lookup_union_Some_l _ _ _ _ Hp). }
  by destruct (postgrest.col_eq (VStr entry_id') (r !! "entry_id")).
Qed.

Lemma records_for_app (entry_id : string) (l1 l2 : list row) :
  records_for entry_id (l1 ++ l2) = records_for entry_id l1 ++ records_for entry_id l2.
Proof. unfold records_for. apply List.filter_app. Qed.

Lemma at_most_one_other (db : gmap string (list row)) (t : string) (l : list row) :
  t <> "entry_metadata" -> at_most_one db -> at_most_one (<[t := l]> db).
Proof. intros Hne Hinv i. rewrite rows_of_insert_ne by done. apply Hinv. Qed.

Lemma at_most_one_update (db : gmap string (list row)) (entry_id : string) (patch : row) :
  patch !! "entry_id" = Some (VStr entry_id) ->
  at_most_one db ->
  at_most_one
    (<["entry_metadata" :=
         (fun r : row =>
            if postgrest.col_eq (VStr entry_id) (r !! "entry_id") then patch ∪ r else r)
           <$> postgrest.rows_of "entry_metadata" db]> db).
Proof.
  intros Hp Hinv i. rewrite rows_of_insert.
  rewrite (records_for_update entry_id i patch _ Hp), length_fmap. apply Hinv.
Qed.

Lemma at_most_one_insert (db : gmap string (list row)) (entry_id : string) (r : row) :
  r !! "entry_id" = Some (VStr entry_id) ->
  records_for entry_id (postgrest.rows_of "entry_metadata" db) = [] ->
  at_most_one db ->
  at_most_one (<["entry_metadata" := postgrest.rows_of "entry_metadata" db ++ [r]]> db).
Proof.
  intros Hr Hnew Hinv i. rewrite rows_of_insert, records_for_app, length_app.
  destruct (decide (i = entry_id)) as [->|Hne].
  - rewrite Hnew. unfold records_for. cbn [List.filter].
    destruct (postgrest.col_eq (VStr entry_id) (r !! "entry_id")); simpl; lia.
  - specialize (Hinv i). unfold records_for at 2. cbn [List.filter]. rewrite Hr.
    unfold postgrest.col_eq. rewrite bool_decide_false by congruence. simpl. lia.
Qed.

Lemma db_requests_app (l1 l2 : list event) :
  db_requests (l1 ++ l2) = db_requests l1 ++ db_requests l2.
Proof. apply omap_app. Qed.

Lemma db_requests_no_db (evs : list event) :
  Forall (fun ev => is_db ev = false) evs -> db_requests evs = [].
Proof.
  induction 1 as [|ev evs Hev _ IH]; [done|].
  unfold db_requests in *. cbn [omap list_omap]. rewrite IH. by destruct ev.
Qed.

(** what a save sends and leaves behind *)
Lemma save_entry_run (self : supabase_client.SupabaseManager) (entry_id title url : string)
    (date_issued date_modified preamble content_hash html markdown : option string)
    (toc : option (list toc_entry)) (authors : option (list string))
    (e : env) (w : state) :
  at_most_one (tables w) ->
  let found := records_for entry_id (postgrest.rows_of "entry_metadata" (tables w)) in
  exists (ok : bool) (w' : state) (evs : list event) (metadata content : row),
    supabase_client.save_entry self entry_id title url date_issued date_modified
      preamble content_hash html markdown toc authors e w = (Ok ok, w')
    /\ trace w' = trace w ++ evs
    /\ at_most_one (tables w')
    /\ metadata !! "entry_id" = Some (VStr entry_id)
    /\ metadata !! "title" = Some (VStr title)
    /\ content !! "entry_id" = Some (VStr entry_id)
    /\ (ok = true ->
        (exists r, records_for entry_id (postgrest.rows_of "entry_metadata" (tables w')) = [r]
                   /\ r !! "title" = Some (VStr title))
        /\ db_requests evs
           = SelectEq "entry_metadata" None "entry_id" (VStr entry_id)
             :: match found with
                | [] => [Insert "entry_metadata" metadata; Insert "entry_content" content]
                | _ :: _ =>
                    [UpdateEq "entry_metadata" metadata "entry_id" (VStr entry_id);
                     UpdateEq "entry_content" content "entry_id" (VStr entry_id)]
                end).
Proof.
  intros Hinv found. unfold supabase_client.save_entry, try_except. unfold bind at 1.
  rewrite execute_run.
  set (sel := SelectEq "entry_metadata" None "entry_id" (VStr entry_id)).
  destruct (db_fault e (length (trace w)) sel) as [x|].
  { exists false, (State (trace w ++ [DbExecute sel]) (tables w)), [DbExecute sel],
      {[ "entry_id" := VStr entry_id; "title" := VStr title ]},
      {[ "entry_id" := VStr entry_id ]}.
    repeat (split; [done|]). done. }
  subst sel. rewrite select_eq_run. cbn [fst snd].
  fold (records_for entry_id (postgrest.rows_of "entry_metadata" (tables w))).
  fold found.
  set (sel := SelectEq "entry_metadata" None "entry_id" (VStr entry_id)).
  unfold bind at 1. rewrite datetime_now_run.
  unfold bind at 1.
  match goal with
  | |- context [supabase_client.attach_embeddings self title markdown ?m e ?w1] =>
      destruct (attach_embeddings_run self title markdown m e w1)
        as (md & evs1 & -> & Hnodb & Hkeep); set (metadata := m) in *
  end.
  cbn [trace tables].
  unfold bind at 1. rewrite datetime_now_run.
  match goal with
  | |- context [UpdateEq "entry_content" ?c] => set (content := c)
  end.
  assert (md !! "entry_id" = Some (VStr entry_id)) as Hid by (by rewrite Hkeep).
  assert (md !! "title" = Some (VStr title)) as Htitle by (by rewrite Hkeep).
  assert (content !! "entry_id" = Some (VStr entry_id)) as Hcid by done.
  assert (db_requests (([DbExecute sel] ++ evs1)) = [sel]) as Hreq.
  { by rewrite db_requests_app, (db_requests_no_db evs1). }
  set (w1 := State ((trace w ++ [DbExecute sel]) ++ evs1) (tables w)).
  assert (forall q, trace w ++ ([DbExecute sel] ++ evs1) ++ [DbExecute q]
                    = (trace w1 ++ [DbExecute q])) as Htr1.
  { intros q. subst w1. cbn [trace]. by rewrite <- !app_assoc. }
  assert (forall q1 q2, trace w ++ ([DbExecute sel] ++ evs1) ++ [DbExecute q1; DbExecute q2]
                    = ((trace w1 ++ [DbExecute q1]) ++ [DbExecute q2])) as Htr2.
  { intros q1 q2. subst w1. cbn [trace]. by rewrite <- !app_assoc. }
  case_bool_decide as Hfound.
  - (* the record exists: update *)
    unfold bind at 1. rewrite execute_run.
    set (u1 := UpdateEq "entry_metadata" md "entry_id" (VStr entry_id)).
    set (u2 := UpdateEq "entry_content" content "entry_id" (VStr entry_id)).
    destruct (db_fault e (length (trace w1)) u1) as [x|].
    { exists false, (State (trace w1 ++ [DbExecute u1]) (tables w1)),
        (([DbExecute sel] ++ evs1) ++ [DbExecute u1]), md, content.
      split; [done|]. split; [by rewrite Htr1|]. repeat (split; [done|]). done. }
    subst u1. cbn [postgrest.run fst snd]. unfold bind at 1. rewrite execute_run.
    cbn [trace tables]. change (tables w1) with (tables w).
    set (u1 := UpdateEq "entry_metadata" md "entry_id" (VStr entry_id)).
    set (db1 := <["entry_metadata" := _]> (tables w)).
    assert (at_most_one db1) as Hinv1 by (by apply at_most_one_update).
    destruct (db_fault e (length (trace w1 ++ [DbExecute u1])) u2) as [x|].
    { exists false, (State ((trace w1 ++ [DbExecute u1]) ++ [DbExecute u2]) db1),
        (([DbExecute sel] ++ evs1) ++ [DbExecute u1; DbExecute u2]), md, content.
      split; [done|]. split; [by rewrite Htr2|]. repeat (split; [done|]). done. }
    subst u2. cbn [postgrest.run fst snd].
    set (u2 := UpdateEq "entry_content" content "entry_id" (VStr entry_id)).
    eexists true, _, (([DbExecute sel] ++ evs1) ++ [DbExecute u1; DbExecute u2]), md, content.
    split; [reflexivity|]. cbn [trace tables].
    split; [by rewrite Htr2|].
    split; [by apply at_most_one_other|].
    repeat (split; [done|]). intros _. split.
    + rewrite rows_of_insert_ne by done. subst db1. rewrite rows_of_insert.
      rewrite (records_for_update entry_id entry_id md _ Hid). fold found.
      pose proof (Hinv entry_id) as Hone. fold found in Hone.
      destruct found as [|r0 [|??]] eqn:Hf; simpl in Hfound, Hone; [lia| |lia].
      cbn [fmap list_fmap].
      assert (postgrest.col_eq (VStr entry_id) (r0 !! "entry_id") = true) as ->.
      { assert (In r0 found) as Hin by (rewrite Hf; by left).
        subst found. unfold records_for in Hin. by apply List.filter_In in Hin as [_ ?]. }
      eexists. split; [done|]. by apply lookup_union_Some_l.
    + rewrite db_requests_app, Hreq. destruct found; [simpl in Hfound; lia|done].
  - (* no record yet: insert *)
    assert (found = []) as Hnone by (destruct found; [done|simpl in Hfound; lia]).
    unfold bind at 1. rewrite execute_run.
    set (i1 := Insert "entry_metadata" md).
    set (i2 := Insert "entry_content" content).
    destruct (db_fault e (length (trace w1)) i1) as [x|].
    { exists false, (State (trace w1 ++ [DbExecute i1]) (tables w1)),
        (([DbExecute sel] ++ evs1) ++ [DbExecute i1]), md, content.
      split; [done|]. split; [by rewrite Htr1|]. repeat (split; [done|]). done. }
    subst i1. cbn [postgrest.run fst snd]. unfold bind at 1. rewrite execute_run.
    cbn [trace tables]. change (tables w1) with (tables w).
    set (i1 := Insert "entry_metadata" md).
    set (db1 := <["entry_metadata" := _]> (tables w)).
    assert (at_most_one db1) as Hinv1 by (by apply (at_most_one_insert _ entry_id)).
    destruct (db_fault e (length (trace w1 ++ [DbExecute i1])) i2) as [x|].
    { exists false, (State ((trace w1 ++ [DbExecute i1]) ++ [DbExecute i2]) db1),
        (([DbExecute sel] ++ evs1) ++ [DbExecute i1; DbExecute i2]), md, content.
      split; [done|]. split; [by rewrite Htr2|]. repeat (split; [done|]). done. }
    subst i2. cbn [postgrest.run fst snd].
    set (i2 := Insert "entry_content" content).
    eexists true, _, (([DbExecute sel] ++ evs1) ++ [DbExecute i1; DbExecute i2]), md, content.
    split; [reflexivity|]. cbn [trace tables].
    split; [by rewrite Htr2|].
    split; [by apply at_most_one_other|].
    repeat (split; [done|]). intros _. split.
    + rewrite rows_of_insert_ne by done. subst db1. rewrite rows_of_insert.
      rewrite records_for_app. fold found. rewrite Hnone.
      exists md. split; [|done]. unfold records_for. cbn [List.filter app].
      rewrite Hid. unfold postgrest.col_eq. by rewrite bool_decide_true.
    + rewrite db_requests_app, Hreq. by rewrite Hnone.
Qed.

(** C3: [save_entry] first asks for the metadata record of the entry
    id, then updates the metadata and the content record when one was
    found and inserts both otherwise.  Every save, whether it succeeds
    or not, keeps at most one metadata record per entry id, and after a
    second successful save under the same entry id there is exactly one
    metadata record for it, carrying the title of the second save. *)
Theorem save_entry_upsert (self : supabase_client.SupabaseManager)
    (entry_id title url title2 url2 : string)
    (date_issued date_modified preamble content_hash html markdown : option string)
    (toc : option (list toc_entry)) (authors : option (list string))
    (date_issued2 date_modified2 preamble2 content_hash2 html2 markdown2 : option string)
    (toc2 : option (list toc_entry)) (authors2 : option (list string))
    (e : env) (w : state) :
  at_most_one (tables w) ->
  let first :=
    supabase_client.save_entry self entry_id title url date_issued date_modified
      preamble content_hash html markdown toc authors e w in
  let second :=
    supabase_client.save_entry self entry_id title2 url2 date_issued2 date_modified2
      preamble2 content_hash2 html2 markdown2 toc2 authors2 e first.2 in
  at_most_one (tables first.2)
  /\ at_most_one (tables second.2)
  /\ (first.1 = Ok true ->
      exists (evs : list event) (metadata content : row),
        trace first.2 = trace w ++ evs
        /\ metadata !! "entry_id" = Some (VStr entry_id)
        /\ metadata !! "title" = Some (VStr title)
        /\ content !! "entry_id" = Some (VStr entry_id)
        /\ db_requests evs
           = SelectEq "entry_metadata" None "entry_id" (VStr entry_id)
             :: match records_for entry_id
                        (postgrest.rows_of "entry_metadata" (tables w)) with
                | [] => [Insert "entry_metadata" metadata; Insert "entry_content" content]
                | _ :: _ =>
                    [UpdateEq "entry_metadata" metadata "entry_id" (VStr entry_id);
                     UpdateEq "entry_content" content "entry_id" (VStr entry_id)]
                end)
  /\ (second.1 = Ok true ->
      exists r : row,
        records_for entry_id (postgrest.rows_of "entry_metadata" (tables second.2)) = [r]
        /\ r !! "title" = Some (VStr title2)).
Proof.
  intros Hinv first second.
  destruct (save_entry_run self entry_id title url date_issued date_modified
              preamble content_hash html markdown toc authors e w Hinv)
    as (ok1 & w1 & evs1 & md1 & c1 & Hrun1 & Htr1 & Hinv1 & Hid1 & Ht1 & Hc1 & Hok1).
  subst first second. rewrite Hrun1. cbn [fst snd].
  destruct (save_entry_run self entry_id title2 url2 date_issued2 date_modified2
              preamble2 content_hash2 html2 markdown2 toc2 authors2 e w1 Hinv1)
    as (ok2 & w2 & evs2 & md2 & c2 & Hrun2 & Htr2 & Hinv2 & Hid2 & Ht2 & Hc2 & Hok2).
  rewrite Hrun2. cbn [fst snd].
  split; [done|]. split; [done|]. split.
  - intros [= ->]. destruct (Hok1 eq_refl) as [_ Hreq]. by exists evs1, md1, c1.
  - intros [= ->]. by destruct (Hok2 eq_refl) as [Hone _].
Qed.

Lemma save_entry_upsert_witness :
  exists r : row,
    records_for "kant" (postgrest.rows_of "entry_metadata" (tables sample.saved_twice)) = [r]
    /\ r !! "title" = Some (VStr "Immanuel Kant").
Proof.
  apply (save_entry_upsert sample.manager "kant" "Kant"
           "https://plato.stanford.edu/entries/kant" "Immanuel Kant"
           "https://plato.stanford.edu/entries/kant" None None None None None
           (Some "Kant was born in 1724.") None None None None None None None
           (Some "Kant was born in 1724.") None None
           sample.provider_down sample.empty_world).
  - intros i. vm_compute. lia.
  - vm_compute. reflexivity.
Defined.

(** ** Text search *)

(** C5 (the code falls short of the specification): with "kant" in two titles
    and in five bodies, three of them of entries whose title does not
    match, a search with limit 5 returns the two title matches and one
    body-only match.  The body query is limited to the three missing
    results before the entries already found are taken out of it. *)
Theorem search_by_text_shortfall :
  let db := tables sample.library in
  length (List.filter (fun r : row => postgrest.ilike "%kant%" (r !! "title"))
            (postgrest.rows_of "entry_metadata" db)) = 2%nat
  /\ length (List.filter (fun r : row => postgrest.ilike "%kant%" (r !! "markdown"))
               (postgrest.rows_of "entry_content" db)) = 5%nat
  /\ exists results,
       (supabase_client.search_by_text "kant" 5 sample.provider_down sample.library).1
       = Ok results
       /\ (fun r : row => supabase_client.item r "entry_id") <$> results
          = [VStr "kant"; VStr "kant-moral"; VStr "hume"].
Proof.
  split; [by vm_compute|]. split; [by vm_compute|].
  eexists. split; [by vm_compute|]. by vm_compute.
Qed.

(** ** Authors *)

(** the example of the specification *)
Lemma authors_example :
  simple_scraper.authors_of_text "Entry by: Jane Doe, John Smith and A. N. Other"
  = ["Jane Doe"; "John Smith"; "A. N. Other"].
Proof. by vm_compute. Qed.

(** C6 (the code falls short of the specification): after a comma the word
    "and" is not taken as a separator, because the comma separator has
    already consumed the white space that the "and" separator needs in
    front of it. *)
Theorem authors_and_after_comma :
  simple_scraper.authors_of_text "Entry by: Jane Doe, John Smith, and A. N. Other"
  = ["Jane Doe"; "John Smith"; "and A. N. Other"].
Proof. by vm_compute. Qed.

(** ** The table of contents *)

Lemma heading_rank (d : bs4.node) :
  if bs4.matches simple_scraper.sel_headings d
  then exists r, rank d = Some r /\ simple_scraper.name_digit d = Ok r
  else rank d = None.
Proof.
  destruct d as [s|nm attrs cs]; [done|].
  unfold bs4.matches, simple_scraper.sel_headings, rank, simple_scraper.name_digit.
  cbn [existsb forallb bs4.match_simple bs4.name].
  repeat (case_bool_decide; [subst nm; cbn [orb andb]; by eexists|]).
  cbn [orb andb]. by repeat (case_decide; [done|]).
Qed.

Lemma toc_loop_spec (headings : list bs4.node) (toc : list toc_entry) :
  simple_scraper.toc_loop toc (List.filter (bs4.matches simple_scraper.sel_headings) headings)
  = Ok (toc ++ omap toc_entry_of headings).
Proof.
  revert toc. induction headings as [|d l IH]; intros toc.
  - simpl. by rewrite app_nil_r.
  - cbn [List.filter omap list_omap]. pose proof (heading_rank d) as Hd.
    destruct (bs4.matches simple_scraper.sel_headings d).
    + destruct Hd as (r & Hr & Hdigit).
      cbn [simple_scraper.toc_loop]. unfold simple_scraper.toc_step, toc_entry_of.
      rewrite Hr, Hdigit. destruct (bs4.get "id" d) as [i|]; [|by rewrite IH].
      destruct (bs4.attr_truthy (Some i)); [|by rewrite IH].
      by rewrite IH, <- app_assoc.
    + unfold toc_entry_of at 1. rewrite Hd. apply IH.
Qed.

(** C2 as stated fails: a heading with an empty id attribute does not
    lack the attribute, yet it is skipped. *)
Lemma extract_toc_empty_id :
  toc_as_claimed sample.empty_id_example = [TocEntry (bs4.AStr "") "Intro" 1]
  /\ simple_scraper._extract_toc (Some sample.empty_id_example) = Ok []
  /\ simple_scraper._extract_toc (Some sample.empty_id_example)
     <> Ok (toc_as_claimed sample.empty_id_example).
Proof. split; [by vm_compute|]. split; [by vm_compute|]. by vm_compute. Qed.

(** C2 (amended): [_extract_toc] returns, in document order, one entry
    for every heading of rank 2 to 6 below the fragment whose id is
    present and not empty, with that id, the stripped text of the
    heading and level = rank - 1; headings without an id or with an
    empty id are skipped.  The headings of the example yield the two
    entries of the specification. *)
Theorem extract_toc_headings (fragment : bs4.node) :
  simple_scraper._extract_toc (Some fragment) = Ok (toc_of fragment)
  /\ simple_scraper._extract_toc None = Ok []
  /\ simple_scraper._extract_toc (Some sample.toc_example)
     = Ok [TocEntry (bs4.AStr "a") "Intro" 1; TocEntry (bs4.AStr "b") "Sub" 2].
Proof.
  split; [|split; [done|by vm_compute]].
  unfold simple_scraper._extract_toc, bs4.select, toc_of.
  by rewrite toc_loop_spec.
Qed.

(** ** The content root *)

Lemma node_ind' (P : bs4.node -> Prop) :
  (forall s, P (bs4.NavigableString s)) ->
  (forall nm attrs cs, Forall P cs -> P (bs4.Tag nm attrs cs)) ->
  forall n, P n.
Proof.
  intros Hs Ht. fix IH 1. intros [s|nm attrs cs]; [apply Hs|].
  apply Ht. induction cs as [|c cs IHcs]; constructor; [apply IH|apply IHcs].
Qed.

(** whether a selector matches depends on the tag itself, not on what
    is below it *)
Lemma matches_root (sel : bs4.selector) (nm : string) (attrs : gmap string bs4.attr)
    (cs cs' : list bs4.node) :
  bs4.matches sel (bs4.Tag nm attrs cs) = bs4.matches sel (bs4.Tag nm attrs cs').
Proof. reflexivity. Qed.

Lemma matches_decompose (sel sel' : bs4.selector) (n : bs4.node) :
  bs4.matches sel' (bs4.decompose_all sel n) = bs4.matches sel' n.
Proof. by destruct n. Qed.

(** after the loop no match is left below the tag *)
Lemma decompose_all_clean (sel : bs4.selector) (n : bs4.node) :
  bs4.select sel (bs4.decompose_all sel n) = [].
Proof.
  unfold bs4.select. induction n as [s|nm attrs cs IH] using node_ind'; [done|].
  cbn [bs4.decompose_all bs4.descendants].
  induction cs as [|c cs IHcs]; [done|].
  apply Forall_cons in IH as [Hc Hcs]. cbn [bs4.prune].
  destruct (bs4.matches sel c) eqn:Hm; [by apply IHcs|].
  cbn [flat_map]. rewrite List.filter_app. cbn [List.filter].
  rewrite matches_decompose, Hm, Hc. by apply IHcs.
Qed.

(** a tag without a match below it is left as it is *)
Lemma decompose_all_id (sel : bs4.selector) (n : bs4.node) :
  bs4.select sel n = [] -> bs4.decompose_all sel n = n.
Proof.
  unfold bs4.select. induction n as [s|nm attrs cs IH] using node_ind'; [done|].
  cbn [bs4.decompose_all bs4.descendants]. intros Hnone. f_equal.
  induction cs as [|c cs IHcs]; [done|].
  apply Forall_cons in IH as [Hc Hcs]. cbn [flat_map] in Hnone.
  rewrite List.filter_app in Hnone. apply app_eq_nil in Hnone as [H1 H2].
  cbn [List.filter] in H1.
  destruct (bs4.matches sel c) eqn:Hm; [done|].
  cbn [bs4.prune]. rewrite Hm, (Hc H1). f_equal. by apply IHcs.
Qed.

(** the first node satisfying [p] below a tag is the one changed, and
    it is still the first afterwards *)
Lemma update_first_spec (p : bs4.node -> bool) (f : bs4.node -> bs4.node) (n : bs4.node) :
  (forall nm attrs cs cs', p (bs4.Tag nm attrs cs) = p (bs4.Tag nm attrs cs')) ->
  (forall b, p b = true -> p (f b) = true) ->
  match head (List.filter p (bs4.descendants n)) with
  | Some b =>
      exists n', bs4.update_first p f n = Some n'
                 /\ p n' = p n
                 /\ head (List.filter p (bs4.descendants n')) = Some (f b)
  | None => bs4.update_first p f n = None
  end.
Proof.
  intros Hroot Hf. induction n as [s|nm attrs cs IH] using node_ind'; [done|].
  cbn [bs4.update_first bs4.descendants].
  assert (match head (List.filter p (flat_map (fun c => c :: bs4.descendants c) cs)) with
          | Some b =>
              exists cs', bs4.first_in p f (bs4.update_first p f) cs = Some cs'
                          /\ head (List.filter p
                                     (flat_map (fun c => c :: bs4.descendants c) cs'))
                             = Some (f b)
          | None => bs4.first_in p f (bs4.update_first p f) cs = None
          end) as Hcs.
  { induction cs as [|c cs IHcs]; [done|].
    apply Forall_cons in IH as [Hc Hrest]. specialize (IHcs Hrest).
    cbn [flat_map bs4.first_in]. rewrite <- app_comm_cons. cbn [List.filter].
    destruct (p c) eqn:Hpc.
    - cbn [head]. eexists. split; [done|].
      cbn [flat_map]. rewrite <- app_comm_cons. cbn [List.filter].
      by rewrite (Hf c Hpc).
    - rewrite List.filter_app.
      destruct (List.filter p (bs4.descendants c)) as [|b l] eqn:Hd.
      + cbn [head] in Hc. rewrite Hc. cbn [app].
        destruct (head (List.filter p (flat_map (fun c0 => c0 :: bs4.descendants c0) cs)))
          as [b|].
        * destruct IHcs as (cs' & -> & Hh). eexists. split; [done|].
          cbn [flat_map]. rewrite <- app_comm_cons. cbn [List.filter].
          by rewrite Hpc, List.filter_app, Hd.
        * by rewrite IHcs.
      + cbn [head app] in *. destruct Hc as (c' & -> & Hpc' & Hh).
        eexists. split; [done|].
        cbn [flat_map]. rewrite <- app_comm_cons. cbn [List.filter].
        rewrite Hpc', List.filter_app.
        destruct (List.filter p (bs4.descendants c')); [done|].
        by cbn [head app] in *. }
  destruct (head (List.filter p (flat_map (fun c => c :: bs4.descendants c) cs))) as [b|].
  - destruct Hcs as (cs' & -> & Hh). eexists. split; [done|]. split; [apply Hroot|done].
  - by rewrite Hcs.
Qed.

Lemma chrome_matches (n : bs4.node) :
  bs4.matches simple_scraper.sel_chrome n = true <-> chrome n.
Proof.
  destruct n as [s|nm attrs cs].
  - split; [done|]. by intros [?|[?|[?|?]]].
  - unfold bs4.matches, simple_scraper.sel_chrome, chrome.
    cbn [existsb forallb bs4.match_simple bs4.get bs4.name].
    rewrite !andb_true_r, orb_false_r, !orb_true_iff, !bool_decide_eq_true.
    split; intros [?|[?|[?|?]]]; simplify_eq; auto.
Qed.

(** C1 as stated fails: a document without a body (and without the
    two content elements) does not make the selection raise; it
    returns, with no root selected and an empty table of contents. *)
Lemma process_content_without_body :
  bs4.body sample.no_body = None
  /\ simple_scraper._process_content bs4.text sample.no_body
     = (Ok ("None", []), sample.no_body)
  /\ raised (simple_scraper._process_content bs4.text sample.no_body).1 = false.
Proof. split; [by vm_compute|]. split; by vm_compute. Qed.

(** C1 (amended): the content root is the first element with id
    [main-content]; without one, the first element of class
    [aueditable]; without either, the body of the document, from which
    the elements with id [header] or [footer] and the [script] and
    [style] elements have been removed in place (the body of the
    document afterwards is that root).  The selection never raises:
    without a body either, no root is selected and the table of
    contents is empty. *)
Theorem process_content_root (decode : bs4.node -> string) (soup : bs4.node) :
  exists (root : option bs4.node) (toc : list toc_entry) (soup' : bs4.node),
    simple_scraper._process_content decode soup
    = (Ok (simple_scraper.py_str decode root, toc), soup')
    /\ simple_scraper._extract_toc root = Ok toc
    /\ match bs4.select_one simple_scraper.sel_main_content soup,
             bs4.select_one simple_scraper.sel_aueditable soup,
             bs4.body soup with
       | Some m, _, _ => root = Some m /\ soup' = soup
       | None, Some a, _ => root = Some a /\ soup' = soup
       | None, None, Some b =>
           root = Some (bs4.decompose_all simple_scraper.sel_chrome b)
           /\ bs4.body soup' = root
           /\ bs4.name (bs4.decompose_all simple_scraper.sel_chrome b) = Some "body"
           /\ bs4.get "id" (bs4.decompose_all simple_scraper.sel_chrome b) = bs4.get "id" b
           /\ Forall (fun d => ~ chrome d)
                (bs4.descendants (bs4.decompose_all simple_scraper.sel_chrome b))
           /\ (bs4.select simple_scraper.sel_chrome b = [] ->
               bs4.decompose_all simple_scraper.sel_chrome b = b)
       | None, None, None => root = None /\ toc = [] /\ soup' = soup
       end.
Proof.
  assert (forall el, simple_scraper._extract_toc (Some el) = Ok (toc_of el)) as Htoc.
  { intros el. unfold simple_scraper._extract_toc, bs4.select, toc_of.
    by rewrite toc_loop_spec. }
  assert (forall l, List.filter (bs4.matches simple_scraper.sel_chrome) l = []
                    <-> Forall (fun d => ~ chrome d) l) as Hclean.
  { intros l. induction l as [|d l IH]; [done|]. cbn [List.filter].
    rewrite Forall_cons, <- IH, <- chrome_matches.
    destruct (bs4.matches simple_scraper.sel_chrome d).
    - split; [done|]. intros [H _]. by destruct H.
    - split; [by intros ?|]. by intros [_ ?]. }
  unfold simple_scraper._process_content.
  destruct (bs4.select_one simple_scraper.sel_main_content soup) as [m|].
  { rewrite Htoc. by eexists (Some m), _, soup. }
  destruct (bs4.select_one simple_scraper.sel_aueditable soup) as [a|].
  { rewrite Htoc. by eexists (Some a), _, soup. }
  pose proof (update_first_spec bs4.is_body
                (bs4.decompose_all simple_scraper.sel_chrome) soup) as Hupd.
  unfold bs4.body in *.
  destruct (head (List.filter bs4.is_body (bs4.descendants soup))) as [b|] eqn:Hb.
  - rewrite Htoc.
    destruct Hupd as (soup' & -> & _ & Hbody'); [done|by intros []|].
    eexists _, _, soup'. split; [done|]. split; [done|]. split; [done|].
    split; [done|].
    assert (bs4.is_body b = true) as Hisb.
    { apply head_Some_elem_of, list_elem_of_In, List.filter_In in Hb. tauto. }
    split; [destruct b; [done|]; by apply bool_decide_eq_true in Hisb|].
    split; [by destruct b|].
    split; [apply Hclean, decompose_all_clean|].
    apply decompose_all_id.
  - by exists None, [], soup.
Qed.

Lemma process_content_root_witness :
  exists (toc : list toc_entry) (soup' : bs4.node),
    simple_scraper._process_content bs4.text sample.older_layout
    = (Ok (simple_scraper.py_str bs4.text (Some sample.older_body), toc), soup')
    /\ bs4.body soup' = Some sample.older_body.
Proof.
  destruct (process_content_root bs4.text sample.older_layout)
    as (root & toc & soup' & Hrun & _ & Hcase).
  assert (bs4.select_one simple_scraper.sel_main_content sample.older_layout = None)
    as Hmain by reflexivity.
  assert (bs4.select_one simple_scraper.sel_aueditable sample.older_layout = None)
    as Haued by reflexivity.
  assert (bs4.body sample.older_layout = Some sample.older_body) as Hbody by reflexivity.
  rewrite Hmain, Haued, Hbody in Hcase.
  destruct Hcase as (Hroot & Hb & _ & _ & _ & Hsame).
  rewrite Hsame in Hroot by reflexivity. subst root.
  exists toc, soup'. by rewrite Hrun, Hb.
Defined.

(** * Further properties *)

(** ** Entry ids *)

Lemma split_char_nonempty (c : ascii) (s : string) : url_parts.split_char c s <> [].
Proof.
  induction s as [|a s IH]; simpl; [done|].
  case_decide; [done|]. by destruct (url_parts.split_char c s).
Qed.

Lemma last_part_cons (p : string) (parts : list string) :
  parts <> [] -> url_parts.last_part (p :: parts) = url_parts.last_part parts.
Proof. by destruct parts. Qed.

Lemma split_char_whole (c : ascii) (s : string) :
  url_parts.occurs c s = false -> url_parts.split_char c s = [s].
Proof.
  induction s as [|a s IH]; [done|]. cbn [url_parts.occurs url_parts.split_char].
  intros [Ha Hs]%orb_false_elim. apply bool_decide_eq_false in Ha.
  rewrite decide_False by done. by rewrite (IH Hs).
Qed.

Lemma split_char_two (c : ascii) (s : string) :
  url_parts.occurs c s = true -> (1 < length (url_parts.split_char c s))%nat.
Proof.
  induction s as [|a s IH]; [done|]. cbn [url_parts.occurs url_parts.split_char].
  pose proof (split_char_nonempty c s) as Hne.
  destruct (decide (a = c)) as [->|Ha].
  - intros _. destruct (url_parts.split_char c s); [done|simpl; lia].
  - rewrite bool_decide_false by done. intros Hs. specialize (IH Hs).
    destruct (url_parts.split_char c s); simpl in *; lia.
Qed.

Lemma last_split_step (c a : ascii) (s : string) :
  a = c \/ url_parts.occurs c s = true ->
  url_parts.last_part (url_parts.split_char c (String a s))
  = url_parts.last_part (url_parts.split_char c s).
Proof.
  intros Hor. cbn [url_parts.split_char].
  pose proof (split_char_nonempty c s) as Hne.
  destruct (decide (a = c)) as [->|Ha]; [by rewrite last_part_cons|].
  destruct Hor as [?|Hs]; [done|]. apply split_char_two in Hs.
  destruct (url_parts.split_char c s) as [|p [|q ps]]; simpl in Hs; [lia..|].
  reflexivity.
Qed.

Lemma occurs_app (c : ascii) (s t : string) :
  url_parts.occurs c (s +:+ t) = url_parts.occurs c s || url_parts.occurs c t.
Proof.
  induction s as [|a s IH]; [done|].
  change (String a s +:+ t) with (String a (s +:+ t)).
  cbn [url_parts.occurs]. by rewrite IH, orb_assoc.
Qed.

(** what stands before a separator does not matter to the last part *)
Lemma last_split_after (c : ascii) (p t : string) :
  url_parts.last_part (url_parts.split_char c (p +:+ String c t))
  = url_parts.last_part (url_parts.split_char c t).
Proof.
  induction p as [|a p IH].
  - by apply last_split_step; left.
  - change (String a p +:+ String c t) with (String a (p +:+ String c t)).
    rewrite last_split_step, IH; [done|]. right.
    rewrite occurs_app. cbn [url_parts.occurs]. rewrite bool_decide_true by done.
    by rewrite orb_true_r.
Qed.

Lemma last_split_clean (c : ascii) (s : string) :
  url_parts.occurs c (url_parts.last_part (url_parts.split_char c s)) = false.
Proof.
  induction s as [|a s IH]; [done|].
  destruct (decide (a = c)) as [->|Ha].
  { rewrite last_split_step; [done|by left]. }
  destruct (url_parts.occurs c s) eqn:Hs.
  { rewrite last_split_step; [done|by right]. }
  assert (url_parts.occurs c (String a s) = false) as Has.
  { cbn [url_parts.occurs]. by rewrite bool_decide_false, Hs. }
  by rewrite split_char_whole.
Qed.

Lemma rstrip_char_snoc (c : ascii) (s : string) :
  url_parts.rstrip_char c (s +:+ String c EmptyString) = url_parts.rstrip_char c s.
Proof.
  induction s as [|a s IH].
  - change (EmptyString +:+ String c EmptyString) with (String c EmptyString).
    cbn [url_parts.rstrip_char]. by rewrite decide_True.
  - change (String a s +:+ String c EmptyString) with (String a (s +:+ String c EmptyString)).
    cbn [url_parts.rstrip_char]. by rewrite IH.
Qed.

Lemma rstrip_char_clean (c : ascii) (s : string) :
  url_parts.occurs c s = false -> url_parts.rstrip_char c s = s.
Proof.
  induction s as [|a s IH]; [done|]. cbn [url_parts.occurs url_parts.rstrip_char].
  intros [Ha Hs]%orb_false_elim. apply bool_decide_eq_false in Ha.
  rewrite (IH Hs). destruct s; [by rewrite decide_False|done].
Qed.

Lemma rstrip_char_keeps (c : ascii) (p s : string) :
  s <> EmptyString -> url_parts.occurs c s = false ->
  url_parts.rstrip_char c (p +:+ s) = p +:+ s.
Proof.
  intros Hne Hs. induction p as [|a p IH]; [by apply rstrip_char_clean|].
  change (String a p +:+ s) with (String a (p +:+ s)).
  cbn [url_parts.rstrip_char]. rewrite IH.
  destruct (p +:+ s) eqn:Hps; [|done]. by destruct p, s.
Qed.

Lemma entry_id_of_slash (url : string) :
  url_parts.entry_id_of (url +:+ "/") = url_parts.entry_id_of url.
Proof. unfold url_parts.entry_id_of. by rewrite rstrip_char_snoc. Qed.

Lemma entry_id_of_segment (base id : string) :
  id <> EmptyString -> url_parts.occurs "/" id = false ->
  url_parts.entry_id_of (base +:+ String "/" id) = id.
Proof.
  intros Hne Hid.
  assert ((base +:+ "/") +:+ id = base +:+ String "/" id) as Happ.
  { induction base as [|a b IH]; [reflexivity|].
    change (String a ((b +:+ "/") +:+ id) = String a (b +:+ String "/" id)).
    by f_equal. }
  unfold url_parts.entry_id_of. rewrite <- Happ, rstrip_char_keeps by done.
  by rewrite Happ, last_split_after, split_char_whole.
Qed.

(** X1: the entry id never contains a slash, and a trailing slash on
    the url does not change it. *)
Theorem entry_id_slash_free (url : string) :
  url_parts.occurs "/" (url_parts.entry_id_of url) = false
  /\ url_parts.entry_id_of (url +:+ "/") = url_parts.entry_id_of url.
Proof.
  split; [apply last_split_clean|apply entry_id_of_slash].
Qed.

(** X2: for a url that ends in [/id] or [/id/], where [id] is not empty
    and has no slash, the entry id is [id]. *)
Theorem entry_id_last_segment (base id : string) :
  id <> EmptyString -> url_parts.occurs "/" id = false ->
  url_parts.entry_id_of (base +:+ String "/" id) = id
  /\ url_parts.entry_id_of ((base +:+ String "/" id) +:+ "/") = id.
Proof.
  intros Hne Hid. rewrite entry_id_of_slash. by split; apply entry_id_of_segment.
Qed.

Lemma entry_id_last_segment_witness :
  url_parts.entry_id_of "https://plato.stanford.edu/entries/kant" = "kant"
  /\ url_parts.entry_id_of "https://plato.stanford.edu/entries/kant/" = "kant".
Proof.
  apply (entry_id_last_segment "https://plato.stanford.edu/entries" "kant").
  - discriminate.
  - reflexivity.
Defined.

Lemma entry_id_empty (c : ascii) (s : string) :
  url_parts.last_part (url_parts.split_char c (url_parts.rstrip_char c s)) = EmptyString ->
  url_parts.rstrip_char c s = EmptyString.
Proof.
  induction s as [|a s IH]; [done|]. cbn [url_parts.rstrip_char].
  destruct (url_parts.rstrip_char c s) as [|b t] eqn:Hr.
  - destruct (decide (a = c)) as [->|Ha]; [done|].
    cbn [url_parts.split_char]. rewrite decide_False by done. done.
  - intros Hlast. exfalso.
    destruct (decide (a = c)) as [->|Ha].
    { rewrite last_split_step in Hlast by (by left). by apply IH in Hlast. }
    destruct (url_parts.occurs c (String b t)) eqn:Hocc.
    { rewrite last_split_step in Hlast by (by right). by apply IH in Hlast. }
    rewrite split_char_whole in Hlast; [done|].
    cbn [url_parts.occurs] in *. by rewrite bool_decide_false.
Qed.

(** X3: every url that passes the prefix check of the routes and of
    [entry_exists] has a non-empty entry id. *)
Theorem entry_id_of_accepted_url (url : string) :
  pystr.startswith "https://plato.stanford.edu/entries/" url = true ->
  url_parts.entry_id_of url <> EmptyString.
Proof.
  intros [t ->]%startswith_prefix Hid. unfold url_parts.entry_id_of in Hid.
  apply entry_id_empty in Hid.
  change ("https://plato.stanford.edu/entries/" +:+ t)
    with (String "h" ("ttps://plato.stanford.edu/entries/" +:+ t)) in Hid.
  cbn [url_parts.rstrip_char] in Hid.
  destruct (url_parts.rstrip_char "/" ("ttps://plato.stanford.edu/entries/" +:+ t));
    [|done].
  by rewrite decide_False in Hid.
Qed.

Lemma entry_id_of_accepted_url_witness :
  url_parts.entry_id_of "https://plato.stanford.edu/entries/" <> EmptyString.
Proof.
  apply (entry_id_of_accepted_url "https://plato.stanford.edu/entries/").
  reflexivity.
Defined.

(** ** More on the embedding generator *)

(** X4: without a key for the provider, [generate_embedding] returns
    [None] and sends nothing. *)
Theorem generate_embedding_without_key (text : option string) (model : string)
    (max_retries : Z) (e : env) (w : state) :
  from_option pystr.truthy false (api_key e) = false ->
  embeddings.generate_embedding text model max_retries e w = (Ok None, w).
Proof.
  intros Hkey. unfold embeddings.generate_embedding.
  destruct text as [s|]; [|done].
  destruct (negb (pystr.truthy s) || negb (pystr.truthy (pystr.strip s))); [done|].
  unfold bind, ask. by rewrite Hkey.
Qed.

Lemma generate_embedding_without_key_witness :
  embeddings.generate_embedding (Some "Kant") embeddings.EMBEDDINGS_MODEL 3
    sample_more.no_key sample.empty_world = (Ok None, sample.empty_world).
Proof.
  apply (generate_embedding_without_key (Some "Kant") embeddings.EMBEDDINGS_MODEL 3
           sample_more.no_key sample.empty_world).
  reflexivity.
Defined.

Lemma take_length (n : nat) (s : string) : (String.length (pystr.take n s) <= n)%nat.
Proof.
  revert s. induction n as [|n IH]; intros [|c s]; simpl; try lia.
  specialize (IH s). lia.
Qed.

Lemma take_startswith (n : nat) (s : string) : pystr.startswith (pystr.take n s) s = true.
Proof.
  revert s. induction n as [|n IH]; intros [|c s]; simpl; try done.
  by rewrite decide_True.
Qed.

(** X5: whatever text is given, every request to the provider carries
    the same input, which is the first 20000 characters of the text at
    most, and the model asked for. *)
Theorem generate_embedding_truncates (text model : string) (max_retries : Z)
    (e : env) (w : state) :
  let input := pystr.take (Z.to_nat 20000) text in
  Z.of_nat (String.length input) <= 20000
  /\ pystr.startswith input text = true
  /\ exists r evs,
       embeddings.generate_embedding (Some text) model max_retries e w
       = (Ok r, State (trace w ++ evs) (tables w))
       /\ Forall (fun ev => ev = EmbeddingsCreate model input \/ exists s, ev = Sleep s) evs.
Proof.
  intros input.
  split; [pose proof (take_length (Z.to_nat 20000) text); subst input; lia|].
  split; [apply take_startswith|].
  unfold embeddings.generate_embedding.
  destruct (negb (pystr.truthy text) || negb (pystr.truthy (pystr.strip text)));
    [exists None, []; by rewrite state_eta|].
  unfold bind, ask.
  destruct (negb (from_option pystr.truthy false (api_key e)));
    [exists None, []; by rewrite state_eta|].
  destruct (attempt_loop_run (embeddings.range max_retries) max_retries model input e w)
    as (r & evs & Hrun & [sl la Hev _ _ Hla _ _]).
  exists r, evs. split; [done|]. subst evs. apply Forall_app. split.
  - clear. induction sl as [|a sl IH]; [done|].
    change (rounds model input (a :: sl))
      with (EmbeddingsCreate model input :: Sleep (2 ^ a) :: rounds model input sl).
    constructor; [by left|]. constructor; [right; by eexists|]. exact IH.
  - destruct Hla as [-> | ->]; [done|]. constructor; [by left|done].
Qed.

Lemma attempt_loop_success (attempts : list Z) (n : Z) (model text : string)
    (e : env) (w w' : state) (v : list float) :
  embeddings.attempt_loop attempts n model text e w = (Ok (Some v), w') ->
  exists slept a rest,
    attempts = slept ++ a :: rest
    /\ w' = State (trace w ++ rounds model text slept ++ [EmbeddingsCreate model text])
                  (tables w)
    /\ embeddings_create e (length (trace w ++ rounds model text slept)) model text = Ok v.
Proof.
  revert w. induction attempts as [|a rest IH]; intros w; [done|].
  simpl. unfold try_except, bind at 1. rewrite create_run.
  destruct (embeddings_create e (length (trace w)) model text) as [v'|x] eqn:Hc.
  - intros [= -> <-]. exists [], a, rest. split; [done|]. split; [done|].
    by rewrite app_nil_r.
  - case_bool_decide; [|done].
    unfold bind, embeddings.sleep, emit. simpl. intros Hrun.
    apply IH in Hrun as (sl & b & rest' & -> & -> & Hok). cbn [trace tables] in *.
    exists (a :: sl), b, rest'. split; [done|].
    rewrite rounds_cons. split.
    + f_equal. by rewrite <- !app_assoc.
    + rewrite <- Hok. f_equal.
      change (rounds model text (a :: sl))
        with ([EmbeddingsCreate model text; Sleep (2 ^ a)] ++ rounds model text sl).
      by rewrite <- !app_assoc.
Qed.

(** X6: when [generate_embedding] returns a vector, it is the answer
    of the provider to the last request sent; the [j] requests before
    it were each followed by a sleep of 1, 2, 4, ... seconds, and [j]
    is below [max_retries]. *)
Theorem generate_embedding_first_success (text : option string) (model : string)
    (max_retries : Z) (e : env) (w w' : state) (v : list float) :
  embeddings.generate_embedding text model max_retries e w = (Ok (Some v), w') ->
  exists (j : Z) (input : string),
    0 <= j < max_retries
    /\ trace w' = trace w ++ rounds model input (seqZ 0 j) ++ [EmbeddingsCreate model input]
    /\ tables w' = tables w
    /\ embeddings_create e (length (trace w) + 2 * Z.to_nat j) model input = Ok v.
Proof.
  unfold embeddings.generate_embedding. destruct text as [s|]; [|done].
  destruct (negb (pystr.truthy s) || negb (pystr.truthy (pystr.strip s))); [done|].
  unfold bind, ask.
  destruct (negb (from_option pystr.truthy false (api_key e))); [done|].
  intros (sl & a & rest & Hatt & -> & Hok)%attempt_loop_success.
  unfold embeddings.range in Hatt.
  assert (sl `prefix_of` seqZ 0 max_retries) as Hpre by (rewrite Hatt; by eexists).
  apply prefix_seqZ in Hpre.
  assert (Z.of_nat (length sl) < max_retries) as Hlt.
  { apply (f_equal length) in Hatt. rewrite length_seqZ, length_app in Hatt.
    simpl in Hatt. lia. }
  exists (Z.of_nat (length sl)), (pystr.take (Z.to_nat 20000) s).
  rewrite <- Hpre. split; [lia|]. split; [done|]. split; [done|].
  rewrite <- Hok. f_equal. rewrite length_app. f_equal.
  rewrite Nat2Z.id. clear. induction sl as [|b sl IH]; [done|].
  change (rounds model (pystr.take (Z.to_nat 20000) s) (b :: sl))
    with ([EmbeddingsCreate model (pystr.take (Z.to_nat 20000) s); Sleep (2 ^ b)]
            ++ rounds model (pystr.take (Z.to_nat 20000) s) sl).
  rewrite length_app, <- IH. simpl. lia.
Qed.

Lemma generate_embedding_first_success_witness :
  exists (j : Z) (input : string),
    0 <= j < 3
    /\ trace (embeddings.generate_embedding (Some "Kant") embeddings.EMBEDDINGS_MODEL 3
                sample.provider_up sample.empty_world).2
       = trace sample.empty_world
           ++ rounds embeddings.EMBEDDINGS_MODEL input (seqZ 0 j)
           ++ [EmbeddingsCreate embeddings.EMBEDDINGS_MODEL input]
    /\ tables (embeddings.generate_embedding (Some "Kant") embeddings.EMBEDDINGS_MODEL 3
                 sample.provider_up sample.empty_world).2
       = tables sample.empty_world
    /\ embeddings_create sample.provider_up
         (length (trace sample.empty_world) + 2 * Z.to_nat j)
         embeddings.EMBEDDINGS_MODEL input
       = Ok [Float 4607182418800017408; Float 0].
Proof.
  apply (generate_embedding_first_success (Some "Kant") embeddings.EMBEDDINGS_MODEL 3
           sample.provider_up sample.empty_world).
  reflexivity.
Defined.

(** ** More on the scraper *)

(** X7: [entry_exists] never raises and never touches the tables; it
    sends one HEAD request when the url has the prefix of the
    encyclopedia and none otherwise, and answers [True] exactly when
    that request came back with status 200 (any other status, and any
    exception of the request, gives [False]). *)
Theorem entry_exists_status (url : string) (e : env) (w : state) :
  let probe := pystr.startswith "https://plato.stanford.edu/entries/" url in
  simple_scraper.entry_exists url e w
  = (Ok (probe && match http_head e (length (trace w)) url with
                  | Ok status_code => bool_decide (status_code = 200)
                  | Raise _ => false
                  end),
     State (trace w ++ (if probe then [HttpHead url] else [])) (tables w)).
Proof.
  intros probe. unfold simple_scraper.entry_exists, try_except. fold probe.
  destruct probe; cbn [negb andb].
  - unfold bind at 1, simple_scraper.session_head, bind, clock, emit, ask, lift, ret.
    cbn [trace tables]. by destruct (http_head e (length (trace w)) url).
  - unfold ret. by rewrite state_eta.
Qed.

Lemma rev_app_rev_app (s t u : string) :
  String.rev_app (String.rev_app s t) u = String.rev_app t (s +:+ u).
Proof.
  revert t u. induction s as [|c s IH]; intros t u; [done|].
  cbn [String.rev_app]. by rewrite IH.
Qed.

Lemma rev_rev (s : string) : String.rev (String.rev s) = s.
Proof.
  unfold String.rev. rewrite rev_app_rev_app. cbn [String.rev_app].
  induction s as [|c s IH]; [done|].
  change (String c s +:+ EmptyString) with (String c (s +:+ EmptyString)). by rewrite IH.
Qed.

Lemma rev_app_append (s t : string) : String.rev_app s t = String.rev s +:+ t.
Proof.
  unfold String.rev. revert t. induction s as [|c s IH]; intros t; [done|].
  cbn [String.rev_app]. rewrite (IH (String c t)), (IH (String c EmptyString)).
  generalize (String.rev_app s EmptyString). intros x.
  induction x as [|a x IHx]; [done|].
  change (String a x +:+ String c t) with (String a (x +:+ String c t)).
  change ((String a x +:+ String c EmptyString) +:+ t)
    with (String a ((x +:+ String c EmptyString) +:+ t)).
  by rewrite IHx.
Qed.

Lemma rev_cons (c : ascii) (s : string) :
  String.rev (String c s) = String.rev s +:+ String c EmptyString.
Proof. unfold String.rev at 1. cbn [String.rev_app]. apply rev_app_append. Qed.

Lemma rev_snoc (c : ascii) (s : string) :
  String.rev (s +:+ String c EmptyString) = String c (String.rev s).
Proof.
  rewrite <- (rev_rev s) at 1. rewrite <- rev_cons. apply rev_rev.
Qed.

Lemma lstrip_snoc (c : ascii) (s : string) :
  pystr.lstrip (s +:+ String c EmptyString)
  = if pystr.all_space s
    then (if pystr.is_space c then EmptyString else String c EmptyString)
    else pystr.lstrip s +:+ String c EmptyString.
Proof.
  induction s as [|a s IH]; [done|].
  change (String a s +:+ String c EmptyString) with (String a (s +:+ String c EmptyString)).
  cbn [pystr.lstrip pystr.all_space]. destruct (pystr.is_space a); [done|reflexivity].
Qed.

(** [rstrip], from the front *)
Lemma rstrip_cons (c : ascii) (s : string) :
  pystr.rstrip (String c s)
  = match pystr.rstrip s with
    | EmptyString => if pystr.is_space c then EmptyString else String c EmptyString
    | t => String c t
    end.
Proof.
  unfold pystr.rstrip. rewrite rev_cons, lstrip_snoc, rev_all_space.
  destruct (pystr.all_space s) eqn:Hs.
  - assert (pystr.lstrip (String.rev s) = EmptyString) as ->.
    { apply lstrip_empty. by rewrite rev_all_space. }
    by destruct (pystr.is_space c).
  - rewrite rev_snoc.
    destruct (String.rev (pystr.lstrip (String.rev s))) eqn:Hr; [|done].
    apply (f_equal String.rev) in Hr. rewrite rev_rev in Hr.
    apply lstrip_empty in Hr. rewrite rev_all_space in Hr. congruence.
Qed.

Lemma rstrip_idemp (s : string) : pystr.rstrip (pystr.rstrip s) = pystr.rstrip s.
Proof.
  induction s as [|c s IH]; [done|]. rewrite rstrip_cons.
  destruct (pystr.rstrip s) as [|b t] eqn:Hr.
  - destruct (pystr.is_space c) eqn:Hc; [done|].
    rewrite rstrip_cons. change (pystr.rstrip EmptyString) with EmptyString.
    by rewrite Hc.
  - by rewrite rstrip_cons, IH.
Qed.

(** stripping leaves nothing to strip *)
Lemma strip_idemp (s : string) : pystr.strip (pystr.strip s) = pystr.strip s.
Proof.
  unfold pystr.strip.
  assert (pystr.lstrip s = EmptyString
          \/ exists c t, pystr.lstrip s = String c t /\ pystr.is_space c = false) as Hl.
  { induction s as [|a s IH]; [by left|]. cbn [pystr.lstrip].
    destruct (pystr.is_space a) eqn:Ha; [done|]. right. by exists a, s. }
  destruct Hl as [-> | (c & t & -> & Hc)]; [done|].
  rewrite rstrip_cons.
  assert (forall u, pystr.lstrip (String c u) = String c u) as Hkeep.
  { intros u. cbn [pystr.lstrip]. by rewrite Hc. }
  destruct (pystr.rstrip t) as [|b u] eqn:Hr.
  - rewrite Hc, Hkeep, rstrip_cons. change (pystr.rstrip EmptyString) with EmptyString.
    by rewrite Hc.
  - rewrite Hkeep, rstrip_cons.
    rewrite <- Hr, rstrip_idemp, Hr. done.
Qed.

(** X8: every author that is extracted is a non-empty string without
    white space at either end; a blank author element gives no author
    at all. *)
Theorem authors_trimmed (elem_text : string) :
  Forall (fun author => author <> EmptyString /\ pystr.strip author = author)
    (simple_scraper.authors_of_text elem_text)
  /\ (pystr.all_space elem_text = true -> simple_scraper.authors_of_text elem_text = []).
Proof.
  split.
  - unfold simple_scraper.authors_of_text. apply Forall_forall. intros a Ha.
    apply list_elem_of_fmap in Ha as (p & -> & Hp).
    apply list_elem_of_In, List.filter_In in Hp as [_ Hp].
    split; [by destruct (pystr.strip p)|apply strip_idemp].
  - intros Hblank. apply strip_blank in Hblank. unfold simple_scraper.authors_of_text.
    by destruct (pystr.strip elem_text).
Qed.

Lemma authors_trimmed_witness : simple_scraper.authors_of_text "   " = [].
Proof. apply (proj2 (authors_trimmed "   ")). reflexivity. Defined.

Lemma occurs_rev_app (c : ascii) (s t : string) :
  url_parts.occurs c (String.rev_app s t) = url_parts.occurs c s || url_parts.occurs c t.
Proof.
  revert t. induction s as [|a s IH]; intros t; [done|].
  cbn [String.rev_app url_parts.occurs]. rewrite IH. cbn [url_parts.occurs].
  destruct (bool_decide (a = c)), (url_parts.occurs c s); done.
Qed.

Lemma occurs_rev (c : ascii) (s : string) :
  url_parts.occurs c (String.rev s) = url_parts.occurs c s.
Proof. unfold String.rev. rewrite occurs_rev_app. cbn. by rewrite orb_false_r. Qed.

Lemma occurs_lstrip (c : ascii) (s : string) :
  url_parts.occurs c s = false -> url_parts.occurs c (pystr.lstrip s) = false.
Proof.
  induction s as [|a s IH]; [done|]. cbn [pystr.lstrip].
  destruct (pystr.is_space a); [|done].
  cbn [url_parts.occurs]. intros [_ ?]%orb_false_elim. by apply IH.
Qed.

Lemma occurs_strip (c : ascii) (s : string) :
  url_parts.occurs c s = false -> url_parts.occurs c (pystr.strip s) = false.
Proof.
  intros Hs. unfold pystr.strip, pystr.rstrip.
  rewrite occurs_rev. apply occurs_lstrip. rewrite occurs_rev. by apply occurs_lstrip.
Qed.

(** a character at which the separator always matches never ends up in
    a piece of the split *)
Lemma split_go_avoids (r : re.regex) (c : ascii) :
  (forall t, exists rest,
      re.match_at r (String c t) = Some rest
      /\ (String.length rest < String.length (String c t))%nat) ->
  forall (s : string) (skip : nat) (cur : string),
    url_parts.occurs c cur = false ->
    Forall (fun piece => url_parts.occurs c piece = false) (re.split_go r skip cur s).
Proof.
  intros Hsep. induction s as [|a s IH]; intros skip cur Hcur.
  - cbn [re.split_go]. constructor; [by rewrite occurs_rev|done].
  - cbn [re.split_go]. destruct skip as [|n]; [|by apply IH].
    assert (a <> c -> url_parts.occurs c (String a cur) = false) as Hacc.
    { intros Ha. cbn [url_parts.occurs]. by rewrite bool_decide_false, Hcur. }
    destruct (re.match_at r (String a s)) as [rest|] eqn:Hm.
    + case_decide as Hlen.
      * constructor; [by rewrite occurs_rev|by apply IH].
      * apply IH, Hacc. intros ->. destruct (Hsep s) as (rest' & Hm' & Hlt).
        rewrite Hm in Hm'. injection Hm' as <-. done.
    + apply IH, Hacc. intros ->. destruct (Hsep s) as (rest' & Hm' & _). congruence.
Qed.

Lemma star_some (k : re.cls) (s : string) :
  exists rest, re.star k Some s = Some rest /\ (String.length rest <= String.length s)%nat.
Proof.
  induction s as [|a s IH]; [by exists EmptyString|]. cbn [re.star].
  destruct (re.cls_ok k a).
  - destruct IH as (rest & -> & Hlen). exists rest. split; [done|]. simpl. lia.
  - by exists (String a s).
Qed.

(** X9: no author contains a comma or an ampersand. *)
Theorem authors_without_separators (elem_text : string) :
  Forall (fun author =>
            url_parts.occurs "," author = false /\ url_parts.occurs "&" author = false)
    (simple_scraper.authors_of_text elem_text).
Proof.
  assert (forall t, exists rest,
             re.match_at simple_scraper.re_author_sep (String "," t) = Some rest
             /\ (String.length rest < String.length (String "," t))%nat) as Hcomma.
  { intros t. destruct (star_some re.Space t) as (rest & Hstar & Hlen).
    exists rest. split; [|simpl; lia].
    unfold re.match_at, simple_scraper.re_author_sep.
    cbn [re.exec]. change (re.cls_ok (re.Chr ",") ",") with true. cbv iota.
    by rewrite Hstar. }
  assert (forall t, exists rest,
             re.match_at simple_scraper.re_author_sep (String "&" t) = Some rest
             /\ (String.length rest < String.length (String "&" t))%nat) as Hamp.
  { intros t. destruct (star_some re.Space t) as (rest & Hstar & Hlen).
    exists rest. split; [|simpl; lia].
    unfold re.match_at, simple_scraper.re_author_sep, re.plus.
    cbn [re.exec re.star re.lit].
    change (re.cls_ok (re.Chr ",") "&") with false.
    change (re.cls_ok re.Space "&") with false.
    change (re.cls_ok (re.Chr "&") "&") with true. cbv iota.
    by rewrite Hstar. }
  unfold simple_scraper.authors_of_text, re.split.
  set (rest := re.sub_anchored _ _).
  pose proof (split_go_avoids _ _ Hcomma rest O EmptyString eq_refl) as H1.
  pose proof (split_go_avoids _ _ Hamp rest O EmptyString eq_refl) as H2.
  rewrite Forall_forall in H1, H2. apply Forall_forall. intros a Ha.
  apply list_elem_of_fmap in Ha as (p & -> & Hp).
  apply list_elem_of_In, List.filter_In in Hp as [Hp _]. apply list_elem_of_In in Hp.
  split; apply occurs_strip; auto.
Qed.

(** X10: [_extract_toc] never raises, and every entry it returns has a
    level from 1 to 5, an id that is not empty, and a text without
    white space at either end. *)
Theorem extract_toc_entries_well_formed (content_elem : option bs4.node) :
  exists toc,
    simple_scraper._extract_toc content_elem = Ok toc
    /\ Forall (fun t => 1 <= toc_level t <= 5
                        /\ bs4.attr_truthy (Some (toc_id t)) = true
                        /\ pystr.strip (toc_text t) = toc_text t) toc.
Proof.
  destruct content_elem as [el|]; [|by exists []].
  exists (toc_of el). split.
  { unfold simple_scraper._extract_toc, bs4.select. by rewrite toc_loop_spec. }
  unfold toc_of. apply Forall_forall. intros t Ht.
  apply list_elem_of_omap in Ht as (d & _ & Hd). unfold toc_entry_of in Hd.
  destruct (rank d) as [r|] eqn:Hr; [|done].
  destruct (bs4.get "id" d) as [i|]; [|done].
  destruct (bs4.attr_truthy (Some i)) eqn:Hi; [|done].
  injection Hd as <-. cbn [toc_level toc_id toc_text].
  split; [|split; [done|apply strip_idemp]].
  unfold rank in Hr. destruct (bs4.name d); [|done].
  repeat (case_decide; [injection Hr as <-; lia|]). done.
Qed.

(** ** More on saving and reading an entry *)

Lemma attach_embeddings_gate (self : supabase_client.SupabaseManager) (title : string)
    (markdown : option string) (metadata : row) (e : env) (w : state) :
  supabase_client.enable_embeddings self && supabase_client.opt_truthy markdown
    && pystr.truthy title = false ->
  supabase_client.attach_embeddings self title markdown metadata e w = (Ok metadata, w).
Proof. intros Hgate. unfold supabase_client.attach_embeddings. by rewrite Hgate. Qed.

(** every way a save can end *)
Lemma save_entry_full (self : supabase_client.SupabaseManager) (entry_id title url : string)
    (date_issued date_modified preamble content_hash html markdown : option string)
    (toc : option (list toc_entry)) (authors : option (list string))
    (e : env) (w : state) :
  let found := records_for entry_id (postgrest.rows_of "entry_metadata" (tables w)) in
  let hit (r : row) := postgrest.col_eq (VStr entry_id) (r !! "entry_id") in
  exists (ok : bool) (w' : state) (evs : list event) (metadata content : row),
    supabase_client.save_entry self entry_id title url date_issued date_modified
      preamble content_hash html markdown toc authors e w = (Ok ok, w')
    /\ trace w' = trace w ++ evs
    /\ (supabase_client.enable_embeddings self && supabase_client.opt_truthy markdown
          && pystr.truthy title = false -> List.filter is_create evs = [])
    /\ ((forall n q, db_fault e n q = None) -> ok = true)
    /\ (ok = false -> exists n q x, db_fault e n q = Some x)
    /\ metadata !! "entry_id" = Some (VStr entry_id)
    /\ metadata !! "title" = Some (VStr title)
    /\ content !! "entry_id" = Some (VStr entry_id)
    /\ content !! "markdown" = Some (of_opt markdown)
    /\ (ok = true ->
        match found with
        | [] =>
            postgrest.rows_of "entry_metadata" (tables w')
            = postgrest.rows_of "entry_metadata" (tables w) ++ [metadata]
            /\ postgrest.rows_of "entry_content" (tables w')
               = postgrest.rows_of "entry_content" (tables w) ++ [content]
        | _ :: _ =>
            postgrest.rows_of "entry_metadata" (tables w')
            = (fun r : row => if hit r then metadata ∪ r else r)
                <$> postgrest.rows_of "entry_metadata" (tables w)
            /\ postgrest.rows_of "entry_content" (tables w')
               = (fun r : row => if hit r then content ∪ r else r)
                   <$> postgrest.rows_of "entry_content" (tables w)
        end).
Proof.
  intros found hit. unfold supabase_client.save_entry, try_except. unfold bind at 1.
  rewrite execute_run.
  set (sel := SelectEq "entry_metadata" None "entry_id" (VStr entry_id)).
  destruct (db_fault e (length (trace w)) sel) as [x|] eqn:Hf0.
  { exists false, (State (trace w ++ [DbExecute sel]) (tables w)), [DbExecute sel],
      {[ "entry_id" := VStr entry_id; "title" := VStr title ]},
      {[ "entry_id" := VStr entry_id; "markdown" := of_opt markdown ]}.
    split; [done|]. split; [done|]. split; [done|].
    split; [intros Hno; by rewrite Hno in Hf0|].
    split; [intros _; by eexists _, _, _|].
    repeat (split; [done|]). done. }
  subst sel. rewrite select_eq_run. cbn [fst snd].
  fold (records_for entry_id (postgrest.rows_of "entry_metadata" (tables w))).
  fold found.
  set (sel := SelectEq "entry_metadata" None "entry_id" (VStr entry_id)).
  unfold bind at 1. rewrite datetime_now_run.
  unfold bind at 1.
  match goal with
  | |- context [supabase_client.attach_embeddings self title markdown ?m e ?w1] =>
      pose proof (attach_embeddings_gate self title markdown m e w1) as Hgate;
      destruct (attach_embeddings_run self title markdown m e w1)
        as (md & evs1 & Hatt & Hnodb & Hkeep); set (metadata := m) in *
  end.
  rewrite Hatt.
  assert (supabase_client.enable_embeddings self && supabase_client.opt_truthy markdown
            && pystr.truthy title = false -> evs1 = []) as Hquiet.
  { intros Hg. rewrite (Hgate Hg) in Hatt. injection Hatt as _ Htr.
    cbn [trace] in Htr. rewrite <- (app_nil_r (trace w ++ [DbExecute sel])) in Htr at 1.
    by apply app_inv_head in Htr. }
  clear Hgate Hatt.
  cbn [trace tables].
  unfold bind at 1. rewrite datetime_now_run.
  match goal with
  | |- context [UpdateEq "entry_content" ?c] => set (content := c)
  end.
  assert (md !! "entry_id" = Some (VStr entry_id)) as Hid by (by rewrite Hkeep).
  assert (md !! "title" = Some (VStr title)) as Htitle by (by rewrite Hkeep).
  assert (content !! "entry_id" = Some (VStr entry_id)) as Hcid by done.
  assert (content !! "markdown" = Some (of_opt markdown)) as Hcmd by done.
  set (w1 := State ((trace w ++ [DbExecute sel]) ++ evs1) (tables w)).
  assert (forall qs, trace w ++ ([DbExecute sel] ++ evs1) ++ qs = trace w1 ++ qs) as Htr.
  { intros qs. subst w1. cbn [trace]. by rewrite <- !app_assoc. }
  assert (forall qs, Forall (fun ev => is_create ev = false) qs ->
            supabase_client.enable_embeddings self && supabase_client.opt_truthy markdown
              && pystr.truthy title = false ->
            List.filter is_create (([DbExecute sel] ++ evs1) ++ qs) = []) as Hcr.
  { intros qs Hqs Hg. rewrite (Hquiet Hg). cbn [app List.filter is_create].
    induction Hqs as [|q qs' Hq _ IH]; [done|]. cbn [List.filter]. by rewrite Hq. }
  case_bool_decide as Hfound.
  - unfold bind at 1. rewrite execute_run.
    set (u1 := UpdateEq "entry_metadata" md "entry_id" (VStr entry_id)).
    set (u2 := UpdateEq "entry_content" content "entry_id" (VStr entry_id)).
    destruct (db_fault e (length (trace w1)) u1) as [x|] eqn:Hf1.
    { exists false, (State (trace w1 ++ [DbExecute u1]) (tables w1)),
        (([DbExecute sel] ++ evs1) ++ [DbExecute u1]), md, content.
      split; [done|]. split; [by rewrite Htr|].
      split; [apply Hcr; by repeat constructor|].
      split; [intros Hno; by rewrite Hno in Hf1|].
      split; [intros _; by eexists _, _, _|].
      repeat (split; [done|]). done. }
    subst u1. cbn [postgrest.run fst snd]. unfold bind at 1. rewrite execute_run.
    cbn [trace tables]. change (tables w1) with (tables w).
    set (u1 := UpdateEq "entry_metadata" md "entry_id" (VStr entry_id)).
    set (db1 := <["entry_metadata" := _]> (tables w)).
    destruct (db_fault e (length (trace w1 ++ [DbExecute u1])) u2) as [x|] eqn:Hf2.
    { exists false, (State ((trace w1 ++ [DbExecute u1]) ++ [DbExecute u2]) db1),
        (([DbExecute sel] ++ evs1) ++ [DbExecute u1; DbExecute u2]), md, content.
      split; [done|]. split; [by rewrite Htr, <- app_assoc|].
      split; [apply Hcr; by repeat constructor|].
      split; [intros Hno; by rewrite Hno in Hf2|].
      split; [intros _; by eexists _, _, _|].
      repeat (split; [done|]). done. }
    subst u2. cbn [postgrest.run fst snd].
    set (u2 := UpdateEq "entry_content" content "entry_id" (VStr entry_id)).
    eexists true, _, (([DbExecute sel] ++ evs1) ++ [DbExecute u1; DbExecute u2]), md, content.
    split; [reflexivity|]. cbn [trace tables].
    split; [by rewrite Htr, <- app_assoc|].
    split; [apply Hcr; by repeat constructor|].
    split; [done|]. split; [done|]. repeat (split; [done|]). intros _.
    destruct found; [simpl in Hfound; lia|].
    rewrite rows_of_insert_ne by done. rewrite rows_of_insert.
    subst db1. rewrite rows_of_insert, rows_of_insert_ne by done. done.
  - assert (found = []) as Hnone by (destruct found; [done|simpl in Hfound; lia]).
    unfold bind at 1. rewrite execute_run.
    set (i1 := Insert "entry_metadata" md).
    set (i2 := Insert "entry_content" content).
    destruct (db_fault e (length (trace w1)) i1) as [x|] eqn:Hf1.
    { exists false, (State (trace w1 ++ [DbExecute i1]) (tables w1)),
        (([DbExecute sel] ++ evs1) ++ [DbExecute i1]), md, content.
      split; [done|]. split; [by rewrite Htr|].
      split; [apply Hcr; by repeat constructor|].
      split; [intros Hno; by rewrite Hno in Hf1|].
      split; [intros _; by eexists _, _, _|].
      repeat (split; [done|]). done. }
    subst i1. cbn [postgrest.run fst snd]. unfold bind at 1. rewrite execute_run.
    cbn [trace tables]. change (tables w1) with (tables w).
    set (i1 := Insert "entry_metadata" md).
    set (db1 := <["entry_metadata" := _]> (tables w)).
    destruct (db_fault e (length (trace w1 ++ [DbExecute i1])) i2) as [x|] eqn:Hf2.
    { exists false, (State ((trace w1 ++ [DbExecute i1]) ++ [DbExecute i2]) db1),
        (([DbExecute sel] ++ evs1) ++ [DbExecute i1; DbExecute i2]), md, content.
      split; [done|]. split; [by rewrite Htr, <- app_assoc|].
      split; [apply Hcr; by repeat constructor|].
      split; [intros Hno; by rewrite Hno in Hf2|].
      split; [intros _; by eexists _, _, _|].
      repeat (split; [done|]). done. }
    subst i2. cbn [postgrest.run fst snd].
    set (i2 := Insert "entry_content" content).
    eexists true, _, (([DbExecute sel] ++ evs1) ++ [DbExecute i1; DbExecute i2]), md, content.
    split; [reflexivity|]. cbn [trace tables].
    split; [by rewrite Htr, <- app_assoc|].
    split; [apply Hcr; by repeat constructor|].
    split; [done|]. split; [done|]. repeat (split; [done|]). intros _.
    rewrite Hnone.
    rewrite rows_of_insert_ne by done. rewrite rows_of_insert.
    subst db1. rewrite rows_of_insert, rows_of_insert_ne by done. done.
Qed.

(** X11: [save_entry] never raises.  It returns [True] whenever the
    datastore answers its requests, whatever the embeddings provider
    does, and it returns [False] only when a request to the datastore
    failed. *)
Theorem save_entry_outcome (self : supabase_client.SupabaseManager)
    (entry_id title url : string)
    (date_issued date_modified preamble content_hash html markdown : option string)
    (toc : option (list toc_entry)) (authors : option (list string))
    (e : env) (w : state) :
  exists (ok : bool) (w' : state),
    supabase_client.save_entry self entry_id title url date_issued date_modified
      preamble content_hash html markdown toc authors e w = (Ok ok, w')
    /\ ((forall n q, db_fault e n q = None) -> ok = true)
    /\ (ok = false -> exists n q x, db_fault e n q = Some x).
Proof.
  destruct (save_entry_full self entry_id title url date_issued date_modified
              preamble content_hash html markdown toc authors e w)
    as (ok & w' & evs & md & c & Hrun & _ & _ & Hgood & Hbad & _).
  by exists ok, w'.
Qed.

Lemma save_entry_outcome_witness :
  (supabase_client.save_entry sample.manager "kant" "Kant"
     "https://plato.stanford.edu/entries/kant" None None None None None
     (Some "Kant was born in 1724.") None None sample.provider_down sample.empty_world).1
  = Ok true.
Proof.
  destruct (save_entry_outcome sample.manager "kant" "Kant"
              "https://plato.stanford.edu/entries/kant" None None None None None
              (Some "Kant was born in 1724.") None None
              sample.provider_down sample.empty_world)
    as (ok & w' & Hrun & Hgood & _).
  rewrite Hrun. cbn [fst]. f_equal. apply Hgood. intros n q. reflexivity.
Defined.

(** X12: when embeddings are disabled, or the markdown or the title is
    missing or empty, [save_entry] sends nothing to the embeddings
    provider. *)
Theorem save_entry_embeddings_gate (self : supabase_client.SupabaseManager)
    (entry_id title url : string)
    (date_issued date_modified preamble content_hash html markdown : option string)
    (toc : option (list toc_entry)) (authors : option (list string))
    (e : env) (w : state) :
  supabase_client.enable_embeddings self && supabase_client.opt_truthy markdown
    && pystr.truthy title = false ->
  exists (ok : bool) (w' : state) (evs : list event),
    supabase_client.save_entry self entry_id title url date_issued date_modified
      preamble content_hash html markdown toc authors e w = (Ok ok, w')
    /\ trace w' = trace w ++ evs
    /\ List.filter is_create evs = [].
Proof.
  intros Hgate.
  destruct (save_entry_full self entry_id title url date_issued date_modified
              preamble content_hash html markdown toc authors e w)
    as (ok & w' & evs & md & c & Hrun & Htr & Hquiet & _).
  exists ok, w', evs. auto.
Qed.

Lemma save_entry_embeddings_gate_witness :
  exists (ok : bool) (w' : state) (evs : list event),
    supabase_client.save_entry sample_more.manager_off "kant" "Kant"
      "https://plato.stanford.edu/entries/kant" None None None None None
      (Some "Kant was born in 1724.") None None sample.provider_up sample.empty_world
    = (Ok ok, w')
    /\ trace w' = trace sample.empty_world ++ evs
    /\ List.filter is_create evs = [].
Proof.
  apply (save_entry_embeddings_gate sample_more.manager_off "kant" "Kant"
           "https://plato.stanford.edu/entries/kant" None None None None None
           (Some "Kant was born in 1724.") None None
           sample.provider_up sample.empty_world).
  reflexivity.
Defined.

Lemma get_entry_run (entry_id : string) (e : env) (w : state) :
  let q1 := SelectEq "entry_metadata" None "entry_id" (VStr entry_id) in
  let q2 := SelectEq "entry_content" None "entry_id" (VStr entry_id) in
  supabase_reads.get_entry entry_id e w
  = match db_fault e (length (trace w)) q1 with
    | Some _ => (Ok None, State (trace w ++ [DbExecute q1]) (tables w))
    | None =>
        match db_fault e (length (trace w ++ [DbExecute q1])) q2 with
        | Some _ => (Ok None, State ((trace w ++ [DbExecute q1]) ++ [DbExecute q2]) (tables w))
        | None =>
            (Ok match records_for entry_id (postgrest.rows_of "entry_metadata" (tables w)),
                      records_for entry_id (postgrest.rows_of "entry_content" (tables w)) with
                | m :: _, c :: _ => Some (supabase_reads.Entry (delete "content" m) c)
                | _, _ => None
                end,
             State ((trace w ++ [DbExecute q1]) ++ [DbExecute q2]) (tables w))
        end
    end.
Proof.
  intros q1 q2. unfold supabase_reads.get_entry, try_except. unfold bind at 1.
  rewrite execute_run. fold q1.
  destruct (db_fault e (length (trace w)) q1); [done|].
  subst q1. rewrite select_eq_run. cbn [fst snd].
  unfold bind at 1. rewrite execute_run. cbn [trace tables]. fold q2.
  destruct (db_fault e _ q2); [done|].
  subst q2. rewrite select_eq_run. cbn [fst snd].
  fold (records_for entry_id (postgrest.rows_of "entry_metadata" (tables w))).
  fold (records_for entry_id (postgrest.rows_of "entry_content" (tables w))).
  destruct (records_for entry_id (postgrest.rows_of "entry_metadata" (tables w)));
    [done|].
  by destruct (records_for entry_id (postgrest.rows_of "entry_content" (tables w))).
Qed.

(** the records of an entry after it was saved into a store that had
    none of its id *)
Lemma saved_records (self : supabase_client.SupabaseManager)
    (entry_id title url : string)
    (date_issued date_modified preamble content_hash html markdown : option string)
    (toc : option (list toc_entry)) (authors : option (list string))
    (e : env) (w w1 : state) :
  records_for entry_id (postgrest.rows_of "entry_metadata" (tables w)) = [] ->
  records_for entry_id (postgrest.rows_of "entry_content" (tables w)) = [] ->
  supabase_client.save_entry self entry_id title url date_issued date_modified
    preamble content_hash html markdown toc authors e w = (Ok true, w1) ->
  exists md c : row,
    records_for entry_id (postgrest.rows_of "entry_metadata" (tables w1)) = [md]
    /\ records_for entry_id (postgrest.rows_of "entry_content" (tables w1)) = [c]
    /\ md !! "title" = Some (VStr title)
    /\ md !! "entry_id" = Some (VStr entry_id)
    /\ c !! "entry_id" = Some (VStr entry_id)
    /\ c !! "markdown" = Some (of_opt markdown).
Proof.
  intros Hm Hc Hsave.
  destruct (save_entry_full self entry_id title url date_issued date_modified
              preamble content_hash html markdown toc authors e w)
    as (ok & w' & evs & md & c & Hrun & _ & _ & _ & _ & Hid & Htitle & Hcid & Hmd & Hrows).
  rewrite Hsave in Hrun. injection Hrun as <- <-.
  specialize (Hrows eq_refl). rewrite Hm in Hrows. destruct Hrows as [Hrm Hrc].
  assert (forall r : row, r !! "entry_id" = Some (VStr entry_id) ->
            records_for entry_id [r] = [r]) as Hone.
  { intros r Hr. unfold records_for. cbn [List.filter]. rewrite Hr.
    unfold postgrest.col_eq. by rewrite bool_decide_true. }
  exists md, c. rewrite Hrm, Hrc, !records_for_app, Hm, Hc. cbn [app].
  by rewrite (Hone md Hid), (Hone c Hcid).
Qed.

(** X13: an entry saved into a store that has no record of its id can
    be read back: when the save returned [True] and the two reads are
    answered, [get_entry] returns the entry with the title and the
    markdown that were saved. *)
Theorem save_then_get_entry (self : supabase_client.SupabaseManager)
    (entry_id title url : string)
    (date_issued date_modified preamble content_hash html markdown : option string)
    (toc : option (list toc_entry)) (authors : option (list string))
    (e : env) (w w1 : state) :
  records_for entry_id (postgrest.rows_of "entry_metadata" (tables w)) = [] ->
  records_for entry_id (postgrest.rows_of "entry_content" (tables w)) = [] ->
  supabase_client.save_entry self entry_id title url date_issued date_modified
    preamble content_hash html markdown toc authors e w = (Ok true, w1) ->
  (forall n q, (length (trace w1) <= n)%nat -> db_fault e n q = None) ->
  exists columns content,
    (supabase_reads.get_entry entry_id e w1).1
    = Ok (Some (supabase_reads.Entry columns content))
    /\ columns !! "title" = Some (VStr title)
    /\ columns !! "entry_id" = Some (VStr entry_id)
    /\ content !! "markdown" = Some (of_opt markdown).
Proof.
  intros Hm Hc Hsave Hreads.
  destruct (saved_records self entry_id title url date_issued date_modified
              preamble content_hash html markdown toc authors e w w1 Hm Hc Hsave)
    as (md & c & Hrm & Hrc & Htitle & Hid & Hcid & Hmd).
  rewrite get_entry_run. cbv zeta.
  rewrite !Hreads by (rewrite ?length_app; lia). cbn [fst].
  rewrite Hrm, Hrc.
  exists (delete "content" md), c. split; [done|].
  by rewrite !lookup_delete_ne.
Qed.

Lemma save_then_get_entry_witness :
  exists columns content,
    (supabase_reads.get_entry "kant" sample.provider_down sample.saved_once).1
    = Ok (Some (supabase_reads.Entry columns content))
    /\ columns !! "title" = Some (VStr "Kant")
    /\ columns !! "entry_id" = Some (VStr "kant")
    /\ content !! "markdown" = Some (of_opt (Some "Kant was born in 1724.")).
Proof.
  apply (save_then_get_entry sample.manager "kant" "Kant"
           "https://plato.stanford.edu/entries/kant" None None None None None
           (Some "Kant was born in 1724.") None None
           sample.provider_down sample.empty_world sample.saved_once).
  - reflexivity.
  - reflexivity.
  - vm_compute. reflexivity.
  - intros n q _. reflexivity.
Defined.

(** X14: when a metadata record exists but no content record does, a
    successful [save_entry] updates the metadata and leaves the content
    record missing, so [get_entry] still returns [None]. *)
Theorem save_entry_keeps_content_missing (self : supabase_client.SupabaseManager)
    (entry_id title url : string)
    (date_issued date_modified preamble content_hash html markdown : option string)
    (toc : option (list toc_entry)) (authors : option (list string))
    (e : env) (w w1 : state) :
  records_for entry_id (postgrest.rows_of "entry_metadata" (tables w)) <> [] ->
  records_for entry_id (postgrest.rows_of "entry_content" (tables w)) = [] ->
  supabase_client.save_entry self entry_id title url date_issued date_modified
    preamble content_hash html markdown toc authors e w = (Ok true, w1) ->
  records_for entry_id (postgrest.rows_of "entry_content" (tables w1)) = []
  /\ (supabase_reads.get_entry entry_id e w1).1 = Ok None.
Proof.
  intros Hm Hc Hsave.
  destruct (save_entry_full self entry_id title url date_issued date_modified
              preamble content_hash html markdown toc authors e w)
    as (ok & w' & evs & md & c & Hrun & _ & _ & _ & _ & Hid & Htitle & Hcid & Hmd & Hrows).
  rewrite Hsave in Hrun. injection Hrun as <- <-.
  specialize (Hrows eq_refl).
  destruct (records_for entry_id (postgrest.rows_of "entry_metadata" (tables w)));
    [done|].
  destruct Hrows as [_ Hrc].
  assert (records_for entry_id (postgrest.rows_of "entry_content" (tables w1)) = [])
    as Hnone.
  { rewrite Hrc, (records_for_update entry_id entry_id c _ Hcid), Hc. done. }
  split; [done|]. rewrite get_entry_run. cbv zeta. rewrite Hnone.
  by repeat case_match.
Qed.

Lemma save_entry_keeps_content_missing_witness :
  records_for "kant"
    (postgrest.rows_of "entry_content"
       (tables (supabase_client.save_entry sample.manager "kant" "Kant"
                  "https://plato.stanford.edu/entries/kant" None None None None None
                  (Some "Kant was born in 1724.") None None
                  sample.provider_down sample_more.half_entry).2)) = []
  /\ (supabase_reads.get_entry "kant" sample.provider_down
        (supabase_client.save_entry sample.manager "kant" "Kant"
           "https://plato.stanford.edu/entries/kant" None None None None None
           (Some "Kant was born in 1724.") None None
           sample.provider_down sample_more.half_entry).2).1 = Ok None.
Proof.
  apply (save_entry_keeps_content_missing sample.manager "kant" "Kant"
           "https://plato.stanford.edu/entries/kant" None None None None None
           (Some "Kant was born in 1724.") None None
           sample.provider_down sample_more.half_entry).
  - vm_compute. discriminate.
  - reflexivity.
  - vm_compute. reflexivity.
Defined.

(** ** Listing *)

Lemma list_entries_run (limit offset : Z) (e : env) (w : state) :
  let q := SelectRange "entry_metadata" None "last_scraped" offset (offset + limit - 1) in
  supabase_reads.list_entries limit offset e w
  = match db_fault e (length (trace w)) q with
    | Some _ => (Ok [], State (trace w ++ [DbExecute q]) (tables w))
    | None =>
        (Ok (take (Z.to_nat limit)
               (drop (Z.to_nat offset)
                  (postgrest.sort_desc "last_scraped"
                     (postgrest.rows_of "entry_metadata" (tables w))))),
         State (trace w ++ [DbExecute q]) (tables w))
    end.
Proof.
  intros q. unfold supabase_reads.list_entries, try_except. rewrite execute_run. fold q.
  destruct (db_fault e (length (trace w)) q); [done|].
  subst q. cbn [postgrest.run fst snd postgrest.project]. rewrite list_fmap_id.
  by replace (offset + limit - 1 - offset + 1) with limit by lia.
Qed.

(** X15: the pages of [list_entries] tile the list: with a datastore
    that answers and whose tables do not change in between, the page of
    [limit1] entries at [offset] has at most [limit1] entries, and
    followed by the page of [limit2] entries at [offset + limit1] it is
    the page of [limit1 + limit2] entries at [offset]. *)
Theorem list_entries_pages (limit1 limit2 offset : Z) (e : env) (w1 w2 w3 : state) :
  0 <= offset -> 0 <= limit1 -> 0 <= limit2 ->
  tables w2 = tables w1 -> tables w3 = tables w1 ->
  (forall n q, db_fault e n q = None) ->
  exists page1 page2,
    (supabase_reads.list_entries limit1 offset e w1).1 = Ok page1
    /\ (supabase_reads.list_entries limit2 (offset + limit1) e w2).1 = Ok page2
    /\ (supabase_reads.list_entries (limit1 + limit2) offset e w3).1 = Ok (page1 ++ page2)
    /\ Z.of_nat (length page1) <= limit1.
Proof.
  intros Ho H1 H2 Ht2 Ht3 Hno. rewrite !list_entries_run. cbv zeta.
  rewrite !Hno, Ht2, Ht3. cbn [fst].
  set (rows := postgrest.sort_desc "last_scraped" _).
  eexists _, _. split; [done|]. split; [done|]. split.
  - f_equal. rewrite !Z2Nat.inj_add by lia.
    by rewrite <- drop_drop, take_take_drop.
  - rewrite length_take. lia.
Qed.

Lemma list_entries_pages_witness :
  exists page1 page2,
    (supabase_reads.list_entries 2 1 sample.provider_down sample.library).1 = Ok page1
    /\ (supabase_reads.list_entries 2 (1 + 2) sample.provider_down sample.library).1
       = Ok page2
    /\ (supabase_reads.list_entries (2 + 2) 1 sample.provider_down sample.library).1
       = Ok (page1 ++ page2)
    /\ Z.of_nat (length page1) <= 2.
Proof.
  apply (list_entries_pages 2 2 1 sample.provider_down
           sample.library sample.library sample.library);
    try lia; reflexivity.
Defined.

(** ** More on text search *)

Lemma col_eq_true (v : value) (x : option value) :
  postgrest.col_eq v x = true -> x = Some v.
Proof. destruct v; simpl; try done; by intros ?%bool_decide_eq_true. Qed.

Lemma unique_filter (v : value) (rows : list row) :
  NoDup ((fun r : row => r !! "entry_id") <$> rows) ->
  (length (List.filter (fun r : row => postgrest.col_eq v (r !! "entry_id")) rows) <= 1)%nat.
Proof.
  induction rows as [|r rows IH]; [simpl; lia|].
  rewrite fmap_cons. intros [Hr Hnd]%NoDup_cons. specialize (IH Hnd).
  cbn [List.filter]. destruct (postgrest.col_eq v (r !! "entry_id")) eqn:Hv; [|done].
  apply col_eq_true in Hv.
  destruct (List.filter _ rows) as [|r' l] eqn:Hf; [simpl; lia|]. exfalso.
  assert (In r' (List.filter (fun r : row => postgrest.col_eq v (r !! "entry_id")) rows))
    as Hin by (rewrite Hf; by left).
  apply List.filter_In in Hin as [Hin Hv']. apply col_eq_true in Hv'.
  apply Hr. rewrite Hv, <- Hv'. apply list_elem_of_fmap. exists r'.
  split; [done|]. by apply list_elem_of_In.
Qed.

Lemma summary_entry_id (v : value) (r : row) :
  postgrest.col_eq v (r !! "entry_id") = true ->
  supabase_client.item (postgrest.project supabase_client.summary_columns r) "entry_id" = v.
Proof.
  intros Hv%col_eq_true. unfold supabase_client.item, supabase_client.summary_columns.
  cbn [postgrest.project fmap list_fmap].
  assert (forall x1 x2 x3 x4 x5 : value,
             (list_to_map [("entry_id", x1); ("title", x2); ("url", x3);
                           ("date_modified", x4); ("last_scraped", x5)]
              : row) !! "entry_id" = Some x1) as -> by done.
  by rewrite Hv.
Qed.

(** the loop over the new ids: every record it adds carries one of the
    ids asked for *)
Lemma fetch_additional_run (new_ids : list value) (acc : list row) (e : env) (w : state) :
  exists r w',
    supabase_client.fetch_additional new_ids acc e w = (r, w')
    /\ tables w' = tables w
    /\ forall rows, r = Ok rows ->
         exists extra,
           rows = acc ++ extra
           /\ Forall (fun row => supabase_client.item row "entry_id" ∈ new_ids) extra
           /\ (NoDup ((fun r : row => r !! "entry_id")
                        <$> postgrest.rows_of "entry_metadata" (tables w)) ->
               (length extra <= length new_ids)%nat).
Proof.
  revert acc w. induction new_ids as [|v ids IH]; intros acc w.
  - exists (Ok acc), w. split; [done|]. split; [done|]. intros rows [= <-].
    exists []. rewrite app_nil_r. by split; [|split].
  - cbn [supabase_client.fetch_additional]. unfold bind at 1. rewrite execute_run.
    destruct (db_fault e _ _).
    { eexists _, _. split; [done|]. split; [done|]. by intros rows [=]. }
    cbn [postgrest.run fst snd].
    set (data := postgrest.project supabase_client.summary_columns <$> _).
    match goal with
    | |- context [supabase_client.fetch_additional ids (acc ++ data) e ?w1] =>
        destruct (IH (acc ++ data) w1) as (r & w' & -> & Ht & Hrows)
    end.
    cbn [tables] in *. exists r, w'. split; [done|]. split; [done|].
    intros rows Hr. destruct (Hrows rows Hr) as (extra & -> & Hin & Hlen).
    exists (data ++ extra). split; [by rewrite app_assoc|]. split.
    + apply Forall_app. split.
      * subst data. apply Forall_fmap, Forall_forall. intros r0 Hr0.
        apply list_elem_of_In, List.filter_In in Hr0 as [_ Hv].
        unfold compose. rewrite (summary_entry_id v r0 Hv). by left.
      * eapply Forall_impl; [exact Hin|]. intros row ?. by right.
    + intros Hnd. specialize (Hlen Hnd). rewrite length_app. subst data.
      rewrite length_fmap. pose proof (unique_filter v _ Hnd). simpl. lia.
Qed.

Lemma search_by_text_run (query : string) (limit : Z) (e : env) (w : state) :
  let pattern := "%" +:+ query +:+ "%" in
  let titles :=
    (postgrest.run e (length (trace w))
       (SelectIlike "entry_metadata" supabase_client.summary_columns "title" pattern limit)
       (tables w)).1 in
  exists results w',
    supabase_client.search_by_text query limit e w = (Ok results, w')
    /\ tables w' = tables w
    /\ (results = []
        \/ exists additional,
             results = titles ++ additional
             /\ Forall (fun r => supabase_client.item r "entry_id"
                                 ∉ ((fun t : row => supabase_client.item t "entry_id")
                                      <$> titles)) additional
             /\ (NoDup ((fun r : row => r !! "entry_id")
                          <$> postgrest.rows_of "entry_metadata" (tables w)) ->
                 Z.of_nat (length results) <= Z.max 0 limit)).
Proof.
  intros pattern titles. unfold supabase_client.search_by_text, try_except.
  unfold bind at 1. rewrite execute_run. fold pattern.
  destruct (db_fault e _ _).
  { eexists _, _. split; [done|]. split; [done|]. by left. }
  fold titles.
  assert (Z.of_nat (length titles) <= Z.max 0 limit) as Hlen.
  { subst titles. cbn [postgrest.run fst]. rewrite length_fmap, length_take. lia. }
  cbn [postgrest.run snd].
  case_bool_decide as Hfew.
  2:{ eexists _, _. split; [done|]. split; [done|]. right. exists [].
      rewrite app_nil_r. by split; [|split]. }
  unfold bind at 1. rewrite execute_run. cbn [trace tables].
  destruct (db_fault e _ _).
  { eexists _, _. split; [done|]. split; [done|]. by left. }
  cbn [postgrest.run fst snd].
  set (content_response := postgrest.project (Some ["entry_id"]) <$> _).
  set (existing := (fun r : row => supabase_client.item r "entry_id") <$> titles).
  set (new_ids := List.filter _ _).
  assert (Forall (fun i => i ∉ existing) new_ids) as Hnew.
  { apply Forall_forall. intros i Hi. subst new_ids.
    apply list_elem_of_In, List.filter_In in Hi as [_ Hi].
    apply negb_true_iff, bool_decide_eq_false in Hi. done. }
  assert (Z.of_nat (length new_ids) <= limit - Z.of_nat (length titles)) as Hnl.
  { subst new_ids.
    pose proof (List.filter_length_le
                  (fun i => negb (bool_decide (i ∈ existing)))
                  ((fun r : row => supabase_client.item r "entry_id") <$> content_response)).
    rewrite length_fmap in H. subst content_response.
    rewrite length_fmap, length_take in H. lia. }
  destruct new_ids as [|i ids] eqn:Hids.
  { eexists _, _. split; [done|]. split; [done|]. right. exists [].
    rewrite app_nil_r. by split; [|split]. }
  rewrite <- Hids in *. clear Hids.
  unfold bind at 1.
  match goal with
  | |- context [supabase_client.fetch_additional new_ids [] e ?w1] =>
      destruct (fetch_additional_run new_ids [] e w1) as (r & w' & -> & Ht & Hrows)
  end.
  cbn [tables] in *. destruct r as [rows|x].
  - destruct (Hrows rows eq_refl) as (extra & -> & Hin & Hbound).
    eexists _, _. split; [done|]. split; [done|]. right. exists extra.
    split; [done|]. split.
    + eapply Forall_impl; [exact Hin|]. intros row Hrow.
      rewrite Forall_forall in Hnew. by apply Hnew.
    + intros Hnd. specialize (Hbound Hnd). rewrite length_app. cbn [app]. lia.
  - eexists _, _. split; [done|]. split; [done|]. by left.
Qed.

(** X16: [search_by_text] never raises and writes nothing.  Its result
    is empty, or it is the title matches followed by entries found by
    their body, none of which repeats the id of a title match. *)
Theorem search_by_text_title_first (query : string) (limit : Z) (e : env) (w : state) :
  let titles :=
    (postgrest.run e (length (trace w))
       (SelectIlike "entry_metadata" supabase_client.summary_columns "title"
          ("%" +:+ query +:+ "%") limit)
       (tables w)).1 in
  exists results w',
    supabase_client.search_by_text query limit e w = (Ok results, w')
    /\ tables w' = tables w
    /\ (results = []
        \/ exists additional,
             results = titles ++ additional
             /\ Forall (fun r => supabase_client.item r "entry_id"
                                 ∉ ((fun t : row => supabase_client.item t "entry_id")
                                      <$> titles)) additional).
Proof.
  intros titles.
  destruct (search_by_text_run query limit e w) as (results & w' & Hrun & Ht & Hres).
  exists results, w'. split; [done|]. split; [done|].
  destruct Hres as [->|(additional & -> & Hnew & _)]; [by left|].
  right. by exists additional.
Qed.

(** X17: when no two metadata records share an entry id,
    [search_by_text] returns at most [limit] entries. *)
Theorem search_by_text_at_most_limit (query : string) (limit : Z) (e : env) (w : state) :
  0 <= limit ->
  NoDup ((fun r : row => r !! "entry_id")
           <$> postgrest.rows_of "entry_metadata" (tables w)) ->
  exists results w',
    supabase_client.search_by_text query limit e w = (Ok results, w')
    /\ Z.of_nat (length results) <= limit.
Proof.
  intros Hlimit Hnd.
  destruct (search_by_text_run query limit e w) as (results & w' & Hrun & Ht & Hres).
  exists results, w'. split; [done|].
  destruct Hres as [->|(additional & -> & _ & Hlen)]; [simpl; lia|].
  specialize (Hlen Hnd). lia.
Qed.

Lemma search_by_text_at_most_limit_witness :
  exists results w',
    supabase_client.search_by_text "kant" 4 sample.provider_down sample.library
    = (Ok results, w')
    /\ Z.of_nat (length results) <= 4.
Proof.
  apply (search_by_text_at_most_limit "kant" 4 sample.provider_down sample.library).
  - lia.
  - apply (bool_decide_unpack _). vm_compute. reflexivity.
Defined.

(** X18: when the title matches do not fill the limit and the request
    for the body matches fails, [search_by_text] returns the empty
    list: the title matches it had found are dropped. *)
Theorem search_by_text_body_failure (query : string) (limit : Z) (e : env) (w : state)
    (x : exn) :
  let pattern := "%" +:+ query +:+ "%" in
  let by_title :=
    SelectIlike "entry_metadata" supabase_client.summary_columns "title" pattern limit in
  let titles := (postgrest.run e (length (trace w)) by_title (tables w)).1 in
  let by_body :=
    SelectIlike "entry_content" (Some ["entry_id"]) "markdown" pattern
      (limit - Z.of_nat (length titles)) in
  db_fault e (length (trace w)) by_title = None ->
  Z.of_nat (length titles) < limit ->
  db_fault e (S (length (trace w))) by_body = Some x ->
  supabase_client.search_by_text query limit e w
  = (Ok [], State (trace w ++ [DbExecute by_title; DbExecute by_body]) (tables w)).
Proof.
  intros pattern by_title titles by_body H1 Hfew H2.
  unfold supabase_client.search_by_text, try_except.
  unfold bind at 1. rewrite execute_run. fold pattern by_title. rewrite H1.
  fold titles. rewrite bool_decide_true by done.
  unfold bind at 1. rewrite execute_run. cbn [trace tables postgrest.run snd].
  fold by_body. rewrite length_app. cbn [length]. rewrite Nat.add_1_r, H2.
  cbn [ret]. by rewrite <- app_assoc.
Qed.

Lemma search_by_text_body_failure_witness :
  exists w' : state,
    supabase_client.search_by_text "kant" 4 sample_more.second_request_fails
      sample.library = (Ok [], w')
    /\ tables w' = tables sample.library.
Proof.
  eexists. split.
  - apply (search_by_text_body_failure "kant" 4 sample_more.second_request_fails
             sample.library (Exception "ConnectError")).
    + reflexivity.
    + vm_compute. reflexivity.
    + reflexivity.
  - reflexivity.
Defined.

(** ** More on the regeneration of embeddings *)

Import store_facts.

Lemma same_but_embeddings_refl (db : gmap string (list row)) : same_but_embeddings db db.
Proof. intros t. apply Forall2_same_length_lookup_2; [done|]. by intros i r r' -> [= ->] k _ _. Qed.

Lemma same_but_embeddings_trans (db1 db2 db3 : gmap string (list row)) :
  same_but_embeddings db1 db2 -> same_but_embeddings db2 db3 -> same_but_embeddings db1 db3.
Proof.
  intros H12 H23 t. specialize (H12 t). specialize (H23 t).
  revert H23. generalize (postgrest.rows_of t db3).
  induction H12 as [|r1 r2 l1 l2 Hr Hl IH]; intros l3 H23; inversion H23; subst; constructor.
  - intros k Hk1 Hk2. rewrite <- (Hr k Hk1 Hk2). auto.
  - by apply IH.
Qed.

Lemma update_data_keys (m : gmap string (list float)) (k : string) :
  k <> "title_embedding" -> k <> "content_embedding" ->
  (supabase_client.add_embedding "content_embedding" m
     (supabase_client.add_embedding "title_embedding" m ∅) : row) !! k = None.
Proof.
  intros Hk1 Hk2. unfold supabase_client.add_embedding.
  destruct (m !! "content_embedding"), (m !! "title_embedding");
    by rewrite ?lookup_insert_ne, ?lookup_empty by done.
Qed.

Lemma update_embeddings_same (m : gmap string (list float)) (v : value) (e : env) (n : nat)
    (db : gmap string (list row)) :
  same_but_embeddings db
    (postgrest.run e n
       (UpdateEq "entry_metadata"
          (supabase_client.add_embedding "content_embedding" m
             (supabase_client.add_embedding "title_embedding" m ∅)) "entry_id" v) db).2.
Proof.
  intros t. cbn [postgrest.run snd].
  destruct (decide (t = "entry_metadata")) as [->|Ht].
  - rewrite rows_of_insert. apply Forall2_fmap_r, Forall_Forall2_diag, Forall_forall.
    intros r _. unfold compose. destruct (postgrest.col_eq v (r !! "entry_id")); [|by intros k _ _].
    intros k Hk1 Hk2. by rewrite lookup_union_r by (by apply update_data_keys).
  - rewrite rows_of_insert_ne by done.
    apply Forall_Forall2_diag, Forall_forall. by intros r _ k _ _.
Qed.

Lemma process_entry_full (entry : row) (s f : Z) (e : env) (w : state) :
  exists r w',
    supabase_client.process_entry entry s f e w = (r, w')
    /\ same_but_embeddings (tables w) (tables w')
    /\ forall x, r = Raise x -> exists n q, db_fault e n q = Some x.
Proof.
  unfold supabase_client.process_entry, bind at 1. rewrite execute_run.
  set (q := SelectEq "entry_content" (Some ["markdown"]) "entry_id"
              (supabase_client.item entry "entry_id")).
  pose proof (same_but_embeddings_refl (tables w)) as Hsame.
  destruct (db_fault e (length (trace w)) q) as [x|] eqn:Hq.
  { eexists _, _. split; [done|]. split; [done|]. intros y [= <-]. by eexists _, _. }
  destruct ((postgrest.run e (length (trace w)) q (tables w)).1) as [|first rest].
  { eexists _, _. split; [done|]. split; [done|]. by intros y [=]. }
  destruct (negb (value_truthy (supabase_client.item first "markdown"))).
  { eexists _, _. split; [done|]. split; [done|]. by intros y [=]. }
  unfold try_except, bind at 1.
  match goal with
  | |- context [embeddings.generate_article_embeddings ?t ?c e ?w1] =>
      destruct (generate_article_embeddings_run t c e w1)
        as (m & evs1 & -> & Hnodb & Hkeys)
  end.
  cbn [trace tables].
  case_bool_decide as Hm.
  { eexists _, _. split; [done|]. split; [done|]. by intros y [=]. }
  case_bool_decide as Hu; [by apply update_data_nonempty in Hu|].
  unfold bind. rewrite execute_run. cbn [trace tables].
  match goal with
  | |- context [db_fault e ?n ?u] => destruct (db_fault e n u) as [x|]
  end.
  { eexists _, _. split; [done|]. split; [done|]. by intros y [=]. }
  match goal with
  | |- context [(postgrest.run ?a ?b ?c ?d).1] =>
      pose proof (update_embeddings_same m (supabase_client.item entry "entry_id") a b d)
        as Hupd;
      destruct ((postgrest.run a b c d).1) as [|upd rest']
  end.
  - eexists _, _. split; [done|]. split; [done|]. by intros y [=].
  - eexists _, _. split; [done|]. split; [done|]. by intros y [=].
Qed.

Lemma generate_article_embeddings_without_key (title content : option string)
    (e : env) (w : state) :
  from_option pystr.truthy false (api_key e) = false ->
  embeddings.generate_article_embeddings title content e w = (Ok ∅, w).
Proof.
  intros Hkey.
  assert (forall text, embeddings.generate_embedding text embeddings.EMBEDDINGS_MODEL 3 e w
                       = (Ok None, w)) as Hnone.
  { intros text. unfold embeddings.generate_embedding.
    destruct text as [t|]; [|done].
    destruct (negb (pystr.truthy t) || negb (pystr.truthy (pystr.strip t))); [done|].
    unfold bind, ask. by rewrite Hkey. }
  unfold embeddings.generate_article_embeddings, bind. by rewrite !Hnone.
Qed.

Lemma process_entry_without_key (entry : row) (s f : Z) (e : env) (w : state) :
  from_option pystr.truthy false (api_key e) = false ->
  (forall n q, db_fault e n q = None) ->
  supabase_client.process_entry entry s f e w
  = (Ok (s, f + 1), State (trace w ++ [DbExecute (content_query entry)]) (tables w)).
Proof.
  intros Hkey Hdb.
  unfold supabase_client.process_entry, bind at 1. rewrite execute_run, Hdb.
  fold (content_query entry).
  destruct ((postgrest.run e (length (trace w)) (content_query entry) (tables w)).1)
    as [|first rest]; [done|].
  destruct (negb (value_truthy (supabase_client.item first "markdown"))); [done|].
  unfold try_except, bind at 1.
  by rewrite generate_article_embeddings_without_key.
Qed.

Lemma regenerate_loop_full (entries : list row) (s f t : Z) (e : env) (w : state) :
  exists r w',
    supabase_client.regenerate_loop entries s f t e w = (Ok r, w')
    /\ same_but_embeddings (tables w) (tables w')
    /\ forall s' f' x, r = supabase_client.Failed s' f' x ->
         exists n q, db_fault e n q = Some x.
Proof.
  revert s f w. induction entries as [|entry rest IH]; intros s f w.
  - eexists _, _. split; [done|]. split; [apply same_but_embeddings_refl|]. by intros ??? [=].
  - cbn [supabase_client.regenerate_loop]. unfold try_with.
    destruct (process_entry_full entry s f e w) as (r0 & w0 & -> & Hs0 & Hx).
    destruct r0 as [c|x].
    + destruct (IH c.1 c.2 w0) as (r & w' & -> & Hs & Hf).
      exists r, w'. split; [done|]. split; [|done].
      by eapply same_but_embeddings_trans.
    + eexists _, _. split; [done|]. split; [done|]. intros s' f' y [= _ _ <-]. by apply Hx.
Qed.

Lemma regenerate_loop_without_key (entries : list row) (s f t : Z) (e : env) (w : state) :
  from_option pystr.truthy false (api_key e) = false ->
  (forall n q, db_fault e n q = None) ->
  supabase_client.regenerate_loop entries s f t e w
  = (Ok (supabase_client.Processed s (f + Z.of_nat (length entries)) t),
     State (trace w ++ (DbExecute ∘ content_query <$> entries)) (tables w)).
Proof.
  intros Hkey Hdb. revert f w. induction entries as [|entry rest IH]; intros f w.
  - cbn. rewrite app_nil_r, Z.add_0_r. by destruct w.
  - cbn [supabase_client.regenerate_loop]. unfold try_with.
    rewrite process_entry_without_key by done. cbn [fst snd].
    rewrite IH. cbn [trace tables]. rewrite fmap_cons, <- app_assoc. cbn [app length].
    do 3 f_equal. lia.
Qed.

(** X19: [regenerate_embeddings] never raises.  Its summary carries
    the [error] key only when a request to the datastore failed, with
    the exception of that request. *)
Theorem regenerate_embeddings_never_raises (limit offset : Z) (e : env) (w : state) :
  exists (r : supabase_client.summary) (w' : state),
    supabase_client.regenerate_embeddings limit offset e w = (Ok r, w')
    /\ (forall s f x, r = supabase_client.Failed s f x ->
          exists n q, db_fault e n q = Some x)
    /\ ((forall n q, db_fault e n q = None) ->
          exists s f t, r = supabase_client.Processed s f t).
Proof.
  unfold supabase_client.regenerate_embeddings, try_with. rewrite execute_run.
  destruct (db_fault e (length (trace w)) _) as [x|] eqn:Hq.
  { eexists _, _. split; [done|]. split.
    - intros s f y [= _ _ <-]. by eexists _, _.
    - intros Hno. by rewrite Hno in Hq. }
  match goal with
  | |- context [supabase_client.regenerate_loop ?l ?s ?f ?t e ?w1] =>
      destruct (regenerate_loop_full l s f t e w1) as (r & w' & -> & _ & Hf)
  end.
  exists r, w'. split; [done|]. split; [done|].
  intros Hno. destruct r as [s f t|s f x]; [by eexists _, _, _|].
  destruct (Hf s f x eq_refl) as (n & q & Hx). by rewrite Hno in Hx.
Qed.

(** X20: [regenerate_embeddings] adds and removes no record and
    changes no column but [title_embedding] and [content_embedding]:
    every table has the same records in the same order, up to these two
    columns. *)
Theorem regenerate_embeddings_keeps_records (limit offset : Z) (e : env) (w : state) :
  same_but_embeddings (tables w)
    (tables (supabase_client.regenerate_embeddings limit offset e w).2).
Proof.
  unfold supabase_client.regenerate_embeddings, try_with. rewrite execute_run.
  destruct (db_fault e (length (trace w)) _) as [x|].
  { apply same_but_embeddings_refl. }
  match goal with
  | |- context [supabase_client.regenerate_loop ?l ?s ?f ?t e ?w1] =>
      destruct (regenerate_loop_full l s f t e w1) as (r & w' & -> & Hs & _)
  end.
  exact Hs.
Qed.

(** X21: without a key for the embeddings provider, and with a
    datastore that answers, every entry of the page is counted as a
    failure: the markdown of each is asked for, nothing is sent to the
    provider and nothing is written. *)
Theorem regenerate_embeddings_without_key (limit offset : Z) (e : env) (w : state) :
  from_option pystr.truthy false (api_key e) = false ->
  (forall n q, db_fault e n q = None) ->
  let page :=
    SelectRange "entry_metadata" (Some ["entry_id"; "title"]) "updated_at"
      offset (offset + limit - 1) in
  let entries := (postgrest.run e (length (trace w)) page (tables w)).1 in
  supabase_client.regenerate_embeddings limit offset e w
  = (Ok (supabase_client.Processed 0 (Z.of_nat (length entries))
           (Z.of_nat (length entries))),
     State (trace w ++ DbExecute page :: (DbExecute ∘ content_query <$> entries))
       (tables w)).
Proof.
  intros Hkey Hdb page entries.
  unfold supabase_client.regenerate_embeddings, try_with. rewrite execute_run.
  fold page. rewrite Hdb. fold entries.
  rewrite regenerate_loop_without_key by done. cbn [trace tables postgrest.run snd].
  by rewrite <- app_assoc.
Qed.

Lemma regenerate_embeddings_without_key_witness :
  exists w' : state,
    supabase_client.regenerate_embeddings 10 0 sample_more.no_key sample.library
    = (Ok (supabase_client.Processed 0 5 5), w')
    /\ tables w' = tables sample.library
    /\ List.filter is_create (trace w') = [].
Proof.
  eexists. split; [|split].
  - apply (regenerate_embeddings_without_key 10 0 sample_more.no_key sample.library).
    + reflexivity.
    + intros n q. reflexivity.
  - reflexivity.
  - reflexivity.
Defined.

(** ** The routes *)

Lemma get_entry_quiet (entry_id : string) (e : env) (w : state) :
  exists r w',
    supabase_reads.get_entry entry_id e w = (Ok r, w') /\ tables w' = tables w.
Proof. rewrite get_entry_run. cbv zeta. repeat case_match; by eexists _, _. Qed.

(** X22: the route [GET /entry] never raises and never answers 500,
    and it writes nothing.  It answers 400 exactly when the url does
    not start with the prefix of the encyclopedia; and when the url is
    accepted but the datastore fails the request for the metadata, it
    answers 404, as for an entry that is not stored. *)
Theorem get_entry_route_statuses (url : string) (e : env) (w : state) :
  exists (o : simple_api.outcome simple_api.entry_reply) (w' : state),
    simple_api.get_entry url e w = (Ok o, w')
    /\ tables w' = tables w
    /\ o <> simple_api.HTTPException 500
    /\ (o = simple_api.HTTPException 400
        <-> pystr.startswith simple_api.SEP_PREFIX url = false)
    /\ (pystr.startswith simple_api.SEP_PREFIX url = true ->
        (exists x,
           db_fault e (length (trace w))
             (SelectEq "entry_metadata" None "entry_id"
                (VStr (url_parts.entry_id_of url))) = Some x) ->
        o = simple_api.HTTPException 404).
Proof.
  unfold simple_api.get_entry, simple_api.reraise_http, try_except.
  destruct (pystr.startswith simple_api.SEP_PREFIX url) eqn:Hp; cbn [negb].
  2:{ eexists _, _. by repeat split. }
  unfold bind. rewrite get_entry_run. cbv zeta.
  set (q1 := SelectEq "entry_metadata" None "entry_id" (VStr (url_parts.entry_id_of url))).
  set (q2 := SelectEq "entry_content" None "entry_id" (VStr (url_parts.entry_id_of url))).
  destruct (db_fault e (length (trace w)) q1) as [x|] eqn:H1.
  { eexists _, _. by repeat split. }
  destruct (db_fault e (length (trace w ++ [DbExecute q1])) q2) as [x|] eqn:H2.
  { eexists _, _. by repeat split. }
  destruct (records_for _ (postgrest.rows_of "entry_metadata" _)) as [|m ms].
  { eexists _, _. by repeat split. }
  destruct (records_for _ (postgrest.rows_of "entry_content" _)) as [|c cs].
  { eexists _, _. by repeat split. }
  case_bool_decide.
  - eexists _, _. repeat split; try done. by intros _ [x ?].
  - eexists _, _. by repeat split.
Qed.

Lemma get_entry_route_statuses_witness :
  (simple_api.get_entry "https://plato.stanford.edu/entries/kant"
     sample_more.store_down sample.library).1
  = Ok (simple_api.HTTPException 404).
Proof.
  destruct (get_entry_route_statuses "https://plato.stanford.edu/entries/kant"
              sample_more.store_down sample.library)
    as (o & w' & Hrun & _ & _ & _ & Hdown).
  rewrite Hrun. cbn [fst]. f_equal. apply Hdown; [reflexivity|].
  by exists (Exception "ConnectError").
Defined.

(** X23: an entry saved under an id without a slash, into a store
    that had no record of it, is served by [GET /entry] under the url
    of the encyclopedia for that id: the reply carries the saved
    title, the entry id and the saved markdown. *)
Theorem save_then_get_entry_route (self : supabase_client.SupabaseManager)
    (entry_id title url : string)
    (date_issued date_modified preamble content_hash html markdown : option string)
    (toc : option (list toc_entry)) (authors : option (list string))
    (e : env) (w w1 : state) :
  entry_id <> EmptyString ->
  url_parts.occurs "/" entry_id = false ->
  records_for entry_id (postgrest.rows_of "entry_metadata" (tables w)) = [] ->
  records_for entry_id (postgrest.rows_of "entry_content" (tables w)) = [] ->
  supabase_client.save_entry self entry_id title url date_issued date_modified
    preamble content_hash html markdown toc authors e w = (Ok true, w1) ->
  (forall n q, (length (trace w1) <= n)%nat -> db_fault e n q = None) ->
  exists reply : simple_api.entry_reply,
    (simple_api.get_entry (simple_api.SEP_PREFIX +:+ entry_id) e w1).1
    = Ok (simple_api.Reply reply)
    /\ simple_api.reply_title reply = VStr title
    /\ simple_api.reply_entry_id reply = VStr entry_id
    /\ simple_api.reply_markdown reply = of_opt markdown.
Proof.
  intros Hne Hslash Hm Hc Hsave Hreads.
  destruct (saved_records self entry_id title url date_issued date_modified
              preamble content_hash html markdown toc authors e w w1 Hm Hc Hsave)
    as (md & c & Hrm & Hrc & Htitle & Hid & Hcid & Hmd).
  assert (url_parts.entry_id_of (simple_api.SEP_PREFIX +:+ entry_id) = entry_id) as Hurl.
  { by apply (entry_id_of_segment "https://plato.stanford.edu/entries" entry_id). }
  unfold simple_api.get_entry, simple_api.reraise_http, try_except.
  assert (pystr.startswith simple_api.SEP_PREFIX (simple_api.SEP_PREFIX +:+ entry_id)
          = true) as -> by (apply startswith_prefix; by exists entry_id).
  cbn [negb]. unfold bind. rewrite Hurl, get_entry_run. cbv zeta.
  rewrite !Hreads by (rewrite ?length_app; lia).
  rewrite Hrm, Hrc.
  assert (c <> ∅) as Hfull.
  { intros ->. by rewrite lookup_empty in Hcid. }
  rewrite bool_decide_true by done.
  eexists. split; [reflexivity|]. cbn [simple_api.reply_title simple_api.reply_entry_id
    simple_api.reply_markdown]. unfold simple_api.dict_get.
  by rewrite !lookup_delete_ne, Htitle, Hid, Hmd.
Qed.

Lemma save_then_get_entry_route_witness :
  exists reply : simple_api.entry_reply,
    (simple_api.get_entry (simple_api.SEP_PREFIX +:+ "kant")
       sample.provider_down sample.saved_once).1
    = Ok (simple_api.Reply reply)
    /\ simple_api.reply_title reply = VStr "Kant"
    /\ simple_api.reply_entry_id reply = VStr "kant"
    /\ simple_api.reply_markdown reply = of_opt (Some "Kant was born in 1724.").
Proof.
  apply (save_then_get_entry_route sample.manager "kant" "Kant"
           "https://plato.stanford.edu/entries/kant" None None None None None
           (Some "Kant was born in 1724.") None None
           sample.provider_down sample.empty_world sample.saved_once).
  - discriminate.
  - reflexivity.
  - reflexivity.
  - reflexivity.
  - vm_compute. reflexivity.
  - intros n q _. reflexivity.
Defined.

Lemma vector_search_quiet (query : string) (limit : Z) (search_type : string)
    (similarity_threshold : float) (e : env) (w : state) :
  exists results w',
    supabase_client.vector_search query limit search_type similarity_threshold e w
    = (Ok results, w')
    /\ tables w' = tables w.
Proof.
  unfold supabase_client.vector_search, try_except, bind.
  destruct (generate_embedding_run (Some query) embeddings.EMBEDDINGS_MODEL 3 e w)
    as (r & evs & input & -> & _).
  destruct r as [[|x v]|]; [by eexists _, _|..|by eexists _, _].
  rewrite execute_run. cbn [trace tables].
  destruct (db_fault e _ _); [by eexists _, _|].
  cbn [postgrest.run fst snd].
  destruct (match_entries e _ _ _ _ _); by eexists _, _.
Qed.

(** X24: the route [GET /vector-search] never raises and writes
    nothing.  A search type other than [content] and [title], or a
    threshold below 0 or above 1, is answered with 500, not 400, and
    nothing is sent; valid parameters are always answered with a
    reply, whose count is the number of its results. *)
Theorem vector_search_route_outcome (query : string) (limit : Z) (search_type : string)
    (similarity_threshold : float) (e : env) (w : state) :
  let valid :=
    bool_decide (search_type ∈ ["content"; "title"])
    && negb (simple_api.lt_zero similarity_threshold
             || simple_api.gt_one similarity_threshold) in
  exists (o : simple_api.outcome simple_api.vector_reply) (w' : state),
    simple_api.vector_search query limit search_type similarity_threshold e w
    = (Ok o, w')
    /\ tables w' = tables w
    /\ (valid = false -> o = simple_api.HTTPException 500 /\ w' = w)
    /\ (valid = true ->
        exists results,
          o = simple_api.Reply
                (simple_api.VectorReply query search_type similarity_threshold results
                   (Z.of_nat (length results)))).
Proof.
  intros valid. subst valid. unfold simple_api.vector_search, simple_api.wrap_all.
  destruct (bool_decide (search_type ∈ ["content"; "title"])); cbn [negb andb].
  2:{ eexists _, _. by repeat split. }
  destruct (simple_api.lt_zero similarity_threshold
            || simple_api.gt_one similarity_threshold); cbn [negb].
  { eexists _, _. by repeat split. }
  unfold bind.
  destruct (vector_search_quiet query limit search_type similarity_threshold e w)
    as (results & w' & -> & Ht).
  eexists _, _. split; [done|]. split; [done|]. split; [done|].
  intros _. by exists results.
Qed.

Lemma vector_search_route_outcome_witness :
  simple_api.vector_search "kant" 10 "body" (Float 0)
    sample.provider_up sample.empty_world
  = (Ok (simple_api.HTTPException 500), sample.empty_world).
Proof.
  destruct (vector_search_route_outcome "kant" 10 "body" (Float 0)
              sample.provider_up sample.empty_world)
    as (o & w' & Hrun & _ & Hbad & _).
  rewrite Hrun. by destruct Hbad as [-> ->].
Defined.

(** X25: the route [GET /search] always replies, with the query, the
    results and their number, and it writes nothing; when the
    datastore fails the request for the title matches, the reply has
    no results. *)
Theorem search_entries_route_replies (query : string) (limit : Z) (e : env) (w : state) :
  exists (results : list row) (w' : state),
    simple_api.search_entries query limit e w
    = (Ok (simple_api.Reply
             (simple_api.SearchReply query results (Z.of_nat (length results)))), w')
    /\ tables w' = tables w
    /\ ((exists x,
           db_fault e (length (trace w))
             (SelectIlike "entry_metadata" supabase_client.summary_columns "title"
                ("%" +:+ query +:+ "%") limit) = Some x) ->
        results = []).
Proof.
  unfold simple_api.search_entries, simple_api.wrap_all, bind.
  destruct (search_by_text_run query limit e w) as (results & w' & Hrun & Ht & _).
  rewrite Hrun. exists results, w'. split; [done|]. split; [done|].
  intros [x Hx]. revert Hrun.
  unfold supabase_client.search_by_text, try_except.
  unfold bind at 1. rewrite execute_run, Hx. by intros [= <- _].
Qed.

Lemma search_entries_route_replies_witness :
  (simple_api.search_entries "kant" 10 sample_more.store_down sample.library).1
  = Ok (simple_api.Reply (simple_api.SearchReply "kant" [] 0)).
Proof.
  destruct (search_entries_route_replies "kant" 10 sample_more.store_down sample.library)
    as (results & w' & Hrun & _ & Hdown).
  rewrite Hrun. rewrite Hdown; [reflexivity|].
  by exists (Exception "ConnectError").
Defined.

Lemma regenerate_embeddings_run (limit offset : Z) (e : env) (w : state) :
  exists r w', supabase_client.regenerate_embeddings limit offset e w = (Ok r, w').
Proof.
  unfold supabase_client.regenerate_embeddings, try_with. rewrite execute_run.
  destruct (db_fault e (length (trace w)) _) as [x|]; [by eexists _, _|].
  match goal with
  | |- context [supabase_client.regenerate_loop ?l ?s ?f ?t e ?w1] =>
      destruct (regenerate_loop_full l s f t e w1) as (r & w' & -> & _)
  end.
  by eexists _, _.
Qed.

(** X26: the route [POST /regenerate-embeddings] always replies with
    the status [success]: when the datastore fails the request for the
    page, the reply still says [success], for 0 processed entries,
    around a summary that carries the error. *)
Theorem regenerate_route_always_success (limit offset : Z) (e : env) (w : state) :
  exists (results : supabase_client.summary) (w' : state),
    simple_api.regenerate_embeddings limit offset e w
    = (Ok (simple_api.Reply
             (simple_api.RegenerateReply "success"
                (simple_api.total_processed_or 0 results) results)), w')
    /\ forall x,
         db_fault e (length (trace w))
           (SelectRange "entry_metadata" (Some ["entry_id"; "title"]) "updated_at"
              offset (offset + limit - 1)) = Some x ->
         results = supabase_client.Failed 0 0 x
         /\ simple_api.total_processed_or 0 results = 0
         /\ tables w' = tables w.
Proof.
  unfold simple_api.regenerate_embeddings, simple_api.wrap_all, bind.
  destruct (regenerate_embeddings_run limit offset e w) as (r & w' & Hrun).
  rewrite Hrun. exists r, w'. split; [done|].
  intros x Hx. revert Hrun.
  unfold supabase_client.regenerate_embeddings, try_with.
  rewrite execute_run, Hx. by intros [= <- <-].
Qed.

Lemma regenerate_route_always_success_witness :
  (simple_api.regenerate_embeddings 10 0 sample_more.store_down sample.library).1
  = Ok (simple_api.Reply
          (simple_api.RegenerateReply "success" 0
             (supabase_client.Failed 0 0 (Exception "ConnectError")))).
Proof.
  destruct (regenerate_route_always_success 10 0 sample_more.store_down sample.library)
    as (results & w' & Hrun & Hdown).
  rewrite Hrun. by destruct (Hdown (Exception "ConnectError") eq_refl) as (-> & _ & _).
Defined.
